(** * Conway BSS (Behavior Support System): edit guard, event ledger,
      alert scan and roster sync of [src/main.ts], embedded over a model
      of the spreadsheet store.

    The script runs inside Google Sheets.  The spreadsheet, the property
    stores, the mail service and the UI are state that the script reads
    and writes; they are modelled by the record [World] and every entry
    point of the script is a function from worlds to worlds.  What the
    JavaScript host computes and the script only calls (date parsing and
    printing, JSON, locale comparison, the clock, whether a mail delivery
    fails) is gathered in the record [Host]. *)

From Stdlib Require Import ZArith Lia Ascii.
From stdpp Require Import gmap strings list fin_maps pretty.

Open Scope string_scope.
Open Scope nat_scope.
Open Scope stdpp_scope.

(** ** JavaScript values and strings *)

Module Js.

(** What [Range.getValue] can return for a cell: a string (the empty
    string for an empty cell), a number (integers are modelled), a
    boolean or a [Date] (milliseconds since the epoch). *)
Inductive value :=
| VStr (s : string)
| VNum (n : Z)
| VBool (b : bool)
| VDate (t : Z).

#[global] Instance value_eq_dec : EqDecision value.
Proof. solve_decision. Defined.

(** Outcome of a call that may throw. *)
Inductive result (A : Type) :=
| Ok (a : A)
| Throw (msg : string).
Arguments Ok {A} a.
Arguments Throw {A} msg.

(** [!!v] *)
Definition truthy (v : value) : bool :=
  match v with
  | VStr s => negb (bool_decide (s = ""))
  | VNum n => negb (bool_decide (n = 0%Z))
  | VBool b => b
  | VDate _ => true
  end.

(** [a === b]; two [Date] objects read from the store are never
    identical. *)
Definition strictEq (a b : value) : bool :=
  match a, b with
  | VStr x, VStr y => bool_decide (x = y)
  | VNum x, VNum y => bool_decide (x = y)
  | VBool x, VBool y => bool_decide (x = y)
  | _, _ => false
  end.

(** [v === '' || v === null] : the emptiness test of the edit guard. *)
Definition isMissing (v : value) : bool := bool_decide (v = VStr "").

Definition nl : string := String (ascii_of_nat 10) "".
(** the double quote character *)
Definition dq : string := String (ascii_of_nat 34) "".

(** The white space that [trim] strips, among the characters of the
    model, which are single bytes: space, tab, line feed, vertical tab,
    form feed and carriage return. *)
Definition isWhite (c : ascii) : bool :=
  let n := nat_of_ascii c in
  bool_decide (n = 32) || (bool_decide (9 ≤ n) && bool_decide (n ≤ 13)).

Fixpoint trimStart (s : string) : string :=
  match s with
  | String c r => if isWhite c then trimStart r else s
  | EmptyString => EmptyString
  end.

Fixpoint trimEnd (s : string) : string :=
  match s with
  | String c r =>
      let r' := trimEnd r in
      if isWhite c && bool_decide (r' = "") then "" else String c r'
  | EmptyString => EmptyString
  end.

Definition trim (s : string) : string := trimEnd (trimStart s).

(** [toLowerCase] on one character: the letters A to Z. *)
Definition lowerChar (c : ascii) : ascii :=
  let n := nat_of_ascii c in
  if bool_decide (65 ≤ n) && bool_decide (n ≤ 90) then ascii_of_nat (n + 32) else c.

Fixpoint toLowerCase (s : string) : string :=
  match s with
  | String c r => String (lowerChar c) (toLowerCase r)
  | EmptyString => EmptyString
  end.

Fixpoint includesChar (c : ascii) (s : string) : bool :=
  match s with
  | String d r => bool_decide (c = d) || includesChar c r
  | EmptyString => false
  end.

(** [s.split(search).join(replacement)] for a non-empty [search];
    [fuel] bounds the scan by the length of [s]. *)
Fixpoint replaceFrom (fuel : nat) (s search replacement : string) : string :=
  match fuel with
  | 0 => s
  | S fuel' =>
      match s with
      | EmptyString => EmptyString
      | String c r =>
          if String.prefix search s
          then replacement +:+
               replaceFrom fuel' (String.substring (String.length search)
                                    (String.length s - String.length search) s)
                 search replacement
          else String c (replaceFrom fuel' r search replacement)
      end
  end.

Definition replaceAllTokens (source search replacement : string) : string :=
  if bool_decide (search = "") then source
  else replaceFrom (String.length source) source search replacement.

(** [xs.join(sep)] on strings. *)
Fixpoint joinWith (sep : string) (xs : list string) : string :=
  match xs with
  | [] => ""
  | [x] => x
  | x :: rest => x +:+ sep +:+ joinWith sep rest
  end.

(** [xs.findIndex(p)], with [None] for [-1]. *)
Fixpoint findIndexFrom {A} (p : A → bool) (i : nat) (xs : list A) : option nat :=
  match xs with
  | [] => None
  | x :: rest => if p x then Some i else findIndexFrom p (S i) rest
  end.
Definition findIndex {A} (p : A → bool) (xs : list A) : option nat :=
  findIndexFrom p 0 xs.

(** [xs.indexOf(x)] on strings. *)
Definition indexOf (x : string) (xs : list string) : option nat :=
  findIndex (λ y, bool_decide (y = x)) xs.

End Js.
Export Js.

(** ** The JavaScript host *)

(** One message handed to [MailApp.sendEmail]. *)
Record Email := mkEmail {
  mail_to : string;
  mail_subject : string;
  mail_body : string
}.

Record Host := mkHost {
  (** [new Date()] for this invocation. *)
  now : Z;
  (** whether [SpreadsheetApp.getUi()] is available ([canUseUi]). *)
  canUseUi : bool;
  (** [Date.prototype.toString]. *)
  dateToString : Z → string;
  (** [new Date(str)], [None] for an invalid date. *)
  dateParse : string → option Z;
  (** [getMonth], [getDate], [getFullYear] in the local time zone. *)
  getMonth : Z → nat;
  getDate : Z → Z;
  getFullYear : Z → Z;
  (** [Utilities.formatDate(d, Session.getScriptTimeZone(), fmt)]. *)
  formatDate : Z → string → string;
  toLocaleString : Z → string;
  toISOString : Z → string;
  (** [JSON.stringify] of a flat object and [JSON.parse] to such an
      object: [None] when parsing throws, with the text [String(e)] of
      the fault.  The texts parsed are those that the script stored; a
      text that parses to something that is no object is no state of
      the model. *)
  jsonStringify : list (string * option value) → string;
  jsonParse : string → option (list (string * option value));
  jsonParseFault : string → string;
  encodeURIComponent : string → string;
  (** [a.localeCompare(b) <= 0]. *)
  localeLe : string → string → bool;
  (** whether [MailApp.sendEmail] delivers the message (it throws
      otherwise), and the text [String(e)] of the fault it throws. *)
  sendEmailOk : Email → bool;
  sendEmailFault : Email → string
}.

Section Conversions.
Context (h : Host).

(** [v.toString()].  The numbers of the model are integers, printed
    in decimal notation, which is how the script prints an integer
    below [1e21] in absolute value. *)
Definition toString (v : value) : string :=
  match v with
  | VStr s => s
  | VNum n => pretty n
  | VBool b => if b then "true" else "false"
  | VDate t => dateToString h t
  end.

(** [(v || '').toString()] *)
Definition strOr (v : value) : string :=
  if truthy v then toString v else "".

(** An array element inside [join] or a template string: [undefined]
    and [null] print as the empty string in [join]. *)
Definition joinElem (v : option value) : string :=
  match v with
  | Some x => toString x
  | None => ""
  end.

(** [String(v)] inside a template literal. *)
Definition templ (v : option value) : string :=
  match v with
  | Some x => toString x
  | None => "undefined"
  end.
End Conversions.

(** ** The spreadsheet store *)

Module Store.

(** A sheet: the content and the note of each cell, by 1-based
    [(row, column)].  A cell without an entry is empty. *)
Record Sheet := mkSheet {
  cells : gmap (nat * nat) value;
  notes : gmap (nat * nat) string
}.

Definition emptySheet : Sheet := mkSheet ∅ ∅.

(** [sheet.getRange(r, c).getValue()] *)
Definition getValue (s : Sheet) (r c : nat) : value :=
  default (VStr "") (cells s !! (r, c)).

(** [sheet.getRange(r, c).setValue(v)] *)
Definition setValue (r c : nat) (v : value) (s : Sheet) : Sheet :=
  mkSheet (if isMissing v then delete (r, c) (cells s) else <[(r, c) := v]> (cells s))
          (notes s).

(** [sheet.getRange(r, c).clearContent()] *)
Definition clearContent (r c : nat) (s : Sheet) : Sheet :=
  mkSheet (delete (r, c) (cells s)) (notes s).

(** [getNote] and [setNote] *)
Definition getNote (s : Sheet) (r c : nat) : string :=
  default "" (notes s !! (r, c)).

Definition setNote (r c : nat) (n : string) (s : Sheet) : Sheet :=
  mkSheet (cells s)
          (if bool_decide (n = "") then delete (r, c) (notes s) else <[(r, c) := n]> (notes s)).

(** [getLastRow], [getLastColumn]: the last row and column that have
    content, 0 on an empty sheet. *)
Definition getLastRow (s : Sheet) : nat :=
  map_fold (λ k v acc, if isMissing v then acc else Nat.max k.1 acc) 0 (cells s).

Definition getLastColumn (s : Sheet) : nat :=
  map_fold (λ k v acc, if isMissing v then acc else Nat.max k.2 acc) 0 (cells s).

(** Writes a row of values from column 1 on. *)
Definition writeRow (r : nat) (vals : list value) (s : Sheet) : Sheet :=
  foldl (λ acc iv, setValue r (S iv.1) iv.2 acc) s (imap pair vals).

(** [getRange(r, 1, n, width).setValues(rows)] *)
Definition writeRows (r : nat) (rows : list (list value)) (s : Sheet) : Sheet :=
  foldl (λ acc irow, writeRow (r + irow.1) irow.2 acc) s (imap pair rows).

(** [sheet.appendRow(vals)]: below the last row that has content. *)
Definition appendRow (vals : list value) (s : Sheet) : Sheet :=
  writeRow (S (getLastRow s)) vals s.

(** [getDataRange().getValues()] has [dataRows] rows of [dataCols]
    cells: one cell on an empty sheet. *)
Definition dataRows (s : Sheet) : nat := Nat.max 1 (getLastRow s).
Definition dataCols (s : Sheet) : nat := Nat.max 1 (getLastColumn s).

(** Row [r] of the sheet, columns 1 to [width]. *)
Definition rowValues (s : Sheet) (r width : nat) : list value :=
  map (λ c, getValue s r (S c)) (seq 0 width).

(** The spreadsheet: its tabs in order, each with a unique name. *)
Fixpoint lookupSheet (name : string) (tabs : list (string * Sheet)) : option Sheet :=
  match tabs with
  | [] => None
  | (n, s) :: rest => if bool_decide (n = name) then Some s else lookupSheet name rest
  end.

(** Replaces the tab called [name], or inserts it as the last tab. *)
Fixpoint storeSheet (name : string) (s : Sheet) (tabs : list (string * Sheet))
  : list (string * Sheet) :=
  match tabs with
  | [] => [(name, s)]
  | (n, s') :: rest =>
      if bool_decide (n = name) then (n, s) :: rest
      else (n, s') :: storeSheet name s rest
  end.

(** The text held by the document property [teamSyncMap]: either the
    JSON text of an object from team names to texts, which is what the
    script stores, represented by that object ([SyncJson]); or a text
    on which [JSON.parse] throws, and the empty text ([SyncText]).  A
    text that [JSON.parse] accepts without giving such an object
    ([null], an array, a number) is no state of the model: the results
    on the sync state assume that the property is absent or holds an
    object. *)
Inductive SyncProp :=
| SyncJson (m : gmap string string)
| SyncText (raw : string).

(** A message shown to the user: a toast or an alert box. *)
Record UiMsg := mkUi { ui_title : string; ui_text : string }.

Record World := mkWorld {
  sheets : list (string * Sheet);
  (** document property [teamSyncMap] *)
  teamSyncMap : option SyncProp;
  (** user property [bssUserEmail] *)
  bssUserEmail : option string;
  (** the calls of [MailApp.sendEmail], oldest first, each with
      whether the service delivered the message *)
  outbox : list (Email * bool);
  (** toasts and alerts shown, oldest first *)
  shown : list UiMsg
}.

Definition getSheetByName (name : string) (w : World) : option Sheet :=
  lookupSheet name (sheets w).

Definition putSheet (name : string) (s : Sheet) (w : World) : World :=
  mkWorld (storeSheet name s (sheets w)) (teamSyncMap w) (bssUserEmail w)
          (outbox w) (shown w).

(** Applies a change to the tab [name]; nothing happens when the tab
    does not exist. *)
Definition onSheet (name : string) (f : Sheet → Sheet) (w : World) : World :=
  match getSheetByName name w with
  | Some s => putSheet name (f s) w
  | None => w
  end.

(** Reads through the handle of tab [name]. *)
Definition cellValue (w : World) (name : string) (r c : nat) : value :=
  match getSheetByName name w with
  | Some s => getValue s r c
  | None => VStr ""
  end.

Definition cellNote (w : World) (name : string) (r c : nat) : string :=
  match getSheetByName name w with
  | Some s => getNote s r c
  | None => ""
  end.

Definition show (title text : string) (w : World) : World :=
  mkWorld (sheets w) (teamSyncMap w) (bssUserEmail w) (outbox w)
          (shown w ++ [mkUi title text])%list.

Definition mailCall (m : Email) (delivered : bool) (w : World) : World :=
  mkWorld (sheets w) (teamSyncMap w) (bssUserEmail w) (outbox w ++ [(m, delivered)])%list
          (shown w).

Definition setTeamSyncMap (p : option SyncProp) (w : World) : World :=
  mkWorld (sheets w) p (bssUserEmail w) (outbox w) (shown w).

(** [w'] differs from [w] by lines of the diagnostic log at most: the
    same mail calls and, the tab [DebugLog] apart, the same tabs. *)
Definition sameTabs (w w' : World) : Prop :=
  outbox w' = outbox w
  ∧ ∀ name, name ≠ "DebugLog" → getSheetByName name w' = getSheetByName name w.

End Store.
Export Store.

(** ** Global configuration and logging *)

Definition FIRST_STUDENT_ROW : nat := 3.
Definition TEAM_TEMPLATE_NAME : string := "TeamTemplate".
Definition EXCLUDE_SHEETS : list string :=
  ["Variables"; "Templates"; "StudentList"; "EmailLog"; "DebugLog"; "EventLog";
   TEAM_TEMPLATE_NAME].
Definition INFRACTION_SEQUENCE : list string := ["1st"; "2nd"; "3rd"; "4th"; "5th"].

(** [xs.includes(x)] on strings. *)
Definition includes (x : string) (xs : list string) : bool :=
  bool_decide (x ∈ xs).

(** [debugLog(message)]: appends [[new Date(), message]] to the tab
    [DebugLog], which is created when it is missing. *)
Definition debugLog (h : Host) (message : string) (w : World) : World :=
  let logSheet := default emptySheet (getSheetByName "DebugLog" w) in
  putSheet "DebugLog" (appendRow [VDate (now h); VStr message] logSheet) w.

(** [if (canUseUi()) SpreadsheetApp.getActive().toast(text, title, 5)] *)
Definition toast (h : Host) (text title : string) (w : World) : World :=
  if canUseUi h then show title text w else w.

(** ** Week blocks *)

Module WeekBlocks.

Record WeekColumnBlock := mkBlock {
  startCol : nat;
  endCol : nat;
  label : string
}.

Section WithHost.
Context (h : Host).

(** [(row[c] || '').toString().trim()] for the header cell in row
    [r], 0-based column [c]. *)
Definition headerCell (s : Sheet) (r c : nat) : string :=
  trim (strOr h (getValue s r (S c))).

Definition getWeekColumnBlocks (s : Sheet) : list WeekColumnBlock :=
  let width := getLastColumn s in
  if width <? 5 then []
  else
    omap (λ c,
            if bool_decide (toLowerCase (headerCell s 2 c) = "5th")
            then let endCol := c + 1 in
                 Some (mkBlock (Nat.max 1 (endCol - 4)) endCol (headerCell s 1 c))
            else None)
         (seq 0 width).

(** The inner loop of [getActiveWeekForSheet]: the first column
    after [c] whose row-2 label is ['5th']. *)
Definition terminalAfter (s : Sheet) (c : nat) : option nat :=
  List.find (λ cc, bool_decide (headerCell s 2 cc = "5th"))
            (seq (c + 1) (dataCols s - (c + 1))).

(** The outer loop over the columns [cs] of row 1.  Reading
    [data[1].length] throws when the data range has a single row. *)
Fixpoint activeScan (s : Sheet) (cs : list nat) : result (option string) :=
  match cs with
  | [] => Ok None
  | c :: rest =>
      if bool_decide (toLowerCase (headerCell s 1 c) = "active")
      then
        if dataRows s <? 2
        then Throw "TypeError: Cannot read properties of undefined (reading 'length')"
        else
          match terminalAfter s c with
          | Some cc =>
              let weekDate := headerCell s 1 cc in
              Ok (if bool_decide (weekDate = "") then None
                  else Some ("Week of " +:+ weekDate))
          | None => activeScan s rest
          end
      else activeScan s rest
  end.

Definition getActiveWeekForSheet (s : Sheet) : result (option string) :=
  activeScan s (seq 0 (dataCols s)).

(** [str.replace(/^Week of\s+/i, '')] *)
Definition stripWeekOf (str : string) : string :=
  let rest := String.substring 7 (String.length str - 7) str in
  if bool_decide (toLowerCase (String.substring 0 7 str) = "week of")
     && negb (bool_decide (trimStart rest = rest))
  then trimStart rest
  else str.

(** The active week's block, [Ok None] for [null]. *)
Definition getActiveWeekBlockCols (s : Sheet) : result (option (nat * nat)) :=
  let width := getLastColumn s in
  if width <? 5 then Ok None
  else
    match getActiveWeekForSheet s with
    | Throw msg => Throw msg
    | Ok None => Ok None
    | Ok (Some activeWeekStr) =>
        let weekDate := trim (stripWeekOf activeWeekStr) in
        Ok (match List.find (λ c, bool_decide (headerCell s 2 c = "5th")
                                   && bool_decide (headerCell s 1 c = weekDate))
                            (seq 0 width) with
            | Some c =>
                let endCol := c + 1 in
                Some (Nat.max 1 (endCol - 4), endCol)
            | None => None
            end)
    end.

(** [getWeekForInfractionCol(headers, col)] on the header rows of
    [s], whose rows have [width] cells. *)
Definition weekOfTerminal (s : Sheet) (c : nat) : string :=
  let weekDate := headerCell s 1 c in
  if bool_decide (weekDate = "") then "Unknown Week" else "Week of " +:+ weekDate.

Definition getWeekForInfractionCol (s : Sheet) (width col : nat) : string :=
  if bool_decide (headerCell s 2 col = "5th") then weekOfTerminal s col
  else
    match List.find (λ c, bool_decide (headerCell s 2 c = "5th"))
                    (seq (col + 1) (width - (col + 1))) with
    | Some c => weekOfTerminal s c
    | None => "Unknown Week"
    end.

End WithHost.
End WeekBlocks.
Export WeekBlocks.

(** ** The edit guard: [onEdit] *)

Module EditGuard.

(** The event object of a single-cell edit: the tab, row and column of
    [e.range], [e.value] and [e.oldValue] ([None] for [undefined]).
    The trigger runs after the store already holds the edit. *)
Record EditEvent := mkEdit {
  ev_sheet : string;
  ev_row : nat;
  ev_col : nat;
  ev_value : option value;
  ev_oldValue : option value
}.

Definition blockedNote : string :=
  "Edit blocked: confirm your email via menu “Conway BSS → Confirm My Email…”.".

Section WithHost.
Context (h : Host).

(** [getSavedUserEmail_()] *)
Definition getSavedUserEmail_ (w : World) : option string :=
  match bssUserEmail w with
  | Some s => if bool_decide (s = "") then None else Some s
  | None => None
  end.

(** [range.setValue(e.oldValue)] when there is an old value,
    [range.clearContent()] otherwise. *)
Definition restoreOld (e : EditEvent) (name : string) (r c : nat) (w : World) : World :=
  match ev_oldValue e with
  | Some old => onSheet name (setValue r c old) w
  | None => onSheet name (clearContent r c) w
  end.

(** Undoes the entry at the working range: the original range gets
    its old value back, a relocation target is cleared. *)
Definition undoWorking (e : EditEvent) (name : string) (relocated : bool)
    (r workingColumn : nat) (w : World) : World :=
  if relocated then onSheet name (clearContent r workingColumn) w
  else restoreOld e name r workingColumn w.

Definition rankName (i : nat) : string :=
  default "undefined" (INFRACTION_SEQUENCE !! i).

(** [INFRACTION_SEQUENCE.findIndex] over the cells of the block in
    row [row]: the first rank whose cell is empty. *)
Definition firstMissingIndex (w : World) (name : string) (row start : nat) : option nat :=
  findIndex (λ idx, isMissing (cellValue w name row (start + idx)))
            (seq 0 (length INFRACTION_SEQUENCE)).

(** The loop over the ranks below [workingLabelIndex]: the first one
    whose cell is empty. *)
Definition firstGapBelow (w : World) (name : string) (row start workingLabelIndex : nat)
  : option nat :=
  List.find (λ i, isMissing (cellValue w name row (start + i)))
            (seq 0 workingLabelIndex).

(** The attribution line put on top of the note [prevNote]. *)
Definition stampNote (email prevNote : string) : string :=
  "Entered by: " +:+ email +:+ " | " +:+ toLocaleString h (now h)
  +:+ (if bool_decide (prevNote = "") then "" else nl +:+ prevNote).

(** The last part of [onEdit]: the e-mail requirement and the
    attribution note. *)
Definition attribute (e : EditEvent) (name : string) (relocated : bool)
    (row workingColumn : nat) (w : World) : World :=
  match getSavedUserEmail_ w with
  | None =>
      let w1 := undoWorking e name relocated row workingColumn w in
      onSheet name (setNote row (ev_col e) blockedNote) w1
  | Some email =>
      let prevNote := cellNote w name row workingColumn in
      onSheet name (setNote row workingColumn (stampNote email prevNote)) w
  end.

(** The sequence check on the block that starts at [start], after a
    possible relocation. *)
Definition sequenceCheck (e : EditEvent) (name : string) (relocated : bool)
    (row start workingColumn workingLabelIndex : nat) (w : World) : World :=
  match firstGapBelow w name row start workingLabelIndex with
  | Some i =>
      let w1 := undoWorking e name relocated row workingColumn w in
      let w2 := toast h ("Enter the " +:+ rankName i +:+ " infraction before recording the "
                         +:+ rankName workingLabelIndex +:+ ".")
                      "BSS: Sequence Required" w1 in
      debugLog h ("[" +:+ name +:+ "] Blocked " +:+ rankName workingLabelIndex
                  +:+ " entry at R" +:+ pretty row +:+ "C" +:+ pretty workingColumn
                  +:+ ": missing " +:+ rankName i +:+ ".") w2
  | None => attribute e name relocated row workingColumn w
  end.

(** The relocation step and what follows it, for the week block that
    starts at [start]. *)
Definition relocateAndCheck (e : EditEvent) (name : string) (newVal : value)
    (row col labelIndex start : nat) (w : World) : World :=
  match firstMissingIndex w name row start with
  | Some firstMissing =>
      if firstMissing <? labelIndex
      then
        let targetColumn := start + firstMissing in
        let w1 := restoreOld e name row col w in
        let w2 := onSheet name (setValue row targetColumn newVal) w1 in
        let w3 := toast h ("Value moved to the " +:+ rankName firstMissing
                           +:+ " infraction column for this week.")
                        "BSS: Sequence Adjusted" w2 in
        let w4 := debugLog h ("[" +:+ name +:+ "] Auto-moved entry at R" +:+ pretty row
                              +:+ "C" +:+ pretty col +:+ " to " +:+ rankName firstMissing
                              +:+ " column (C" +:+ pretty targetColumn +:+ ").") w3 in
        sequenceCheck e name true row start targetColumn firstMissing w4
      else sequenceCheck e name false row start col labelIndex w
  | None => sequenceCheck e name false row start col labelIndex w
  end.

(** The block used by the sequence rules: the first week block that
    contains [col], else the active block. *)
Definition weekBlockStart (sheet : Sheet) (cols : option (nat * nat)) (col : nat)
  : option nat :=
  match List.find (λ b, (startCol b <=? col) && (col <=? endCol b))
                  (getWeekColumnBlocks h sheet) with
  | Some b => Some (startCol b)
  | None => fst <$> cols
  end.

(** The rank named by the row-2 label of column [col]:
    [INFRACTION_SEQUENCE.findIndex((entry) => entry === label)]. *)
Definition rankIndexOf (sheet : Sheet) (col : nat) : option nat :=
  let label := toLowerCase (trim (strOr h (getValue sheet 2 col))) in
  findIndex (λ entry, bool_decide (entry = label)) INFRACTION_SEQUENCE.

(** [newVal]: [e.value], or the cell itself when the event has no
    value. *)
Definition newValOf (e : EditEvent) (sheet : Sheet) : value :=
  match ev_value e with
  | None => getValue sheet (ev_row e) (ev_col e)
  | Some v => v
  end.

(** What follows the week guard. *)
Definition guardRankEdit (e : EditEvent) (sheet : Sheet) (cols : option (nat * nat))
    (w : World) : World :=
  let name := ev_sheet e in
  let row := ev_row e in
  let col := ev_col e in
  match rankIndexOf sheet col with
  | None => w
  | Some labelIndex =>
      let newVal := newValOf e sheet in
      if negb (truthy newVal) then w
      else
        match weekBlockStart sheet cols col with
        | Some start => relocateAndCheck e name newVal row col labelIndex start w
        | None => attribute e name false row col w
        end
  end.

(** [onEdit(e)].  The body runs inside [try]: a throw leaves the
    world as it is at that point. *)
Definition onEdit (e : EditEvent) (w : World) : World :=
  let name := ev_sheet e in
  match getSheetByName name w with
  | None => w
  | Some sheet =>
      if includes name EXCLUDE_SHEETS then w
      else if ev_row e <=? FIRST_STUDENT_ROW then w
      else
        match getActiveWeekBlockCols h sheet with
        | Throw _ => w
        | Ok (Some (startCol, endCol)) =>
            if (startCol <=? ev_col e) && (ev_col e <=? endCol)
            then guardRankEdit e sheet (Some (startCol, endCol)) w
            else
              let w1 := restoreOld e name (ev_row e) (ev_col e) w in
              let w2 := toast h
                "Edits are locked for past/future weeks. Please use the current week's columns only."
                "BSS: Edit Blocked" w1 in
              debugLog h ("[" +:+ name +:+ "] Blocked edit outside current week at R"
                          +:+ pretty (ev_row e) +:+ "C" +:+ pretty (ev_col e) +:+ ".") w2
        | Ok None => guardRankEdit e sheet None w
        end
  end.

End WithHost.

(** The sequence rule in row [row] of the week block that starts at
    column [start]: a rank cell is filled only if the cells of all
    lower ranks are. *)
Definition sequenceOk (w : World) (name : string) (row start : nat) : bool :=
  forallb (λ j, isMissing (cellValue w name row (start + j))
                || forallb (λ i, negb (isMissing (cellValue w name row (start + i))))
                           (seq 0 j))
          (seq 0 (length INFRACTION_SEQUENCE)).

End EditGuard.
Export EditGuard.

(** ** The event ledger: [processNewEvents] *)

Module Ledger.

(** The header row that [processNewEvents] writes when it creates the
    tab [EventLog]. *)
Definition EVENT_HEADER : list string :=
  ["Timestamp"; "DSID"; "Last Name"; "First Name"; "Grade"; "Team"; "Infraction";
   "Week"; "Entered By"; "Sheet Name"; "Source Value"; "All Student Data"; "Alerted"].

Definition MONTHS : list string :=
  ["Jan"; "Feb"; "Mar"; "Apr"; "May"; "Jun"; "Jul"; "Aug"; "Sep"; "Oct"; "Nov"; "Dec"].

(** The characters before the first ['|'] of [s], if it has one. *)
Fixpoint beforeBar (s : string) : option string :=
  match s with
  | EmptyString => None
  | String c r =>
      if bool_decide (c = "|"%char) then Some ""
      else String c <$> beforeBar r
  end.

(** The first capture of [/Entered by:\s*([^|]+)\s*\|/i] in [s], up to
    surrounding white space: the text between the first
    ["Entered by:"] that is followed by a non-empty bar-free text and
    the bar that ends that text. *)
Fixpoint enteredByMatch (s : string) : option string :=
  match s with
  | EmptyString => None
  | String c r =>
      if String.prefix "entered by:" (toLowerCase s)
      then match beforeBar (String.substring 11 (String.length s - 11) s) with
           | Some x => if bool_decide (x = "") then enteredByMatch r else Some x
           | None => enteredByMatch r
           end
      else enteredByMatch r
  end.

(** [note.split('\n')[0]] *)
Fixpoint firstLine (s : string) : string :=
  match s with
  | EmptyString => EmptyString
  | String c r => if bool_decide (c = ascii_of_nat 10) then "" else String c (firstLine r)
  end.

(** The author recorded in a cell note, ['unknown'] without one. *)
Definition enteredByOfNote (note : string) : string :=
  match enteredByMatch (firstLine note) with
  | Some x => if includesChar "@"%char (trim x) then trim x else "unknown"
  | None => "unknown"
  end.

(** [obj[key] = v] on an object whose keys keep insertion order. *)
Fixpoint setField {A} (key : string) (v : A) (obj : list (string * A)) : list (string * A) :=
  match obj with
  | [] => [(key, v)]
  | (k, x) :: rest =>
      if bool_decide (k = key) then (k, v) :: rest else (k, x) :: setField key v rest
  end.

(** [obj[key]] *)
Fixpoint getField {A} (key : string) (obj : list (string * A)) : option A :=
  match obj with
  | [] => None
  | (k, x) :: rest => if bool_decide (k = key) then Some x else getField key rest
  end.

(** The state of one run: the [EventLog] tab, [eventMap], [newEvents]
    and the fault that ended the run, if any. *)
Record Run := mkRun {
  eventSheet : Sheet;
  eventMap : gmap string nat;
  newEvents : list (list value);
  thrown : option string
}.

Section WithHost.
Context (h : Host).

Definition renderDate (d : Z) : string :=
  default "undefined" (MONTHS !! getMonth h d) +:+ " " +:+ pretty (getDate h d)
  +:+ ", " +:+ pretty (getFullYear h d).

(** [formatWeekDate(dateVal)], [None] standing for [undefined]. *)
Definition formatWeekDate (dateVal : option value) : string :=
  match dateVal with
  | Some (VDate d) => renderDate d
  | Some (VStr s) =>
      if bool_decide (trim s = "") then ""
      else match dateParse h s with
           | Some d => renderDate d
           | None => s
           end
  | _ => ""
  end.

(** [eventCol[name]]: the last column of the header row whose text
    is [name]. *)
Definition eventCol (headers : list value) (name : string) : option nat :=
  foldl (λ acc ih, if bool_decide (toString h ih.2 = name) then Some ih.1 else acc)
        None (imap pair headers).

(** [row[eventCol[name]]] of row [r] (1-based) of the ledger. *)
Definition ledgerField (headers : list value) (s : Sheet) (r : nat) (name : string)
  : option value :=
  (λ c, getValue s r (S c)) <$> eventCol headers name.

(** [[a, b, c].join('|')] *)
Definition ledgerKey (dsid infraction : option value) (week : string) : string :=
  joinElem h dsid +:+ "|" +:+ joinElem h infraction +:+ "|" +:+ week.

(** The key under which row [r] of the ledger enters [eventMap]. *)
Definition rowKey (headers : list value) (s : Sheet) (r : nat) : string :=
  ledgerKey (ledgerField headers s r "DSID") (ledgerField headers s r "Infraction")
            (formatWeekDate (ledgerField headers s r "Week")).

(** [eventMap] built from the rows logged so far (sheet rows 2 to
    the last). *)
Definition buildEventMap (headers : list value) (s : Sheet) : gmap string nat :=
  foldl (λ m i, <[rowKey headers s (i + 1) := i + 1]> m) ∅ (seq 1 (dataRows s - 1)).

(** The object [studentData] for the student [dsid]: the fields of
    the first [StudentList] row with that DSID, else the fields of
    the view's own row. *)
Definition objectOfRow (keys : list value) (vals : list value) : list (string * option value) :=
  foldl (λ obj kv, setField (toString h kv.1) (Some kv.2) obj) [] (zip keys vals).

Definition studentDataFor (students : option Sheet) (view : Sheet) (viewRow : nat)
    (dsid : value) : list (string * option value) :=
  let fromView := objectOfRow (rowValues view 3 (dataCols view))
                              (rowValues view viewRow (dataCols view)) in
  match students with
  | None => fromView
  | Some st =>
      let studentHeaders := rowValues st 1 (dataCols st) in
      match findIndex (λ v, strictEq v (VStr "DSID")) studentHeaders with
      | None => fromView
      | Some dsidCol =>
          match List.find (λ i, strictEq (getValue st (S i) (S dsidCol)) dsid)
                          (seq 1 (dataRows st - 1)) with
          | Some i => objectOfRow studentHeaders (rowValues st (S i) (dataCols st))
          | None => fromView
          end
      end
  end.

(** A cell of a new ledger row: [undefined] is written as an empty
    cell. *)
Definition cellOf (v : option value) : value := default (VStr "") v.

(** The ledger key of the rank cell in column [infCol] (0-based) of
    the row of student [dsid]. *)
Definition cellKey (view : Sheet) (dsid : value) (infCol : nat) : string :=
  ledgerKey (Some dsid) (Some (getValue view 2 (S infCol)))
            (formatWeekDate
               (Some (VStr (getWeekForInfractionCol h view (dataCols view) infCol)))).

(** The ledger row pushed to [newEvents] for that cell: the time,
    the identity fields, the rank label, the formatted week, the
    author read from the cell note, the tab, the cell value, the
    identity snapshot and an empty alert marker. *)
Definition newEventRow (name : string) (view : Sheet)
    (studentData : list (string * option value)) (dsid : value) (r infCol : nat)
  : list value :=
  let infractionNum := getValue view 2 (S infCol) in
  let weekRaw := getWeekForInfractionCol h view (dataCols view) infCol in
  let week := formatWeekDate (Some (VStr weekRaw)) in
  let enteredBy := enteredByOfNote (getNote view (S r) (S infCol)) in
  [VDate (now h); dsid;
   cellOf (mjoin (getField "Last Name" studentData));
   cellOf (mjoin (getField "First Name" studentData));
   cellOf (mjoin (getField "Grade" studentData));
   cellOf (mjoin (getField "Team" studentData));
   infractionNum; VStr week; VStr enteredBy; VStr name;
   getValue view (S r) (S infCol);
   VStr (jsonStringify h studentData); VStr ""].

(** What the run does with the rank cell in row [r], column
    [infCol] (both 0-based) of the view [name]. *)
Definition observeCell (headers : list value) (name : string) (view : Sheet)
    (studentData : list (string * option value)) (dsid : value) (r infCol : nat)
    (run : Run) : Run :=
  match thrown run with
  | Some _ => run
  | None =>
      let val := getValue view (S r) (S infCol) in
      if negb (truthy val) then run
      else
        let key := cellKey view dsid infCol in
        match eventMap run !! key with
        | Some rowIdx =>
            match eventCol headers "Source Value" with
            | Some sv =>
                let existingValue := getValue (eventSheet run) rowIdx (S sv) in
                if strictEq existingValue val then run
                else mkRun (setValue rowIdx (S sv) val (eventSheet run))
                           (eventMap run) (newEvents run) None
            | None =>
                mkRun (eventSheet run) (eventMap run) (newEvents run)
                      (Some "Exception: The starting column of the range is too small.")
            end
        | None =>
            let newEvents' :=
              (newEvents run ++ [newEventRow name view studentData dsid r infCol])%list in
            mkRun (eventSheet run)
                  (<[key := getLastRow (eventSheet run) + length newEvents']> (eventMap run))
                  newEvents' None
        end
  end.

(** The rank columns of a view (0-based). *)
Definition infractionCols (view : Sheet) : list nat :=
  filter (λ c, includes (toLowerCase (headerCell h view 2 c)) INFRACTION_SEQUENCE)
         (seq 0 (dataCols view)).

(** One student row [r] (0-based) of a view. *)
Definition observeRow (headers : list value) (students : option Sheet) (name : string)
    (view : Sheet) (dsidIdx r : nat) (run : Run) : Run :=
  let dsid := getValue view (S r) (S dsidIdx) in
  if negb (truthy dsid) then run
  else
    let studentData := studentDataFor students view (S r) dsid in
    foldl (λ acc infCol, observeCell headers name view studentData dsid r infCol acc)
          run (infractionCols view).

(** One tab of the spreadsheet. *)
Definition observeSheet (headers : list value) (students : option Sheet)
    (run : Run) (tab : string * Sheet) : Run :=
  let (name, view) := tab in
  if includes name EXCLUDE_SHEETS then run
  else if dataRows view <? FIRST_STUDENT_ROW + 1 then run
  else
    match findIndex (λ v, strictEq v (VStr "DSID")) (rowValues view 3 (dataCols view)) with
    | None => run
    | Some dsidIdx =>
        foldl (λ acc r, observeRow headers students name view dsidIdx r acc)
              run (seq FIRST_STUDENT_ROW (dataRows view - FIRST_STUDENT_ROW))
    end.

(** The tab [EventLog], created with its header row when missing. *)
Definition openEventLog (w : World) : Sheet :=
  match getSheetByName "EventLog" w with
  | Some s => s
  | None => appendRow (VStr <$> EVENT_HEADER) emptySheet
  end.

(** The scan over all tabs, before the batch append. *)
Definition scanViews (w : World) : Run :=
  let sheet0 := openEventLog w in
  let headers := rowValues sheet0 1 (dataCols sheet0) in
  foldl (observeSheet headers (getSheetByName "StudentList" w))
        (mkRun sheet0 (buildEventMap headers sheet0) [] None)
        (sheets w).

(** The batch append of [newEvents]: [setValues] throws when the
    rows are not as wide as the range. *)
Definition flushNewEvents (headers : list value) (run : Run) : Run :=
  match thrown run with
  | Some _ => run
  | None =>
      if bool_decide (newEvents run = []) then run
      else if bool_decide (length headers = length EVENT_HEADER)
      then mkRun (writeRows (getLastRow (eventSheet run) + 1) (newEvents run)
                            (eventSheet run))
                 (eventMap run) (newEvents run) None
      else mkRun (eventSheet run) (eventMap run) (newEvents run)
                 (Some "Exception: The number of columns in the data does not match the number of columns in the range.")
  end.

(** [processNewEvents()]: the world after the run and the fault that
    ended it, if any. *)
Definition processNewEvents (w : World) : World * option string :=
  let sheet0 := openEventLog w in
  let headers := rowValues sheet0 1 (dataCols sheet0) in
  let run := flushNewEvents headers (scanViews w) in
  let w1 := putSheet "EventLog" (eventSheet run) w in
  match thrown run with
  | Some msg => (w1, Some msg)
  | None =>
      (if canUseUi h
       then show "" ("Event log complete. " +:+ pretty (length (newEvents run))
                     +:+ " new events recorded.") w1
       else w1, None)
  end.

(** The key of a row of [newEvents], from the cells it will have in
    the columns [DSID], [Infraction] and [Week]. *)
Definition insertedKey (row : list value) : string :=
  ledgerKey (row !! 1) (row !! 6) (joinElem h (row !! 7)).

(** What a run keeps of a ledger [sheet0] whose header names the
    source-value column [sv]: the rows logged so far change in that
    column at most, and stay within the data range. *)
Definition keepsLogged (sheet0 : Sheet) (sv : option nat) (run : Run) : Prop :=
  getLastRow sheet0 ≤ getLastRow (eventSheet run)
  ∧ notes (eventSheet run) = notes sheet0
  ∧ ∀ r c, r ≤ getLastRow sheet0 → Some c ≠ S <$> sv →
           getValue (eventSheet run) r c = getValue sheet0 r c.

(** The ledger of a world: the rows of [EventLog] below the header,
    as [getDataRange] returns them. *)
Definition ledgerRows (w : World) : list nat :=
  match getSheetByName "EventLog" w with
  | Some s => seq 2 (dataRows s - 1)
  | None => []
  end.

End WithHost.
End Ledger.
Export Ledger.

(** ** The alert scan: [scanAndSendAlerts] *)

Module Alerts.

Definition isLetter (c : ascii) : bool :=
  let n := nat_of_ascii c in
  (bool_decide (65 ≤ n) && bool_decide (n ≤ 90))
  || (bool_decide (97 ≤ n) && bool_decide (n ≤ 122)).

Definition isDigit (c : ascii) : bool :=
  let n := nat_of_ascii c in
  bool_decide (48 ≤ n) && bool_decide (n ≤ 57).

(** [, \d{4}] at the start of [s]. *)
Definition matchYear (s : string) : option string :=
  match s with
  | String c1 (String c2 (String y1 (String y2 (String y3 (String y4 _))))) =>
      if bool_decide (c1 = ","%char) && bool_decide (c2 = " "%char)
         && isDigit y1 && isDigit y2 && isDigit y3 && isDigit y4
      then Some (String c1 (String c2 (String y1 (String y2 (String y3 (String y4 ""))))))
      else None
  | _ => None
  end.

(** [[A-Za-z]{3} \d{1,2}, \d{4}] at the start of [s]: two digits are
    tried before one. *)
Definition matchWeekAt (s : string) : option string :=
  match s with
  | String a (String b (String c (String sp (String d1 rest)))) =>
      if isLetter a && isLetter b && isLetter c && bool_decide (sp = " "%char) && isDigit d1
      then
        let two := match rest with
                   | String d2 rest' =>
                       if isDigit d2 then String d2 <$> matchYear rest' else None
                   | EmptyString => None
                   end in
        let tail := match two with
                    | Some t => Some t
                    | None => matchYear rest
                    end in
        (λ t, String a (String b (String c (String sp (String d1 t))))) <$> tail
      else None
  | _ => None
  end.

(** The first match of [/([A-Za-z]{3} \d{1,2}, \d{4})/] in [s]. *)
Fixpoint matchWeek (s : string) : option string :=
  match matchWeekAt s with
  | Some m => Some m
  | None =>
      match s with
      | String _ r => matchWeek r
      | EmptyString => None
      end
  end.

(** [s.split(',')] *)
Fixpoint splitComma (s : string) : list string :=
  match s with
  | EmptyString => [""]
  | String c r =>
      if bool_decide (c = ","%char) then "" :: splitComma r
      else match splitComma r with
           | x :: rest => String c x :: rest
           | [] => [String c ""]
           end
  end.

(** [s.replace(/[{}]/g, '')] *)
Fixpoint dropBraces (s : string) : string :=
  match s with
  | EmptyString => EmptyString
  | String c r =>
      if bool_decide (c = "{"%char) || bool_decide (c = "}"%char) then dropBraces r
      else String c (dropBraces r)
  end.

(** [xs.filter((e, idx) => e && xs.indexOf(e) === idx)] *)
Fixpoint dedupe (seen xs : list string) : list string :=
  match xs with
  | [] => []
  | x :: rest =>
      if bool_decide (x = "") || includes x seen then dedupe seen rest
      else x :: dedupe (x :: seen) rest
  end.

(** The lists built by [getAlertRecipients]. *)
Record Recipients := mkRecipients {
  rc_teamLeader : string;
  rc_primary : list string;
  rc_all : list string
}.

Record Template := mkTemplate {
  t_subject : value;
  t_body : value;
  t_mergeFields : list string
}.

(** The state of one scan. *)
Record Scan := mkScan {
  world : World;
  alertsSent : nat;
  fault : option string
}.

Section WithHost.
Context (h : Host).

(** [normalizeWeekStr(weekStr)] *)
Definition normalizeWeekStr (weekStr : option value) : string :=
  match weekStr with
  | None => ""
  | Some v =>
      if negb (truthy v) then ""
      else
        match v with
        | VDate d => formatDate h d "MMM d, yyyy"
        | _ =>
            let str := toString h v in
            match matchWeek str with
            | Some m => m
            | None =>
                match dateParse h str with
                | Some d => formatDate h d "MMM d, yyyy"
                | None => str
                end
            end
        end
  end.

(** [teamActiveWeeks]: the normalized active week of each team tab;
    a throw of [getActiveWeekForSheet] ends the scan.  The assignment
    [teamActiveWeeks[name] = activeWeek] stores nothing for the name
    [__proto__], under which a script object takes no text. *)
Definition teamActiveWeeks (tabs : list (string * Sheet)) : result (gmap string string) :=
  foldl (λ acc tab,
           match acc with
           | Throw msg => Throw msg
           | Ok m =>
               if includes tab.1 EXCLUDE_SHEETS then Ok m
               else
                 match getActiveWeekForSheet h tab.2 with
                 | Throw msg => Throw msg
                 | Ok activeWeekRaw =>
                     let activeWeek := normalizeWeekStr (VStr <$> activeWeekRaw) in
                     Ok (if bool_decide (activeWeek = "") || bool_decide (tab.1 = "__proto__")
                         then m
                         else <[tab.1 := activeWeek]> m)
                 end
           end)
        (Ok ∅) tabs.

(** [event[headers.indexOf(name)]] for row [r] (1-based) of the
    ledger [ev]. *)
Definition headerIndex (ev : Sheet) (name : string) : option nat :=
  findIndex (λ v, strictEq v (VStr name)) (rowValues ev 1 (dataCols ev)).

Definition eventField (ev : Sheet) (r : nat) (name : string) : option value :=
  (λ c, getValue ev r (S c)) <$> headerIndex ev name.

(** [a === b] on possibly undefined values. *)
Definition optStrictEq (a b : option value) : bool :=
  match a, b with
  | Some x, Some y => strictEq x y
  | None, None => true
  | _, _ => false
  end.

(** Whether the scan goes on to notify for row [r]: the rank is
    ['5th'], the marker is empty and the week is the active week of
    the event's tab. *)
Definition qualifies (weeks : gmap string string) (ev : Sheet) (r : nat) : bool :=
  optStrictEq (eventField ev r "Infraction") (Some (VStr "5th"))
  && negb (from_option truthy false (eventField ev r "Alerted"))
  && match weeks !! templ h (eventField ev r "Sheet Name") with
     | Some activeWeek =>
         bool_decide (normalizeWeekStr (eventField ev r "Week") = activeWeek)
     | None => false
     end.

(** [getTemplateByName(templateSheet, templateName)] *)
Definition fieldToRow (t : Sheet) (name : string) : option nat :=
  foldl (λ acc r, if bool_decide (toString h (getValue t (S r) 1) = name) then Some r else acc)
        None (seq 0 (dataRows t)).

Definition getTemplateByName (t : Sheet) (templateName : string) : result Template :=
  match findIndex (λ v, strictEq v (VStr templateName)) (rowValues t 1 (dataCols t)) with
  | None => Throw ("Template not found: " +:+ templateName)
  | Some colIndex =>
      let mergeFields :=
        match fieldToRow t "Merge Fields" with
        | Some r =>
            filter (λ s, negb (bool_decide (s = "")))
                   ((λ s, trim (dropBraces s))
                      <$> splitComma (strOr h (getValue t (S r) (S colIndex))))
        | None => []
        end in
      match fieldToRow t "Subject", fieldToRow t "Email Body" with
      | Some rs, Some rb =>
          Ok (mkTemplate (getValue t (S rs) (S colIndex)) (getValue t (S rb) (S colIndex))
                         mergeFields)
      | _, _ => Throw "TypeError: Cannot read properties of undefined"
      end
  end.

(** The search for the header row of the staff table in
    [getAlertRecipients]: the state is [(srHeaderRow, srEmailCol,
    srRoleCol)] and the scan stops after the row that completes it. *)
Definition scanStaffRow (v : Sheet) (r : nat) (st : option nat * option nat * option nat)
  : option nat * option nat * option nat :=
  foldl (λ '(hr, ec, rc) c,
           let txt := trim (strOr h (getValue v (S r) (S c))) in
           let '(hr1, ec1) := if bool_decide (txt = "Email") then (Some r, Some c)
                              else (hr, ec) in
           (hr1, ec1, if bool_decide (txt = "Role") then Some c else rc))
        st (seq 0 (dataCols v)).

Fixpoint scanStaffRows (v : Sheet) (rows : list nat)
    (st : option nat * option nat * option nat) : option (nat * nat * nat) :=
  match rows with
  | [] => None
  | r :: rest =>
      match scanStaffRow v r st with
      | (Some hr, Some ec, Some rc) => Some (hr, ec, rc)
      | st' => scanStaffRows v rest st'
      end
  end.

(** What [getAlertRecipients(variablesSheet, teamName)] computes:
    the team leader, the primary responders and the two joined; it
    throws when [teamName] is undefined or null and a row names a
    team. *)
Definition resolveRecipients (v : Sheet) (teamName : option value) : result Recipients :=
  let rows := seq 1 (dataRows v - 1) in
  let named := List.find (λ i, negb (bool_decide (toLowerCase (trim (strOr h (getValue v (S i) 2))) = "")))
                         rows in
  match teamName, named with
  | None, Some _ =>
      Throw "TypeError: Cannot read properties of undefined (reading 'toString')"
  | _, _ =>
      let team := toLowerCase (trim (joinElem h teamName)) in
      let teamLeaderEmail :=
        match List.find (λ i, let rowTeam := toLowerCase (trim (strOr h (getValue v (S i) 2))) in
                              negb (bool_decide (rowTeam = "")) && bool_decide (rowTeam = team))
                        rows with
        | Some i => trim (strOr h (getValue v (S i) 3))
        | None => ""
        end in
      let primaryResponderEmails :=
        match scanStaffRows v (seq 0 (dataRows v)) (None, None, None) with
        | Some (hr, ec, rc) =>
            omap (λ r,
                    let role := trim (strOr h (getValue v (S r) (S rc))) in
                    let email := trim (strOr h (getValue v (S r) (S ec))) in
                    if bool_decide (role = "Primary Responder") && includesChar "@"%char email
                    then Some email else None)
                 (seq (hr + 1) (dataRows v - (hr + 1)))
        | None => []
        end in
      let allEmails :=
        if negb (bool_decide (teamLeaderEmail = ""))
           && negb (includes teamLeaderEmail primaryResponderEmails)
        then (primaryResponderEmails ++ [teamLeaderEmail])%list
        else primaryResponderEmails in
      Ok (mkRecipients teamLeaderEmail primaryResponderEmails allEmails)
  end.

(** The three log lines of [getAlertRecipients]. *)
Definition logRecipients (teamName : option value) (rc : Recipients) (w : World) : World :=
  let w1 := debugLog h ("getAlertRecipients: Team: " +:+ dq +:+ templ h teamName +:+ dq
                        +:+ " - Team Leader: " +:+ dq +:+ rc_teamLeader rc +:+ dq) w in
  let w2 := debugLog h ("getAlertRecipients: Primary Responders: "
                        +:+ joinWith ", " (rc_primary rc)) w1 in
  debugLog h ("getAlertRecipients: ALL recipients: " +:+ joinWith ", " (rc_all rc)) w2.

(** [getAlertRecipients(variablesSheet, teamName)]: the recipients
    and the world after its log lines. *)
Definition getAlertRecipients (v : Sheet) (teamName : option value) (w : World)
  : result (list string) * World :=
  match resolveRecipients v teamName with
  | Throw msg => (Throw msg, w)
  | Ok rc => (Ok (dedupe [] (rc_all rc)), logRecipients teamName rc w)
  end.

(** [String(v)] for a merge field, the empty string for undefined
    and null. *)
Definition replacementOf (v : option (option value)) : string :=
  match v with
  | Some (Some x) => toString h x
  | _ => ""
  end.

(** [String(Object.prototype[k])]: the text of what a script object
    inherits under the name [k], when it has no field of that name. *)
Definition inheritedText (k : string) : option string :=
  if bool_decide (k = "__proto__") then Some "[object Object]"
  else if bool_decide (k = "constructor") then Some "function Object() { [native code] }"
  else if includes k ["__defineGetter__"; "__defineSetter__"; "hasOwnProperty";
                      "__lookupGetter__"; "__lookupSetter__"; "isPrototypeOf";
                      "propertyIsEnumerable"; "toString"; "valueOf"; "toLocaleString"]
       then Some ("function " +:+ k +:+ "() { [native code] }")
       else None.

(** [mergeFields[k]] for a merge key [k] of the template. *)
Definition mergeValue (k : string) (fields : list (string * option value))
  : option (option value) :=
  match getField k fields with
  | Some v => Some v
  | None => (λ text, Some (VStr text)) <$> inheritedText k
  end.

(** The [forEach] over the merge keys: every key replaces its token
    in the subject and in the body. *)
Definition expand (keys : list string) (fields : list (string * option value))
    (subject body : string) : string * string :=
  foldl (λ '(sub, bod) k,
           let replacement := replacementOf (mergeValue k fields) in
           (replaceAllTokens sub ("{{" +:+ k +:+ "}}") replacement,
            replaceAllTokens bod ("{{" +:+ k +:+ "}}") replacement))
        (subject, body) keys.

(** [String(mergeFields[k] ?? '')] and [${mergeFields[k]}] *)
Definition fieldOrEmpty (fields : list (string * option value)) (k : string) : string :=
  replacementOf (getField k fields).
Definition fieldTempl (fields : list (string * option value)) (k : string) : string :=
  templ h (mjoin (getField k fields)).

Definition buildPrefillLink (fields : list (string * option value)) : string :=
  "https://docs.google.com/forms/d/e/1FAIpQLScIuVFw1ZAI32ewW0BomMHK7bltqkKPyK5Wy37KOr46A0_8gA/viewform?usp=pp_url"
  +:+ "&entry.1580995247="
  +:+ encodeURIComponent h (fieldTempl fields "First Name" +:+ " " +:+ fieldTempl fields "Last Name")
  +:+ "&entry.806184538=" +:+ encodeURIComponent h (fieldOrEmpty fields "DSID")
  +:+ "&entry.778985363=" +:+ encodeURIComponent h (fieldOrEmpty fields "Grade")
  +:+ "&entry.2029453213=" +:+ encodeURIComponent h (fieldOrEmpty fields "Team")
  +:+ "&entry.1429204745=" +:+ encodeURIComponent h (fieldOrEmpty fields "Week").

(** The object [student] parsed from the cell [All Student Data];
    [None] when [JSON.parse] throws. *)
Definition studentOf (raw : option value) : option (list (string * option value)) :=
  match raw with
  | Some (VStr s) => if bool_decide (trim s = "") then Some [] else jsonParse h s
  | _ => Some []
  end.

(** The log line of a failed parse. *)
Definition parseStudent (r : nat) (raw : option value) (w : World)
  : list (string * option value) * World :=
  match studentOf raw with
  | Some obj => (obj, w)
  | None => ([], debugLog h ("Row " +:+ pretty r +:+ ": ERROR parsing student data: "
                             +:+ jsonParseFault h (templ h raw)) w)
  end.

(** The number of ledger rows (header included) that [p] accepts. *)
Definition countRows (ev : Sheet) (p : nat → bool) : nat :=
  length (filter (λ r, p r) (seq 1 (dataRows ev))).

(** The row appended to [EmailLog]: one cell per header. *)
Definition logEntry (logSheet ev : Sheet) (r : nat) (week summary recipients : string)
  : list value :=
  (λ hd,
     match hd with
     | VStr "Timestamp" => VDate (now h)
     | VStr "DSID" => cellOf (eventField ev r "DSID")
     | VStr "Last Name" => cellOf (eventField ev r "Last Name")
     | VStr "First Name" => cellOf (eventField ev r "First Name")
     | VStr "Grade" => cellOf (eventField ev r "Grade")
     | VStr "Team" => cellOf (eventField ev r "Team")
     | VStr "Infraction" => cellOf (eventField ev r "Infraction")
     | VStr "Week" => VStr week
     | VStr "Sheet Name" => cellOf (eventField ev r "Sheet Name")
     | VStr "Entered By" => cellOf (eventField ev r "Entered By")
     | VStr "Body" => VStr summary
     | VStr "Recipients" => VStr recipients
     | _ => VStr ""
     end) <$> rowValues logSheet 1 (dataCols logSheet).

(** The merge fields of the event in row [r], before [Recipients]. *)
Definition mergeFieldsOf (ev : Sheet) (r : nat) (week : string)
    (student : list (string * option value)) : list (string * option value) :=
  let dsid := eventField ev r "DSID" in
  let repeatCount :=
    countRows ev (λ r', optStrictEq (eventField ev r' "DSID") dsid
                        && optStrictEq (eventField ev r' "Infraction") (Some (VStr "5th"))) in
  let totalInfractions :=
    countRows ev (λ r', optStrictEq (eventField ev r' "DSID") dsid) in
  foldl (λ obj kv, setField kv.1 kv.2 obj)
        [("DSID", dsid);
         ("Last Name", eventField ev r "Last Name");
         ("First Name", eventField ev r "First Name");
         ("Grade", eventField ev r "Grade");
         ("Team", eventField ev r "Team");
         ("Infraction", eventField ev r "Infraction");
         ("Week", Some (VStr week));
         ("Sheet Name", eventField ev r "Sheet Name");
         ("Entered By", eventField ev r "Entered By");
         ("Repeat Count", Some (VNum (Z.of_nat repeatCount)));
         ("Total Infractions", Some (VNum (Z.of_nat totalInfractions)))]
        student.

(** The merge fields of the event in row [r], [Recipients]
    included, and the recipients they name. *)
Definition eventFields0 (ev : Sheet) (r : nat) (week : string)
  : list (string * option value) :=
  mergeFieldsOf ev r week (default [] (studentOf (eventField ev r "All Student Data"))).

Definition eventRecipients (variables : option Sheet) (ev : Sheet) (r : nat) (week : string)
  : result (list string) :=
  match variables with
  | Some v =>
      match resolveRecipients v (mjoin (getField "Team" (eventFields0 ev r week))) with
      | Throw msg => Throw msg
      | Ok rc => Ok (dedupe [] (rc_all rc))
      end
  | None => Ok []
  end.

Definition eventFields (ev : Sheet) (r : nat) (week : string) (recipientEmails : list string)
  : list (string * option value) :=
  setField "Recipients" (Some (VStr (joinWith ", " recipientEmails)))
           (eventFields0 ev r week).

(** The message for the event in row [r]: the template with its
    tokens replaced, the notice of the recipients before it and the
    follow-up link after it.  Replacing a token in a subject or
    body that is no string throws. *)
Definition composeMail (template : Template) (fields : list (string * option value))
    (recipientEmails : list string) : result Email :=
  let keys := match t_mergeFields template with
              | [] => fst <$> fields
              | ks => ks
              end in
  match t_subject template, t_body template with
  | VStr subject0, VStr body0 =>
      let '(emailSubject, expanded) := expand keys fields subject0 body0 in
      let emailBody :=
        "<b>This alert has been sent to:</b> <br>" +:+ joinWith ", " recipientEmails
        +:+ "<br><br>" +:+ expanded
        +:+ "<br><b>Counselor follow-up required:</b> <a href=" +:+ dq
        +:+ buildPrefillLink fields +:+ dq +:+ " target=" +:+ dq +:+ "_blank" +:+ dq
        +:+ ">Click here to confirm student meeting</a><br>" +:+ nl
        +:+ " <span style=" +:+ dq +:+ "color:#B22222;" +:+ dq
        +:+ "><b>Do NOT enter counseling notes or sensitive info here—this is for process tracking only.</b></span><br>" in
      Ok (mkEmail (joinWith "," recipientEmails) emailSubject emailBody)
  | _, _ => Throw "TypeError: source.split is not a function"
  end.

(** The summary line written to [EmailLog]. *)
Definition summaryOf (fields : list (string * option value)) (recipientEmails : list string)
  : string :=
  "ALERT: " +:+ fieldTempl fields "First Name" +:+ " "
  +:+ fieldTempl fields "Last Name" +:+ " (Grade "
  +:+ fieldTempl fields "Grade" +:+ ", " +:+ fieldTempl fields "Team"
  +:+ ") | 5th infraction for " +:+ fieldTempl fields "Week"
  +:+ " | Repeats: " +:+ fieldTempl fields "Repeat Count"
  +:+ ", Total: " +:+ fieldTempl fields "Total Infractions"
  +:+ " | Recipients: " +:+ joinWith ", " recipientEmails.

(** [MailApp.sendEmail] inside its [try], when there are
    recipients: the call, its log line and the count of alerts. *)
Definition trySend (r : nat) (recipientEmails : list string) (mail : Email)
    (w : World) (sent : nat) : World * nat :=
  match recipientEmails with
  | [] => (w, sent)
  | _ =>
      if sendEmailOk h mail
      then (debugLog h ("Row " +:+ pretty r +:+ ": Email sent to: "
                        +:+ joinWith ", " recipientEmails +:+ " | Subject: "
                        +:+ mail_subject mail)
                     (mailCall mail true w),
            S sent)
      else (debugLog h ("Row " +:+ pretty r +:+ ": ERROR sending email: "
                        +:+ sendEmailFault h mail)
                     (mailCall mail false w),
            sent)
  end.

(** The end of the loop body: the alert marker and the audit line. *)
Definition markAndLog (ev : Sheet) (r : nat) (week : string)
    (fields : list (string * option value)) (recipientEmails : list string)
    (w : World) (sent : nat) : Scan :=
  match headerIndex ev "Alerted" with
  | None => mkScan w sent (Some "Exception: The starting column of the range is too small.")
  | Some ac =>
      let w4 := onSheet "EventLog" (setValue r (S ac) (VDate (now h))) w in
      match getSheetByName "EmailLog" w4 with
      | None => mkScan w4 sent None
      | Some logSheet =>
          let entry := logEntry logSheet ev r week (summaryOf fields recipientEmails)
                         (joinWith ", " recipientEmails) in
          let w5 := putSheet "EmailLog" (appendRow entry logSheet) w4 in
          mkScan (debugLog h ("Row " +:+ pretty r +:+ ": Logged in EmailLog.") w5) sent None
      end
  end.

Definition failWith (msg : string) (w : World) (st : Scan) : Scan :=
  mkScan w (alertsSent st) (Some msg).

(** The part of the loop body after the three skip tests, for the
    event in row [r] of the ledger snapshot [ev]. *)
Definition notify (ev : Sheet) (r : nat) (week : string) (w0 : World) (st : Scan) : Scan :=
  match getSheetByName "Templates" w0 with
  | None =>
      mkScan (debugLog h "scanAndSendAlerts: Templates sheet not found." w0)
             (alertsSent st) None
  | Some templateSheet =>
      match getTemplateByName templateSheet "5th Infraction Notice" with
      | Throw msg => failWith msg w0 st
      | Ok template =>
          let '(student, w1) := parseStudent r (eventField ev r "All Student Data") w0 in
          let fields0 := mergeFieldsOf ev r week student in
          let '(recips, w2) :=
            match getSheetByName "Variables" w1 with
            | Some variablesSheet =>
                getAlertRecipients variablesSheet (mjoin (getField "Team" fields0)) w1
            | None => (Ok [], w1)
            end in
          match recips with
          | Throw msg => failWith msg w2 st
          | Ok recipientEmails =>
              let fields := setField "Recipients" (Some (VStr (joinWith ", " recipientEmails)))
                                     fields0 in
              match composeMail template fields recipientEmails with
              | Throw msg => failWith msg w2 st
              | Ok mail =>
                  let '(w3, sent) := trySend r recipientEmails mail w2 (alertsSent st) in
                  markAndLog ev r week fields recipientEmails w3 sent
              end
          end
      end
  end.

(** What the scan needs to notify for the event in row [r], given
    the template: the recipients and the message. *)
Definition alertPlan (template : Template) (variables : option Sheet) (ev : Sheet) (r : nat)
  : result (list string * Email) :=
  let week := normalizeWeekStr (eventField ev r "Week") in
  match eventRecipients variables ev r week with
  | Throw msg => Throw msg
  | Ok recipientEmails =>
      match composeMail template (eventFields ev r week recipientEmails) recipientEmails with
      | Throw msg => Throw msg
      | Ok mail => Ok (recipientEmails, mail)
      end
  end.

(** The calls of the mail service that a scan makes for row [r]:
    one when the event qualifies and has recipients, none
    otherwise. *)
Definition mailCallsFor (weeks : gmap string string) (template : Template)
    (variables : option Sheet) (ev : Sheet) (r : nat) : list (Email * bool) :=
  if qualifies weeks ev r
  then match alertPlan template variables ev r with
       | Ok (_ :: _, mail) => [(mail, sendEmailOk h mail)]
       | _ => []
       end
  else [].

(** One turn of the loop over the events: row [r] (1-based, below
    the header) of the snapshot [ev]. *)
Definition alertStep (weeks : gmap string string) (ev : Sheet) (st : Scan) (r : nat) : Scan :=
  match fault st with
  | Some _ => st
  | None =>
      let infraction := eventField ev r "Infraction" in
      let week := normalizeWeekStr (eventField ev r "Week") in
      let sheetName := templ h (eventField ev r "Sheet Name") in
      let alerted := from_option truthy false (eventField ev r "Alerted") in
      let w0 := debugLog h ("Row " +:+ pretty r +:+ " | DSID: " +:+ templ h (eventField ev r "DSID")
                            +:+ " | Infraction: " +:+ templ h infraction
                            +:+ " | Week: " +:+ templ h (eventField ev r "Week")
                            +:+ " (normalized: " +:+ week +:+ ") | Sheet: " +:+ sheetName
                            +:+ " | Alerted: " +:+ (if alerted then "true" else "false"))
                   (world st) in
      if negb (optStrictEq infraction (Some (VStr "5th"))) then mkScan w0 (alertsSent st) None
      else if alerted then mkScan w0 (alertsSent st) None
      else
        match weeks !! sheetName with
        | Some activeWeek =>
            if bool_decide (week = activeWeek) then notify ev r week w0 st
            else mkScan (debugLog h ("Row " +:+ pretty r +:+ ": SKIP, activeWeek='" +:+ activeWeek
                                     +:+ "', eventWeek='" +:+ week +:+ "'") w0)
                        (alertsSent st) None
        | None =>
            mkScan (debugLog h ("Row " +:+ pretty r +:+ ": SKIP, activeWeek='"
                                +:+ default "undefined" (inheritedText sheetName)
                                +:+ "', eventWeek='" +:+ week +:+ "'") w0)
                   (alertsSent st) None
        end
  end.

(** What holds after the turns for the rows [done] of a scan of the
    ledger snapshot [ev] that started in world [w], when every turn
    so far could make its message: no fault, the template and
    variables tabs as they were, one mail call per qualifying row
    with recipients, and the marker of each qualifying row set. *)
Definition scanned (weeks : gmap string string) (template : Template) (w : World)
    (ev : Sheet) (ac : nat) (done : list nat) (st : Scan) : Prop :=
  fault st = None
  ∧ getSheetByName "Templates" (world st) = getSheetByName "Templates" w
  ∧ getSheetByName "Variables" (world st) = getSheetByName "Variables" w
  ∧ outbox (world st)
    = (outbox w ++ flat_map (mailCallsFor weeks template (getSheetByName "Variables" w) ev)
                            done)%list
  ∧ ∃ s, getSheetByName "EventLog" (world st) = Some s
         ∧ ∀ r c, getValue s r c
                  = if bool_decide (r ∈ done) && qualifies weeks ev r
                       && bool_decide (c = S ac)
                    then VDate (now h) else getValue ev r c.

(** [scanAndSendAlerts()]: the world after the scan and the fault
    that ended it, if any. *)
Definition scanAndSendAlerts (w : World) : World * option string :=
  match getSheetByName "EventLog" w with
  | None => (debugLog h "No EventLog sheet found, aborting scanAndSendAlerts." w, None)
  | Some ev =>
      let w0 := debugLog h ("Starting scanAndSendAlerts. Total events: "
                            +:+ pretty (dataRows ev - 1)) w in
      match teamActiveWeeks (sheets w0) with
      | Throw msg => (w0, Some msg)
      | Ok weeks =>
          let st := foldl (alertStep weeks ev) (mkScan w0 0 None) (seq 2 (dataRows ev - 1)) in
          match fault st with
          | Some msg => (world st, Some msg)
          | None =>
              let w1 := debugLog h ("scanAndSendAlerts: Completed. " +:+ pretty (alertsSent st)
                                    +:+ " alerts sent.") (world st) in
              (if canUseUi h
               then show "" ("Scan complete. " +:+ pretty (alertsSent st) +:+ " new alerts sent.") w1
               else w1, None)
          end
      end
  end.

End WithHost.
End Alerts.
Export Alerts.

(** ** Roster sync: [syncRosterForTeam] *)

Module RosterSync.

(** [sheet.deleteRows(start, n)] *)
Definition shiftKeys {A} (start n : nat) (m : gmap (nat * nat) A) : gmap (nat * nat) A :=
  list_to_map
    (omap (λ kv : (nat * nat) * A,
             let '((r, c), x) := kv in
             if r <? start then Some ((r, c), x)
             else if r <? start + n then None
             else Some ((r - n, c), x))
          (map_to_list m)).

Definition deleteRows (start n : nat) (s : Sheet) : Sheet :=
  mkSheet (shiftKeys start n (cells s)) (shiftKeys start n (notes s)).

(** [pruneDebugLogSheet(maxRows)] *)
Definition pruneDebugLogSheet (maxRows : nat) (w : World) : World :=
  match getSheetByName "DebugLog" w with
  | None => w
  | Some logSheet =>
      let lastRow := getLastRow logSheet in
      if maxRows + 1 <? lastRow
      then putSheet "DebugLog" (deleteRows 2 (lastRow - maxRows - 1) logSheet) w
      else w
  end.

(** A stable insertion sort, for [Array.prototype.sort] with a
    consistent comparator. *)
Fixpoint insertBy {A} (le : A → A → bool) (x : A) (xs : list A) : list A :=
  match xs with
  | [] => [x]
  | y :: rest => if le y x then y :: insertBy le x rest else x :: y :: rest
  end.

Definition sortBy {A} (le : A → A → bool) (xs : list A) : list A :=
  foldl (λ acc x, insertBy le x acc) [] xs.

(** [set.add(v)] *)
Definition setAdd (v : value) (set : list value) : list value :=
  if bool_decide (Exists (λ x, strictEq x v = true) set) then set else (set ++ [v])%list.

Section WithHost.
Context (h : Host).

Definition stamped (teamName text : string) : string :=
  "[" +:+ toISOString h (now h) +:+ "][" +:+ teamName +:+ "] " +:+ text.

(** [t(label)] and [tElapsed(label, prev)]: the time elapsed since
    the timer [prev] was set is zero, the clock being that of the
    invocation; [tElapsedSince] is the call for a timer [prev] that
    was never set, where the difference is no number. *)
Definition t (teamName label : string) (w : World) : World :=
  debugLog h (stamped teamName ("[Timer] " +:+ label +:+ "...")) w.
Definition tElapsed (teamName label : string) (w : World) : World :=
  debugLog h (stamped teamName ("[Timer] " +:+ label +:+ ": +0.00s")) w.
Definition tElapsedSince (started : bool) (teamName label : string) (w : World) : World :=
  if started then tElapsed teamName label w
  else debugLog h (stamped teamName ("[Timer] " +:+ label +:+ ": +NaNs")) w.

(** The parsed [teamSyncMap] property and the world after the log
    line of a failed parse: the object that the property holds, the
    empty object when the property is absent or empty, and the empty
    object of the [catch] when [JSON.parse] throws on its text. *)
Definition loadSyncMap (teamName : string) (w : World) : gmap string string * World :=
  match teamSyncMap w with
  | Some (SyncJson m) => (m, w)
  | Some (SyncText raw) =>
      if bool_decide (raw = "") then (∅, w)
      else (∅, debugLog h (stamped teamName ("ERROR parsing syncMap: "
                                              +:+ jsonParseFault h raw)) w)
  | None => (∅, w)
  end.

(** [infractionMap]: for each ledger key the set of source values
    seen, in order of first appearance. *)
Definition buildInfractionMap (events : option Sheet) : gmap string (list value) :=
  match events with
  | None => ∅
  | Some ev =>
      foldl (λ m r,
               let dsid := eventField ev r "DSID" in
               let inf := eventField ev r "Infraction" in
               let week := eventField ev r "Week" in
               if from_option truthy false dsid && from_option truthy false inf
                  && from_option truthy false week
               then
                 let key := ledgerKey h dsid inf (formatWeekDate h week) in
                 let source := match eventField ev r "Source Value" with
                               | Some v => if truthy v then v else VStr "X"
                               | None => VStr "X"
                               end in
                 <[key := setAdd source (default [] (m !! key))]> m
               else m)
            ∅ (seq 2 (dataRows ev - 1))
  end.

(** One roster row for the student in row [sr] of [StudentList]. *)
Definition rosterRow (template students : Sheet) (infractionMap : gmap string (list value))
    (width sr : nat) : list value :=
  let studentHeaders := rowValues students 1 (dataCols students) in
  let dsid := (λ c, getValue students sr (S c))
                <$> findIndex (λ v, strictEq v (VStr "DSID")) studentHeaders in
  (λ c,
     let label := headerCell h template 2 c in
     let marks :=
       if includes (toLowerCase label) INFRACTION_SEQUENCE
       then m ← infractionMap !! ledgerKey h dsid (Some (VStr label))
                   (formatWeekDate h (Some (VStr (getWeekForInfractionCol h template width c))));
            if bool_decide (m = []) then None
            else Some (VStr (joinWith "; " (toString h <$> m)))
       else None in
     match marks with
     | Some v => v
     | None =>
         let hd := getValue template 3 (S c) in
         if truthy hd
         then match findIndex (λ v, strictEq v hd) studentHeaders with
              | Some idx => getValue students sr (S idx)
              | None => VStr ""
              end
         else VStr ""
     end) <$> seq 0 width.

(** The rows of [StudentList] of the team, sorted by last name. *)
Definition teamStudents (students : Sheet) (teamName : string) : list nat :=
  let studentHeaders := rowValues students 1 (dataCols students) in
  let field (name : string) (sr : nat) : option value :=
    (λ c, getValue students sr (S c))
      <$> findIndex (λ v, strictEq v (VStr name)) studentHeaders in
  let lastName (sr : nat) : string :=
    toLowerCase (from_option (strOr h) "" (field "Last Name" sr)) in
  sortBy (λ a b, localeLe h (lastName a) (lastName b))
         (filter (λ sr, optStrictEq (field "Team" sr) (Some (VStr teamName)))
                 (seq 2 (dataRows students - 1))).

(** The body of the [try] block once the template is known to
    exist: the world reached and the fault thrown, if any (taking a
    range of an empty template throws).  Formats, column widths and
    tab visibility are not part of the model; the clearing of rows
    below the roster finds nothing to clear, the whole tab having
    been cleared before. *)
Definition rebuildView (teamName : string) (template : Sheet) (w : World)
  : World * option string :=
  let w1 := tElapsed teamName "Template loaded" w in
  let students := default emptySheet (getSheetByName "StudentList" w1) in
  let w2 := tElapsed teamName "StudentList loaded" w1 in
  let events := getSheetByName "EventLog" w2 in
  let w3 := tElapsed teamName "EventLog loaded" w2 in
  let templateLastCol := getLastColumn template in
  if bool_decide (templateLastCol = 0)
  then (w3, Some "The number of columns in the range must be at least 1.")
  else
    let w4 := tElapsed teamName "Template headers pulled" w3 in
    let infractionMap := buildInfractionMap events in
    let w5 := tElapsed teamName "Infraction map built" w4 in
    let '(sheet, w6) :=
      match getSheetByName teamName w5 with
      | Some s => (s, w5)
      | None =>
          (template,
           debugLog h (stamped teamName "New tab created from template.")
             (debugLog h (stamped teamName "Sheet not found, copying template...") w5))
      end in
    let w7 := tElapsed teamName "Sheet prepared" w6 in
    let cleared := mkSheet ∅ (notes sheet) in
    let withHeaders :=
      writeRows 1 [rowValues template 1 templateLastCol;
                   rowValues template 2 templateLastCol;
                   rowValues template 3 templateLastCol] cleared in
    let w8 := tElapsed teamName "Sheet cleared & headers copied" w7 in
    let roster := teamStudents students teamName in
    let w9 := tElapsed teamName "Students filtered/sorted" w8 in
    let allRows := (λ sr, rosterRow template students infractionMap templateLastCol sr)
                     <$> roster in
    let w10 := tElapsed teamName "Roster rows built" w9 in
    let written := writeRows (FIRST_STUDENT_ROW + 1) allRows withHeaders in
    let w11 :=
      match allRows with
      | [] => debugLog h (stamped teamName "No students found for roster, skipped data write.") w10
      | _ => tElapsed teamName "Roster rows written" w10
      end in
    let w12 := tElapsedSince (negb (bool_decide (allRows = []))) teamName
                 "Cleared extra content" w11 in
    let final := setValue 1 4 (VStr teamName) written in
    (putSheet teamName final w12, None).

(** [syncRosterForTeam(teamName)] *)
Definition syncRosterForTeam (teamName : string) (w : World) : World :=
  let '(syncMap, w0) := loadSyncMap teamName w in
  let todayStr := formatDate h (now h) "yyyy-MM-dd" in
  if bool_decide (syncMap !! teamName = Some todayStr)
  then debugLog h (stamped teamName "Already synced today; skipping.") w0
  else
    let w1 := t teamName "START" (debugLog h (stamped teamName "Starting sync...") w0) in
    match getSheetByName TEAM_TEMPLATE_NAME w1 with
    | None =>
        let w2 := debugLog h (stamped teamName "ERROR: TeamTemplate not found!") w1 in
        if canUseUi h then show "" "Missing TeamTemplate tab!" w2 else w2
    | Some template =>
        let w2 :=
          match rebuildView teamName template w1 with
          | (w', None) =>
              let w3 := setTeamSyncMap (Some (SyncJson (<[teamName := todayStr]> syncMap))) w' in
              debugLog h (stamped teamName "SUCCESS: Roster synced and timestamp updated in 0.00s.")
                (tElapsed teamName "SyncMap updated" w3)
          | (w', Some msg) => debugLog h (stamped teamName ("ERROR during sync: " +:+ msg)) w'
          end in
        pruneDebugLogSheet 1000 w2
    end.

End WithHost.
End RosterSync.
Export RosterSync.

(** ** Sample data *)

Module Sample.

(** A host in which every date is Monday, 1 September 2025. *)
Definition host (ui mailOk : bool) : Host :=
  {| now := 1756728000000;
     canUseUi := ui;
     dateToString := λ _, "Mon Sep 01 2025 00:00:00 GMT-0400 (Eastern Daylight Time)";
     dateParse := λ s, if bool_decide (s = "Sep 1, 2025") || bool_decide (s = "Week of Sep 1, 2025")
                       then Some 1756699200000%Z else None;
     getMonth := λ _, 8;
     getDate := λ _, 1%Z;
     getFullYear := λ _, 2025%Z;
     formatDate := λ _ fmt, if bool_decide (fmt = "yyyy-MM-dd") then "2025-09-01"
                            else "Sep 1, 2025";
     toLocaleString := λ _, "9/1/2025, 8:00:00 AM";
     toISOString := λ _, "2025-09-01T12:00:00.000Z";
     jsonStringify := λ _, "{}";
     jsonParse := λ _, Some [];
     jsonParseFault := λ _, "SyntaxError: Unexpected end of JSON input";
     encodeURIComponent := λ s, s;
     localeLe := λ a b, bool_decide (String.compare a b ≠ Gt);
     sendEmailOk := λ _, mailOk;
     sendEmailFault := λ _, "Exception: Service invoked too many times for one day: email." |}.

(** A sheet from its non-empty cells. *)
Definition sheetOf (content : list (nat * nat * string)) : Sheet :=
  foldl (λ s x, setValue x.1.1 x.1.2 (VStr x.2) s) emptySheet content.

(** The header rows of a team tab: DSID and last name, then the active
    week (columns 3 to 7) and a past week (columns 8 to 12). *)
Definition teamHeader : list (nat * nat * string) :=
  [(1, 3, "Active"); (1, 7, "Sep 1, 2025"); (1, 12, "Aug 25, 2025");
   (2, 3, "1st"); (2, 4, "2nd"); (2, 5, "3rd"); (2, 6, "4th"); (2, 7, "5th");
   (2, 8, "1st"); (2, 9, "2nd"); (2, 10, "3rd"); (2, 11, "4th"); (2, 12, "5th");
   (3, 1, "DSID"); (3, 2, "Last Name")].

(** A team tab whose marker column is followed by a terminal column
    without a week date: no active block resolves. *)
Definition unmarkedHeader : list (nat * nat * string) :=
  [(1, 3, "Active");
   (2, 3, "1st"); (2, 4, "2nd"); (2, 5, "3rd"); (2, 6, "4th"); (2, 7, "5th");
   (3, 1, "DSID"); (3, 2, "Last Name")].

Definition worldOf (tabs : list (string * Sheet)) (email : option string) : World :=
  mkWorld tabs None email [] [].

(** Student S1 has ranks 1 to 3 of the active week; a value was just
    typed into the rank-5 column (column 7). *)
Definition falconsTyped5 : Sheet :=
  sheetOf (teamHeader ++ [(4, 1, "S1"); (4, 2, "Doe");
                          (4, 3, "X"); (4, 4, "X"); (4, 5, "X"); (4, 7, "X")]).

Definition typed5 : EditEvent := mkEdit "Falcons" 4 7 (Some (VStr "X")) None.

(** The same row before the user typed. *)
Definition falconsThree : Sheet :=
  sheetOf (teamHeader ++ [(4, 1, "S1"); (4, 2, "Doe");
                          (4, 3, "X"); (4, 4, "X"); (4, 5, "X")]).

(** Ranks 1 and 2 were filled; the user has just blanked rank 1. *)
Definition falconsBlanked1 : Sheet :=
  sheetOf (teamHeader ++ [(4, 1, "S1"); (4, 2, "Doe"); (4, 4, "X")]).
Definition falconsTwo : Sheet :=
  sheetOf (teamHeader ++ [(4, 1, "S1"); (4, 2, "Doe"); (4, 3, "X"); (4, 4, "X")]).
Definition blanked1 : EditEvent := mkEdit "Falcons" 4 3 None (Some (VStr "X")).

(** A value typed into the past week (column 9) of an empty row. *)
Definition falconsPast : Sheet :=
  sheetOf (teamHeader ++ [(4, 1, "S1"); (4, 2, "Doe"); (4, 9, "X")]).
Definition typedPast : EditEvent := mkEdit "Falcons" 4 9 (Some (VStr "X")) None.

(** A first entry on a tab without a resolvable active block. *)
Definition hawksTyped1 : Sheet :=
  sheetOf (unmarkedHeader ++ [(4, 1, "S1"); (4, 2, "Doe"); (4, 3, "X")]).
Definition typed1 : EditEvent := mkEdit "Hawks" 4 3 (Some (VStr "X")) None.

(** A tab of four columns: the marker and the week date are there,
    but a block of five columns is not; a value was typed under the
    label 2nd. *)
Definition narrowTyped : Sheet :=
  sheetOf [(1, 1, "Active"); (1, 4, "Sep 1, 2025");
           (2, 1, "2nd"); (2, 2, "3rd"); (2, 3, "4th"); (2, 4, "5th");
           (3, 1, "DSID"); (4, 1, "X")].
Definition typedNarrow : EditEvent := mkEdit "Owls" 4 1 (Some (VStr "X")) None.

(** Two tabs list student S1, each with new marks at ranks 1 and 2 of
    the active week. *)
Definition twiceListed : World :=
  worldOf [("Falcons", falconsTwo); ("Eagles", falconsTwo)] None.

(** A ledger with one event: the fifth infraction of S1 in the active
    week of the tab Falcons, not yet alerted. *)
Definition ledgerRow (r : nat) (vals : list string) : list (nat * nat * string) :=
  imap (λ i v, (r, S i, v)) vals.

Definition eventLog : Sheet :=
  sheetOf (ledgerRow 1 EVENT_HEADER
           ++ ledgerRow 2 ["Sep 1"; "S1"; "Doe"; "Jane"; "7"; "Falcons"; "5th"; "Sep 1, 2025";
                           "t@x.org"; "Falcons"; "X"; "{}"; ""]).

Definition templates : Sheet :=
  sheetOf [(1, 2, "5th Infraction Notice");
           (2, 1, "Subject"); (2, 2, "Fifth infraction: {{First Name}} {{Last Name}}");
           (3, 1, "Email Body"); (3, 2, "Student {{DSID}} reached the 5th infraction.");
           (4, 1, "Merge Fields"); (4, 2, "DSID, First Name, Last Name")].

Definition variables : Sheet :=
  sheetOf [(2, 1, "Teams"); (3, 2, "Falcons"); (3, 3, "lead@x.org");
           (6, 2, "Email"); (6, 3, "Role"); (7, 2, "pr@x.org"); (7, 3, "Primary Responder")].

(** A [Variables] tab that names no recipient. *)
Definition noStaff : Sheet := sheetOf [(2, 1, "Teams")].

Definition emailLog : Sheet :=
  sheetOf (ledgerRow 1 ["Timestamp"; "DSID"; "Body"; "Recipients"]).

Definition alertWorld : World :=
  worldOf [("Falcons", falconsThree); ("EventLog", eventLog); ("Templates", templates);
           ("Variables", variables); ("EmailLog", emailLog)] None.

(** The same without the tab [Templates]. *)
Definition noTemplates : World :=
  worldOf [("Falcons", falconsThree); ("EventLog", eventLog);
           ("Variables", variables); ("EmailLog", emailLog)] None.

(** The same with nobody to notify. *)
Definition nobody : World :=
  worldOf [("Falcons", falconsThree); ("EventLog", eventLog); ("Templates", templates);
           ("Variables", noStaff); ("EmailLog", emailLog)] None.

(** The same without the tab [EmailLog]. *)
Definition noEmailLog : World :=
  worldOf [("Falcons", falconsThree); ("EventLog", eventLog); ("Templates", templates);
           ("Variables", variables)] None.

(** The team Falcons was synced today. *)
Definition syncedToday : World :=
  mkWorld [("Falcons", falconsThree); ("TeamTemplate", sheetOf teamHeader)]
          (Some (SyncJson {["Falcons" := "2025-09-01"]})) None [] [].

(** The team Falcons was last synced the day before. *)
Definition studentList : Sheet :=
  sheetOf (ledgerRow 1 ["DSID"; "Last Name"; "Team"]
           ++ ledgerRow 2 ["S2"; "Roe"; "Falcons"] ++ ledgerRow 3 ["S1"; "Doe"; "Falcons"]).

Definition syncedYesterday : World :=
  mkWorld [("Falcons", falconsThree); ("TeamTemplate", sheetOf teamHeader);
           ("StudentList", studentList)]
          (Some (SyncJson {["Falcons" := "2025-08-31"]})) None [] [].


(** A ledger that already holds the first two marks of S1, and the
    tab Falcons after the first mark was changed to Y. *)
Definition loggedTwo : Sheet :=
  sheetOf (ledgerRow 1 EVENT_HEADER
           ++ ledgerRow 2 ["Sep 1"; "S1"; "Doe"; "Jane"; "7"; "Falcons"; "1st"; "Sep 1, 2025";
                           "t@x.org"; "Falcons"; "X"; "{}"; ""]
           ++ ledgerRow 3 ["Sep 1"; "S1"; "Doe"; "Jane"; "7"; "Falcons"; "2nd"; "Sep 1, 2025";
                           "t@x.org"; "Falcons"; "X"; "{}"; ""]).
Definition falconsChanged : Sheet :=
  sheetOf (teamHeader ++ [(4, 1, "S1"); (4, 2, "Doe"); (4, 3, "Y"); (4, 4, "X")]).
Definition loggedRun (h : Host) : Run :=
  mkRun loggedTwo (buildEventMap h (VStr <$> EVENT_HEADER) loggedTwo) [] None.

(** The template, the recipients and the message of the alert for
    the event of [eventLog]. *)
Definition notice : Template :=
  mkTemplate (VStr "Fifth infraction: {{First Name}} {{Last Name}}")
             (VStr "Student {{DSID}} reached the 5th infraction.")
             ["DSID"; "First Name"; "Last Name"].
Definition activeWeeks : gmap string string := {["Falcons" := "Sep 1, 2025"]}.
Definition planned (h : Host) : list string * Email :=
  match alertPlan h notice (Some variables) eventLog 2 with
  | Ok plan => plan
  | Throw _ => ([], mkEmail "" "" "")
  end.

End Sample.

(** ** What an entry point leaves alone *)

(** [w'] differs from [w] at most in the tabs [names], in the messages
    shown, in the property [teamSyncMap] when [sync] is set, and by
    calls of the mail service added to those of [w] when [mail] is
    set. *)
Definition changesOnly (names : list string) (sync mail : bool) (w w' : World) : Prop :=
  (∀ name, name ∉ names → getSheetByName name w' = getSheetByName name w)
  ∧ bssUserEmail w' = bssUserEmail w
  ∧ (sync = false → teamSyncMap w' = teamSyncMap w)
  ∧ (if mail then ∃ sent, outbox w' = (outbox w ++ sent)%list else outbox w' = outbox w).

(** ** The per-user e-mail: [saveUserEmail_], [guessUserEmail_],
       [promptForEmailSetup_] *)

Module UserEmail.

Definition setUserEmail (email : string) (w : World) : World :=
  mkWorld (sheets w) (teamSyncMap w) (Some email) (outbox w) (shown w).

(** [saveUserEmail_(email)]: throws on a text without ['@']. *)
Definition saveUserEmail_ (email : string) (w : World) : result World :=
  if bool_decide (email = "") || negb (includesChar "@"%char email) then Throw "Invalid email"
  else Ok (setUserEmail (trim email) w).

(** [guessUserEmail_()], from the outcome of
    [Session.getActiveUser().getEmail()]. *)
Definition guessUserEmail_ (activeUser : result string) : string :=
  match activeUser with
  | Ok e => if negb (bool_decide (e = "")) && includesChar "@"%char e then e else ""
  | Throw _ => ""
  end.

(** One round of the dialog: what [getEmail] answers in that round,
    whether the user pressed OK, and the text typed. *)
Record Answer := mkAnswer {
  ans_activeUser : result string;
  ans_ok : bool;
  ans_text : string
}.

Section WithHost.
Context (h : Host).

(** [promptForEmailSetup_()] against the answers the user gives, one
    per round of the dialog: the value returned ([None] for [null]) or
    the fault thrown, and the world reached.  The outer [None] says
    that the dialog is still open when the answers end. *)
Fixpoint promptForEmailSetup_ (answers : list Answer) (w : World)
  : option (result (option string) * World) :=
  if negb (canUseUi h) then Some (Ok None, w)
  else
    match answers with
    | [] => None
    | a :: rest =>
        let guess := guessUserEmail_ (ans_activeUser a) in
        if negb (ans_ok a) then Some (Ok None, w)
        else
          let typed := trim (ans_text a) in
          let email := if bool_decide (typed = "") then guess else typed in
          if negb (includesChar "@"%char email)
          then promptForEmailSetup_ rest (show "" "Please enter a valid email address." w)
          else
            match saveUserEmail_ email w with
            | Throw msg => Some (Throw msg, w)
            | Ok w1 =>
                Some (Ok (Some email), show "" ("Thanks! Your email is set to: " +:+ email) w1)
            end
    end.

End WithHost.
End UserEmail.
Export UserEmail.

(** ** Team names and the sync of the next team:
       [getTeamNamesFromVariables], [syncNextTeamForToday],
       [resetTeamSyncStatus] *)

Module Teams.

Section WithHost.
Context (h : Host).

(** The loop of [getTeamNamesFromVariables] from row [row] of column
    B, for at most [left] rows: it stops at the first cell that is
    falsy. *)
Fixpoint teamNamesFrom (v : Sheet) (row left : nat) : list string :=
  match left with
  | 0 => []
  | S left' =>
      let val := getValue v row 2 in
      if negb (truthy val) then []
      else trim (toString h val) :: teamNamesFrom v (S row) left'
  end.

(** [getTeamNamesFromVariables()]: the cells B3 to B100 at most. *)
Definition getTeamNamesFromVariables (w : World) : list string :=
  match getSheetByName "Variables" w with
  | None => []
  | Some v => teamNamesFrom v 3 98
  end.

(** [JSON.parse(props.getProperty('teamSyncMap') || '{}')] inside a
    [try] whose [catch] gives the empty object: the object that the
    property holds, and the empty object when the property is absent
    or [JSON.parse] throws on its text. *)
Definition parsedSyncMap (w : World) : gmap string string :=
  match teamSyncMap w with
  | Some (SyncJson m) => m
  | _ => ∅
  end.

(** Whether the property [teamSyncMap] is absent or holds the JSON
    text of an object from team names to texts, as the script leaves
    it. *)
Definition syncStateIsObject (w : World) : bool :=
  match teamSyncMap w with
  | Some (SyncText _) => false
  | _ => true
  end.

(** The first team of [teams] that [syncMap] does not record as synced
    on [todayStr]. *)
Definition nextTeam (syncMap : gmap string string) (todayStr : string) (teams : list string)
  : option string :=
  List.find (λ team, negb (bool_decide (syncMap !! team = Some todayStr))) teams.

(** [syncNextTeamForToday()] *)
Definition syncNextTeamForToday (w : World) : World :=
  let syncMap := parsedSyncMap w in
  let todayStr := formatDate h (now h) "yyyy-MM-dd" in
  match nextTeam syncMap todayStr (getTeamNamesFromVariables w) with
  | Some team =>
      syncRosterForTeam h team
        (debugLog h (stamped h team "Selected as next team to sync.") w)
  | None => debugLog h "All teams have been synced for today." w
  end.

(** [resetTeamSyncStatus()] *)
Definition resetTeamSyncStatus (w : World) : World :=
  let w1 := debugLog h "All team sync timestamps reset." (setTeamSyncMap None w) in
  if canUseUi h then show "" "All team sync timestamps have been reset." w1 else w1.

End WithHost.
End Teams.
Export Teams.

(** ** The student import: [importNeededStudentColumns],
       [normalizeName] and the choice of a student's row in
       [buildStudentListFromImport] *)

Module StudentImport.

Definition neededHeaders : list string :=
  ["SSID"; "StudentID"; "First name"; "Last name"; "Gender"; "Race"; "CourseName"; "GP";
   "Period"; "TeacherName"; "ELL"; "Team"; "Grade"; "activeEnrollment.specialEdStatus"].

(** [sheet.clearContents()]: notes stay. *)
Definition clearContents (s : Sheet) : Sheet := mkSheet ∅ (notes s).

(** [toUpperCase] on one character: the letters a to z. *)
Definition upperChar (c : ascii) : ascii :=
  let n := nat_of_ascii c in
  if bool_decide (97 ≤ n) && bool_decide (n ≤ 122) then ascii_of_nat (n - 32) else c.

(** [\w] *)
Definition isWordChar (c : ascii) : bool :=
  isLetter c || isDigit c || bool_decide (c = "_"%char).

(** [s.replace(/\b\w/g, (l) => l.toUpperCase())]: a word character is
    at a word boundary when the character before it is none;
    [inWord] says whether the character before is one. *)
Fixpoint capitalizeWords (inWord : bool) (s : string) : string :=
  match s with
  | EmptyString => EmptyString
  | String c r =>
      String (if isWordChar c && negb inWord then upperChar c else c)
             (capitalizeWords (isWordChar c) r)
  end.

(** [normalizeName(name)] *)
Definition normalizeName (name : string) : string :=
  if bool_decide (name = "") then ""
  else
    let base := trim (default "" (head (splitComma name))) in
    if bool_decide (base = "") then ""
    else capitalizeWords false (toLowerCase base).

(** [s.includes(needle)] *)
Fixpoint includesStr (needle s : string) : bool :=
  String.prefix needle s
  || match s with
     | String _ r => includesStr needle r
     | EmptyString => false
     end.

(** How [buildStudentListFromImport] came to the row it uses. *)
Inductive MatchType := Perfect | Fallback | NoTeam.

#[global] Instance MatchType_eq_dec : EqDecision MatchType.
Proof. solve_decision. Defined.

Section WithHost.
Context (h : Host).

(** The needed columns of the source, in the order of [needed]:
    [headerMap[h]] is the last column titled [h], and the first title
    that is missing throws. *)
Fixpoint colIndicesOf (headers : list value) (needed : list string) : result (list nat) :=
  match needed with
  | [] => Ok []
  | hd :: rest =>
      match eventCol h headers hd with
      | None => Throw ("Header " +:+ dq +:+ hd +:+ dq +:+ " not found in source!")
      | Some i =>
          match colIndicesOf headers rest with
          | Ok idxs => Ok (i :: idxs)
          | Throw msg => Throw msg
          end
      end
  end.

(** The rows written to [ImportList]: the needed titles, then every
    data row of the source cut down to the needed columns. *)
Definition importedRows (src : Sheet) (colIndices : list nat) : list (list value) :=
  (VStr <$> neededHeaders)
  :: ((λ r, (λ idx, getValue src r (S idx)) <$> colIndices) <$> seq 2 (dataRows src - 1)).

(** [importNeededStudentColumns()], given what opening the tab [Raw]
    of the source spreadsheet gives: a fault with its text, no tab, or
    the tab.  The result is the world reached and the fault thrown,
    if any. *)
Definition importNeededStudentColumns (source : result (option Sheet)) (w : World)
  : World * option string :=
  match source with
  | Throw e => (w, Some ("Cannot open source: " +:+ e))
  | Ok None =>
      (w, Some ("Cannot open source: Error: Source tab " +:+ dq +:+ "Raw" +:+ dq
                +:+ " not found!"))
  | Ok (Some src) =>
      let dest := clearContents (default emptySheet (getSheetByName "ImportList" w)) in
      let w1 := putSheet "ImportList" dest w in
      match colIndicesOf (rowValues src 1 (dataCols src)) neededHeaders with
      | Throw msg => (w1, Some msg)
      | Ok colIndices =>
          (putSheet "ImportList" (writeRows 1 (importedRows src colIndices) dest) w1, None)
      end
  end.

(** [row[col[name]]] for a row of [ImportList], [col] being the map
    from the trimmed titles to their columns. *)
Definition importCell (col : gmap string nat) (row : list value) (name : string)
  : option value :=
  idx ← col !! name; row !! idx.

(** [row[col['Team']] && row[col['Team']].toString().trim()] *)
Definition hasTeam (col : gmap string nat) (row : list value) : bool :=
  match importCell col row "Team" with
  | Some v => truthy v && negb (bool_decide (trim (toString h v) = ""))
  | None => false
  end.

(** [row[col['TeacherName']] &&
     !row[col['TeacherName']].toString().toLowerCase().includes('vacancy')] *)
Definition realTeacher (col : gmap string nat) (row : list value) : bool :=
  match importCell col row "TeacherName" with
  | Some v => truthy v && negb (includesStr "vacancy" (toLowerCase (toString h v)))
  | None => false
  end.

(** [row[col['Period']] === 'A'] *)
Definition periodA (col : gmap string nat) (row : list value) : bool :=
  optStrictEq (importCell col row "Period") (Some (VStr "A")).

(** The four attempts of [buildStudentListFromImport] at the row of a
    student among the student's [rows]; [None] is the case that the
    script logs as not occurring. *)
Definition selectTarget (col : gmap string nat) (rows : list (list value))
  : option (list value * MatchType) :=
  match List.find (λ row, periodA col row && hasTeam col row && realTeacher col row) rows with
  | Some target => Some (target, Perfect)
  | None =>
      let candidates := List.filter (λ row, periodA col row && hasTeam col row) rows in
      match List.find (realTeacher col) candidates with
      | Some target => Some (target, Perfect)
      | None =>
          match List.find (hasTeam col) rows with
          | Some target => Some (target, Fallback)
          | None =>
              match head rows with
              | Some target => Some (target, NoTeam)
              | None => None
              end
          end
      end
  end.

(** The names that a script object inherits from [Object.prototype].
    Under such a name [byStudentID[studentID]] is a function, or the
    prototype itself, before any row was stored: no list is created
    for it, and the call of [push] throws. *)
Definition objectPrototypeKeys : list string :=
  ["constructor"; "__defineGetter__"; "__defineSetter__"; "hasOwnProperty";
   "__lookupGetter__"; "__lookupSetter__"; "isPrototypeOf"; "propertyIsEnumerable";
   "toString"; "valueOf"; "__proto__"; "toLocaleString"].

(** One row of the grouping loop. *)
Definition groupRow (col : gmap string nat) (m : gmap string (list (list value)))
    (row : list value) : result (gmap string (list (list value))) :=
  if optStrictEq (importCell col row "GP") (Some (VStr "1"))
  then let studentID := templ h (importCell col row "StudentID") in
       if bool_decide (studentID ∈ objectPrototypeKeys)
       then Throw "TypeError: byStudentID[studentID].push is not a function"
       else Ok (<[studentID := (default [] (m !! studentID) ++ [row])%list]> m)
  else Ok m.

(** [byStudentID]: the rows of [data] below the title row whose [GP]
    cell is the text ['1'], by student id, each list in the order of
    the sheet. *)
Definition byStudentID (col : gmap string nat) (data : list (list value))
  : result (gmap string (list (list value))) :=
  foldl (λ acc row,
           match acc with
           | Ok m => groupRow col m row
           | Throw msg => Throw msg
           end)
        (Ok ∅) (drop 1 data).

End WithHost.
End StudentImport.
Export StudentImport.

(** ** The marks of a rebuilt roster: the loop that fills
       [infractionMap] in [syncRosterForTeam], read for one key *)

Module RosterMarks.

Section WithHost.
Context (h : Host).

(** Whether the loop enters row [r] of the ledger under [key]: the
    cells [DSID], [Infraction] and [Week] of the row are truthy and
    [[dsid, infraction, formatWeekDate(week)].join('|')] is [key]. *)
Definition loggedUnder (ev : Sheet) (key : string) (r : nat) : bool :=
  from_option truthy false (eventField ev r "DSID")
  && from_option truthy false (eventField ev r "Infraction")
  && from_option truthy false (eventField ev r "Week")
  && bool_decide (ledgerKey h (eventField ev r "DSID") (eventField ev r "Infraction")
                    (formatWeekDate h (eventField ev r "Week")) = key).

(** [row[colSourceValue] || 'X'] *)
Definition sourceValueOf (ev : Sheet) (r : nat) : value :=
  match eventField ev r "Source Value" with
  | Some v => if truthy v then v else VStr "X"
  | None => VStr "X"
  end.

(** The set [infractionMap[key]] after the loop, in the order in which
    its values were first added; empty when the ledger is missing or
    enters no row under [key]. *)
Definition loggedMarks (events : option Sheet) (key : string) : list value :=
  match events with
  | None => []
  | Some ev =>
      foldl (λ set r, if loggedUnder ev key r then setAdd (sourceValueOf ev r) set else set)
            [] (seq 2 (dataRows ev - 1))
  end.

End WithHost.
End RosterMarks.
Export RosterMarks.

(** ** More sample data *)

Module SampleAdmin.
Import Sample.

(** The spreadsheet of [syncedToday] with a student list and the
    table of teams. *)
Definition rosterWorld : World :=
  mkWorld [("Falcons", falconsThree); ("TeamTemplate", sheetOf teamHeader);
           ("StudentList", studentList); ("Variables", variables)]
          (Some (SyncJson {["Falcons" := "2025-09-01"]})) None [] [].

(** A diagnostic log of four lines. *)
Definition fourLines : Sheet :=
  sheetOf [(1, 1, "t1"); (1, 2, "first"); (2, 1, "t2"); (2, 2, "second");
           (3, 1, "t3"); (3, 2, "third"); (4, 1, "t4"); (4, 2, "fourth")].
Definition logged : World := worldOf [("DebugLog", fourLines)] None.

(** A ledger with two events, and a team tab on which the first mark
    was changed since. *)
Definition changedWorld : World :=
  worldOf [("Falcons", falconsChanged); ("EventLog", loggedTwo)] None.

(** The tab [Raw] of the source: all the needed titles and one course
    row, and the same tab without most of its titles. *)
Definition rawRow : list string :=
  ["900"; "1001"; "Jane"; "Doe"; "F"; "W"; "Math"; "1"; "A"; "SMITH, ANN"; "N"; "7A"; "7";
   "None"].
Definition raw : Sheet := sheetOf (ledgerRow 1 neededHeaders ++ ledgerRow 2 rawRow).
Definition rawShort : Sheet := sheetOf (ledgerRow 1 ["StudentID"; "First name"]).

(** The rows of [ImportList] for one student: a vacancy in period A
    and a teacher in period B. *)
Definition importCols : gmap string nat :=
  list_to_map (imap (λ i x, (x, i)) neededHeaders).
Definition importData : list (list value) :=
  [VStr <$> neededHeaders;
   VStr <$> ["900"; "1001"; "Jane"; "Doe"; "F"; "W"; "Math"; "1"; "A"; "VACANCY"; "N"; "7A";
             "7"; "None"];
   VStr <$> ["900"; "1001"; "Jane"; "Doe"; "F"; "W"; "Art"; "1"; "B"; "SMITH, ANN"; "N"; "7A";
             "7"; "None"]].

(** The spreadsheet of [syncedYesterday] with the ledger [loggedTwo],
    which holds the marks of ranks 1 and 2 of student S1. *)
Definition loggedYesterday : World :=
  mkWorld [("Falcons", falconsThree); ("TeamTemplate", sheetOf teamHeader);
           ("StudentList", studentList); ("EventLog", loggedTwo)]
          (Some (SyncJson {["Falcons" := "2025-08-31"]})) None [] [].

(** A user who first types a text without an ['@'] and then an
    address. *)
Definition twoAnswers : list Answer :=
  [mkAnswer (Ok "") true "nobody"; mkAnswer (Ok "") true " t@x.org "].

End SampleAdmin.

(** * Proofs *)

(** ** The store *)

(** * Facts about the store *)

Section StoreFacts.

Lemma lookupSheet_storeSheet_same name s tabs :
  lookupSheet name (storeSheet name s tabs) = Some s.
Proof.
  induction tabs as [|[n s'] tabs IH]; simpl.
  - by rewrite bool_decide_true.
  - case_bool_decide; simpl.
    + by rewrite bool_decide_true.
    + by rewrite bool_decide_false.
Qed.

Lemma lookupSheet_storeSheet_other name name' s tabs :
  name ≠ name' → lookupSheet name' (storeSheet name s tabs) = lookupSheet name' tabs.
Proof.
  intros Hne. induction tabs as [|[n s'] tabs IH]; simpl.
  - by rewrite bool_decide_false.
  - case_bool_decide; simpl.
    + subst n. by rewrite !bool_decide_false.
    + by rewrite IH.
Qed.

Lemma getSheetByName_putSheet_same name s w :
  getSheetByName name (putSheet name s w) = Some s.
Proof. apply lookupSheet_storeSheet_same. Qed.

Lemma getSheetByName_putSheet_other name name' s w :
  name ≠ name' → getSheetByName name' (putSheet name s w) = getSheetByName name' w.
Proof. apply lookupSheet_storeSheet_other. Qed.

Lemma getSheetByName_onSheet_same name f w s :
  getSheetByName name w = Some s → getSheetByName name (onSheet name f w) = Some (f s).
Proof. intros H. unfold onSheet. rewrite H. apply getSheetByName_putSheet_same. Qed.

Lemma getSheetByName_onSheet_other name name' f w :
  name ≠ name' → getSheetByName name' (onSheet name f w) = getSheetByName name' w.
Proof.
  intros H. unfold onSheet. destruct (getSheetByName name w); [|done].
  by apply getSheetByName_putSheet_other.
Qed.

Lemma getSheetByName_debugLog h msg name w :
  name ≠ "DebugLog" → getSheetByName name (debugLog h msg w) = getSheetByName name w.
Proof. intros H. unfold debugLog. by apply getSheetByName_putSheet_other. Qed.

Lemma getSheetByName_toast h text title name w :
  getSheetByName name (toast h text title w) = getSheetByName name w.
Proof. unfold toast. by destruct (canUseUi h). Qed.

Lemma bssUserEmail_onSheet name f w : bssUserEmail (onSheet name f w) = bssUserEmail w.
Proof. unfold onSheet. by destruct (getSheetByName name w). Qed.

Lemma bssUserEmail_debugLog h msg w : bssUserEmail (debugLog h msg w) = bssUserEmail w.
Proof. done. Qed.

Lemma bssUserEmail_toast h text title w : bssUserEmail (toast h text title w) = bssUserEmail w.
Proof. unfold toast. by destruct (canUseUi h). Qed.

Lemma getValue_setValue r c v s r' c' :
  getValue (setValue r c v s) r' c' =
  if decide ((r, c) = (r', c')) then v else getValue s r' c'.
Proof.
  unfold getValue, setValue, isMissing; simpl.
  case_bool_decide as Hv; case_decide as Hk.
  - rewrite Hk, lookup_delete_eq. by subst v.
  - by rewrite lookup_delete_ne.
  - by rewrite Hk, lookup_insert_eq.
  - by rewrite lookup_insert_ne.
Qed.

Lemma getValue_clearContent r c s r' c' :
  getValue (clearContent r c s) r' c' =
  if decide ((r, c) = (r', c')) then VStr "" else getValue s r' c'.
Proof.
  unfold getValue, clearContent; simpl. case_decide as Hk.
  - by rewrite Hk, lookup_delete_eq.
  - by rewrite lookup_delete_ne.
Qed.

Lemma getValue_setNote r c n s r' c' : getValue (setNote r c n s) r' c' = getValue s r' c'.
Proof. done. Qed.

Lemma getNote_setValue r c v s r' c' : getNote (setValue r c v s) r' c' = getNote s r' c'.
Proof. done. Qed.

Lemma getNote_clearContent r c s r' c' : getNote (clearContent r c s) r' c' = getNote s r' c'.
Proof. done. Qed.

Lemma getNote_setNote r c n s r' c' :
  getNote (setNote r c n s) r' c' =
  if decide ((r, c) = (r', c')) then n else getNote s r' c'.
Proof.
  unfold getNote, setNote; simpl.
  case_bool_decide as Hn; case_decide as Hk.
  - rewrite Hk, lookup_delete_eq. by subst n.
  - by rewrite lookup_delete_ne.
  - by rewrite Hk, lookup_insert_eq.
  - by rewrite lookup_insert_ne.
Qed.

(** Writing values never touches a note. *)
Lemma notes_writeRow r vals s : notes (writeRow r vals s) = notes s.
Proof.
  unfold writeRow. generalize (imap pair vals). intros l. revert s.
  induction l as [|x l IH]; intros s; simpl; [done|]. by rewrite IH.
Qed.

Lemma notes_appendRow vals s : notes (appendRow vals s) = notes s.
Proof. apply notes_writeRow. Qed.

End StoreFacts.

Section WorldFacts.
Context (h : Host).

Lemma not_excluded_not_debug name :
  includes name EXCLUDE_SHEETS = false → name ≠ "DebugLog".
Proof.
  unfold includes. intros H%bool_decide_eq_false Heq. apply H. subst name.
  unfold EXCLUDE_SHEETS. set_solver.
Qed.

Lemma cellNote_debugLog msg w name r c :
  cellNote (debugLog h msg w) name r c = cellNote w name r c.
Proof.
  unfold cellNote. destruct (decide (name = "DebugLog")) as [->|Hne].
  - unfold debugLog. rewrite getSheetByName_putSheet_same.
    unfold getNote. rewrite notes_appendRow.
    by destruct (getSheetByName "DebugLog" w).
  - by rewrite getSheetByName_debugLog.
Qed.

Lemma cellNote_toast text title w name r c :
  cellNote (toast h text title w) name r c = cellNote w name r c.
Proof. unfold cellNote. by rewrite getSheetByName_toast. Qed.

Lemma cellValue_debugLog msg w name r c :
  name ≠ "DebugLog" → cellValue (debugLog h msg w) name r c = cellValue w name r c.
Proof. intros H. unfold cellValue. by rewrite getSheetByName_debugLog. Qed.

Lemma cellValue_toast text title w name r c :
  cellValue (toast h text title w) name r c = cellValue w name r c.
Proof. unfold cellValue. by rewrite getSheetByName_toast. Qed.

(** A change of the cell contents of one tab, seen through the
    handles. *)
Lemma cellValue_onSheet name f w s r c :
  getSheetByName name w = Some s →
  cellValue (onSheet name f w) name r c = getValue (f s) r c.
Proof. intros H. unfold cellValue. by rewrite (getSheetByName_onSheet_same _ _ _ _ H). Qed.

Lemma cellNote_onSheet name f w s r c :
  getSheetByName name w = Some s →
  cellNote (onSheet name f w) name r c = getNote (f s) r c.
Proof. intros H. unfold cellNote. by rewrite (getSheetByName_onSheet_same _ _ _ _ H). Qed.

Lemma cellNote_onSheet_other name name' f w r c :
  name ≠ name' → cellNote (onSheet name f w) name' r c = cellNote w name' r c.
Proof. intros H. unfold cellNote. by rewrite getSheetByName_onSheet_other. Qed.

Lemma getSheetByName_restoreOld e name r c w s :
  getSheetByName name w = Some s →
  getSheetByName name (restoreOld e name r c w)
  = Some (match ev_oldValue e with
          | Some old => setValue r c old s
          | None => clearContent r c s
          end).
Proof.
  intros H. unfold restoreOld.
  destruct (ev_oldValue e); by apply getSheetByName_onSheet_same.
Qed.

Lemma getSheetByName_restoreOld_other e name name' r c w :
  name ≠ name' → getSheetByName name' (restoreOld e name r c w) = getSheetByName name' w.
Proof.
  intros H. unfold restoreOld.
  destruct (ev_oldValue e); by apply getSheetByName_onSheet_other.
Qed.

(** The cell the guard restores holds the old value again, an empty
    cell when there was none. *)
Lemma getValue_restored (e : EditEvent) r c s r' c' :
  getValue (match ev_oldValue e with
            | Some old => setValue r c old s
            | None => clearContent r c s
            end) r' c'
  = if decide ((r, c) = (r', c')) then default (VStr "") (ev_oldValue e) else getValue s r' c'.
Proof.
  destruct (ev_oldValue e); simpl.
  - apply getValue_setValue.
  - apply getValue_clearContent.
Qed.

Lemma getNote_restored (e : EditEvent) r c s r' c' :
  getNote (match ev_oldValue e with
           | Some old => setValue r c old s
           | None => clearContent r c s
           end) r' c' = getNote s r' c'.
Proof. by destruct (ev_oldValue e). Qed.

End WorldFacts.

Section EditGuardFacts.
Context (h : Host).

(** What the guard does on a tab with an active block when the
    edited column lies outside it. *)
Lemma onEdit_outside_block e w sheet startCol endCol :
  getSheetByName (ev_sheet e) w = Some sheet →
  includes (ev_sheet e) EXCLUDE_SHEETS = false →
  FIRST_STUDENT_ROW < ev_row e →
  getActiveWeekBlockCols h sheet = Ok (Some (startCol, endCol)) →
  ev_col e < startCol ∨ endCol < ev_col e →
  onEdit h e w
  = debugLog h ("[" +:+ ev_sheet e +:+ "] Blocked edit outside current week at R"
                +:+ pretty (ev_row e) +:+ "C" +:+ pretty (ev_col e) +:+ ".")
      (toast h "Edits are locked for past/future weeks. Please use the current week's columns only."
         "BSS: Edit Blocked"
         (restoreOld e (ev_sheet e) (ev_row e) (ev_col e) w)).
Proof.
  intros Hs Hex Hrow Hact Hout. unfold onEdit. rewrite Hs, Hex, Hact.
  destruct (ev_row e <=? FIRST_STUDENT_ROW) eqn:Hr; [apply Nat.leb_le in Hr; lia|].
  destruct ((startCol <=? ev_col e) && (ev_col e <=? endCol)) eqn:Hin; [|done].
  apply andb_true_iff in Hin as [H1%Nat.leb_le H2%Nat.leb_le]. lia.
Qed.

(** C9.  An edit inside the active week block, on a rank column, whose
    new value is empty: the guard returns at once and leaves the
    world exactly as it found it.  Nothing is moved, no sequence check
    is made, no e-mail is required and no note is stamped, whatever
    the other cells of the row hold. *)
Theorem onEdit_blank_entry_accepted (e : EditEvent) (w : World) (sheet : Sheet)
    (startCol endCol labelIndex : nat) :
  getSheetByName (ev_sheet e) w = Some sheet →
  includes (ev_sheet e) EXCLUDE_SHEETS = false →
  FIRST_STUDENT_ROW < ev_row e →
  getActiveWeekBlockCols h sheet = Ok (Some (startCol, endCol)) →
  startCol ≤ ev_col e ≤ endCol →
  rankIndexOf h sheet (ev_col e) = Some labelIndex →
  newValOf e sheet = VStr "" →
  onEdit h e w = w.
Proof.
  intros Hs Hex Hrow Hact [Hlo Hhi] Hrank Hnew.
  unfold onEdit. rewrite Hs, Hex, Hact.
  destruct (ev_row e <=? FIRST_STUDENT_ROW) eqn:Hr; [apply Nat.leb_le in Hr; lia|].
  apply Nat.leb_le in Hlo, Hhi. rewrite Hlo, Hhi. simpl.
  unfold guardRankEdit. by rewrite Hrank, Hnew.
Qed.

(** C7.  An edit on a student row of a tab that is not excluded, in a
    column outside the resolved active week block, is rejected: the
    edited cell holds its previous value again (it is empty when there
    was none), no other cell of the tab changes, so nothing is
    relocated, no note of any tab changes, and the tabs other than the
    diagnostic log are as they were. *)
Theorem onEdit_outside_active_week_reverted (e : EditEvent) (w : World) (sheet : Sheet)
    (startCol endCol : nat) :
  getSheetByName (ev_sheet e) w = Some sheet →
  includes (ev_sheet e) EXCLUDE_SHEETS = false →
  FIRST_STUDENT_ROW < ev_row e →
  getActiveWeekBlockCols h sheet = Ok (Some (startCol, endCol)) →
  ev_col e < startCol ∨ endCol < ev_col e →
  let w' := onEdit h e w in
  cellValue w' (ev_sheet e) (ev_row e) (ev_col e) = default (VStr "") (ev_oldValue e)
  ∧ (∀ r c, (r, c) ≠ (ev_row e, ev_col e) →
            cellValue w' (ev_sheet e) r c = cellValue w (ev_sheet e) r c)
  ∧ (∀ name r c, cellNote w' name r c = cellNote w name r c)
  ∧ (∀ name, name ≠ ev_sheet e → name ≠ "DebugLog" →
             getSheetByName name w' = getSheetByName name w).
Proof.
  intros Hs Hex Hrow Hact Hout w'.
  pose proof (not_excluded_not_debug _ Hex) as Hdbg.
  assert (Hw' := onEdit_outside_block e w sheet startCol endCol Hs Hex Hrow Hact Hout).
  fold w' in Hw'.
  rewrite Hw'. repeat split.
  - rewrite cellValue_debugLog, cellValue_toast by done.
    unfold cellValue. rewrite (getSheetByName_restoreOld _ _ _ _ _ _ Hs).
    rewrite getValue_restored. by rewrite decide_True.
  - intros r c Hrc. rewrite cellValue_debugLog, cellValue_toast by done.
    unfold cellValue. rewrite (getSheetByName_restoreOld _ _ _ _ _ _ Hs), Hs.
    rewrite getValue_restored. by rewrite decide_False.
  - intros name r c. rewrite cellNote_debugLog, cellNote_toast.
    unfold cellNote. destruct (decide (name = ev_sheet e)) as [->|Hne].
    + rewrite (getSheetByName_restoreOld _ _ _ _ _ _ Hs), Hs. apply getNote_restored.
    + by rewrite getSheetByName_restoreOld_other.
  - intros name Hne Hnd.
    rewrite getSheetByName_debugLog, getSheetByName_toast by done.
    by rewrite getSheetByName_restoreOld_other.
Qed.
End EditGuardFacts.

(** ** Searches over ranges *)

Section IndexFacts.

Lemma findIndexFrom_seq_Some (p : nat → bool) k n m :
  findIndexFrom p k (seq k n) = Some m →
  k ≤ m < k + n ∧ p m = true ∧ ∀ i, k ≤ i < m → p i = false.
Proof.
  revert k. induction n as [|n IH]; intros k; simpl; [done|].
  destruct (p k) eqn:Hk.
  - intros [= <-]. split; [lia|]. split; [done|]. intros i Hi. lia.
  - intros H. apply IH in H as (Hm & Hp & Hlt). split; [lia|]. split; [done|].
    intros i Hi. destruct (decide (i = k)) as [->|]; [done|]. apply Hlt. lia.
Qed.

Lemma findIndexFrom_seq_None (p : nat → bool) k n :
  findIndexFrom p k (seq k n) = None → ∀ i, k ≤ i < k + n → p i = false.
Proof.
  revert k. induction n as [|n IH]; intros k; simpl; [intros _ i Hi; lia|].
  destruct (p k) eqn:Hk; [done|].
  intros H i Hi. destruct (decide (i = k)) as [->|]; [done|]. apply (IH _ H). lia.
Qed.

Lemma find_seq_None (p : nat → bool) k n :
  (∀ i, k ≤ i < k + n → p i = false) → List.find p (seq k n) = None.
Proof.
  revert k. induction n as [|n IH]; intros k H; simpl; [done|].
  rewrite H by lia. apply IH. intros i Hi. apply H. lia.
Qed.

Lemma findIndexFrom_bound {A} (p : A → bool) i xs k :
  findIndexFrom p i xs = Some k → i ≤ k < i + length xs.
Proof.
  revert i. induction xs as [|x xs IH]; intros i; simpl; [done|].
  destruct (p x).
  - intros [= <-]. lia.
  - intros H%IH. lia.
Qed.

End IndexFacts.

(** ** The sequence rules of the edit guard *)

Section SequenceFacts.
Context (h : Host).

Lemma firstMissingIndex_Some w name row start m :
  firstMissingIndex w name row start = Some m →
  m < 5 ∧ isMissing (cellValue w name row (start + m)) = true
  ∧ ∀ i, i < m → isMissing (cellValue w name row (start + i)) = false.
Proof.
  unfold firstMissingIndex, findIndex. intros H.
  apply (findIndexFrom_seq_Some (λ idx, isMissing (cellValue w name row (start + idx)))) in H
    as (Hm & Hp & Hlt).
  simpl in Hm. split; [lia|]. split; [done|]. intros i Hi. apply Hlt. lia.
Qed.

Lemma firstMissingIndex_None w name row start :
  firstMissingIndex w name row start = None →
  ∀ i, i < 5 → isMissing (cellValue w name row (start + i)) = false.
Proof.
  unfold firstMissingIndex, findIndex. intros H i Hi.
  apply (findIndexFrom_seq_None (λ idx, isMissing (cellValue w name row (start + idx))) _ _ H).
  simpl. lia.
Qed.

Lemma firstGapBelow_None w name row start k :
  (∀ i, i < k → isMissing (cellValue w name row (start + i)) = false) →
  firstGapBelow w name row start k = None.
Proof.
  intros H. unfold firstGapBelow.
  apply (find_seq_None (λ i, isMissing (cellValue w name row (start + i)))).
  intros i Hi. apply H. lia.
Qed.

Lemma getSavedUserEmail_onSheet name f w :
  getSavedUserEmail_ (onSheet name f w) = getSavedUserEmail_ w.
Proof. unfold getSavedUserEmail_. by rewrite bssUserEmail_onSheet. Qed.

Lemma getSavedUserEmail_restoreOld e name r c w :
  getSavedUserEmail_ (restoreOld e name r c w) = getSavedUserEmail_ w.
Proof. unfold restoreOld. destruct (ev_oldValue e); apply getSavedUserEmail_onSheet. Qed.

Lemma getSavedUserEmail_toast text title w :
  getSavedUserEmail_ (toast h text title w) = getSavedUserEmail_ w.
Proof. unfold getSavedUserEmail_. by rewrite bssUserEmail_toast. Qed.

(** The tab of an entry that is kept where it was typed, or undone
    there when the user has no confirmed e-mail. *)
Lemma attribute_in_place e name row col w s :
  getSheetByName name w = Some s →
  getSheetByName name (attribute h e name false row col w)
  = Some (match getSavedUserEmail_ w with
          | Some email => setNote row col (stampNote h email (getNote s row col)) s
          | None =>
              setNote row (ev_col e) blockedNote
                      (match ev_oldValue e with
                       | Some old => setValue row col old s
                       | None => clearContent row col s
                       end)
          end).
Proof.
  intros Hs. unfold attribute, undoWorking.
  destruct (getSavedUserEmail_ w) as [email|].
  - unfold cellNote. rewrite Hs. by apply getSheetByName_onSheet_same.
  - apply getSheetByName_onSheet_same. by apply getSheetByName_restoreOld.
Qed.

(** The tab of an entry that was moved to column [target]. *)
Lemma attribute_relocated e name row target w s :
  getSheetByName name w = Some s →
  getSheetByName name (attribute h e name true row target w)
  = Some (match getSavedUserEmail_ w with
          | Some email => setNote row target (stampNote h email (getNote s row target)) s
          | None => setNote row (ev_col e) blockedNote (clearContent row target s)
          end).
Proof.
  intros Hs. unfold attribute, undoWorking.
  destruct (getSavedUserEmail_ w) as [email|].
  - unfold cellNote. rewrite Hs. by apply getSheetByName_onSheet_same.
  - apply getSheetByName_onSheet_same. by apply getSheetByName_onSheet_same.
Qed.

(** No relocation: every rank below the edited one is filled, so the
    sequence check passes and the entry goes to the attribution step. *)
Lemma relocateAndCheck_in_place e name newVal row col k start w :
  k ≤ 5 →
  (∀ m, firstMissingIndex w name row start = Some m → k ≤ m) →
  relocateAndCheck h e name newVal row col k start w = attribute h e name false row col w.
Proof.
  intros Hk Hfm. unfold relocateAndCheck, sequenceCheck.
  assert (Hgap : firstGapBelow w name row start k = None).
  { apply firstGapBelow_None. intros i Hi.
    destruct (firstMissingIndex w name row start) as [m|] eqn:Hm.
    - apply firstMissingIndex_Some in Hm as (_ & _ & Hlt). apply Hlt.
      specialize (Hfm m eq_refl). lia.
    - apply (firstMissingIndex_None _ _ _ _ Hm). lia. }
  rewrite Hgap.
  destruct (firstMissingIndex w name row start) as [m|] eqn:Hm; [|done].
  specialize (Hfm m eq_refl).
  destruct (m <? k) eqn:Hlt; [apply Nat.ltb_lt in Hlt; lia|done].
Qed.

(** Relocation: the entry typed at rank [k] goes to the first empty
    rank [m] below it; the ranks below [m] are filled, so the sequence
    check passes there. *)
Lemma relocateAndCheck_moved e name newVal row k start m w s :
  name ≠ "DebugLog" →
  getSheetByName name w = Some s →
  firstMissingIndex w name row start = Some m →
  m < k →
  let moved := setValue row (start + m) newVal
                 (match ev_oldValue e with
                  | Some old => setValue row (start + k) old s
                  | None => clearContent row (start + k) s
                  end) in
  getSheetByName name (relocateAndCheck h e name newVal row (start + k) k start w)
  = Some (match getSavedUserEmail_ w with
          | Some email =>
              setNote row (start + m) (stampNote h email (getNote s row (start + m))) moved
          | None => setNote row (ev_col e) blockedNote (clearContent row (start + m) moved)
          end).
Proof.
  intros Hdbg Hs Hm Hlt moved. unfold relocateAndCheck. rewrite Hm.
  apply Nat.ltb_lt in Hlt as Hltb. rewrite Hltb.
  set (w2 := onSheet name (setValue row (start + m) newVal)
               (restoreOld e name row (start + k) w)).
  set (w4 := debugLog h _ (toast h _ _ w2)).
  assert (Hs2 : getSheetByName name w2 = Some moved).
  { subst w2 moved. apply getSheetByName_onSheet_same. by apply getSheetByName_restoreOld. }
  assert (Hs4 : getSheetByName name w4 = Some moved).
  { subst w4. by rewrite getSheetByName_debugLog, getSheetByName_toast. }
  assert (Hmail : getSavedUserEmail_ w4 = getSavedUserEmail_ w).
  { subst w4 w2. unfold getSavedUserEmail_ at 1.
    rewrite bssUserEmail_debugLog, bssUserEmail_toast, bssUserEmail_onSheet.
    apply getSavedUserEmail_restoreOld. }
  apply firstMissingIndex_Some in Hm as (Hm5 & Hmiss & Hbelow).
  unfold sequenceCheck. rewrite firstGapBelow_None.
  - rewrite (attribute_relocated _ _ _ _ _ _ Hs4), Hmail.
    destruct (getSavedUserEmail_ w); [|done].
    subst moved. by rewrite getNote_setValue, getNote_restored.
  - intros i Hi. unfold cellValue. rewrite Hs4. subst moved.
    rewrite getValue_setValue, decide_False by (intros [=]; lia).
    rewrite getValue_restored, decide_False by (intros [=]; lia).
    specialize (Hbelow i Hi). unfold cellValue in Hbelow. by rewrite Hs in Hbelow.
Qed.

Lemma rankIndexOf_bound sheet col k : rankIndexOf h sheet col = Some k → k < 5.
Proof.
  unfold rankIndexOf, findIndex. intros H%findIndexFrom_bound. simpl in H. lia.
Qed.

End SequenceFacts.

(** ** Relocation and the missing active block *)

Section EditGuardTheorems.
Context (h : Host).

(** The week guard lets an edit inside the active block, or on a tab
    without one, through to the rank rules. *)
Lemma onEdit_passes_week_guard e w sheet cols :
  getSheetByName (ev_sheet e) w = Some sheet →
  includes (ev_sheet e) EXCLUDE_SHEETS = false →
  FIRST_STUDENT_ROW < ev_row e →
  getActiveWeekBlockCols h sheet = Ok cols →
  (∀ a b, cols = Some (a, b) → a ≤ ev_col e ≤ b) →
  onEdit h e w = guardRankEdit h e sheet cols w.
Proof.
  intros Hs Hex Hrow Hact Hin. unfold onEdit. rewrite Hs, Hex, Hact.
  destruct (ev_row e <=? FIRST_STUDENT_ROW) eqn:Hr; [apply Nat.leb_le in Hr; lia|].
  destruct cols as [[a b]|]; [|done].
  destruct (Hin a b eq_refl) as [H1%Nat.leb_le H2%Nat.leb_le]. by rewrite H1, H2.
Qed.

(** C1 (amended).  A non-empty value typed into the rank-5 column of
    the active week block while the rank-4 cell of that row is empty,
    by a user with a confirmed e-mail, is not rejected: the guard
    moves it to the first empty rank column [start + m] of the block,
    which is the rank-4 column when ranks 1 to 3 are filled; the
    rank-5 cell gets its previous value back (it is cleared when it
    had none) and the attribution line is stamped on the cell that
    received the value. *)
Theorem onEdit_rank5_entry_relocated (e : EditEvent) (w : World) (sheet : Sheet)
    (startCol endCol start : nat) (email : string) :
  let name := ev_sheet e in
  let row := ev_row e in
  let newVal := newValOf e sheet in
  getSheetByName name w = Some sheet →
  includes name EXCLUDE_SHEETS = false →
  FIRST_STUDENT_ROW < row →
  getActiveWeekBlockCols h sheet = Ok (Some (startCol, endCol)) →
  startCol ≤ ev_col e ≤ endCol →
  weekBlockStart h sheet (Some (startCol, endCol)) (ev_col e) = Some start →
  ev_col e = start + 4 →
  rankIndexOf h sheet (ev_col e) = Some 4 →
  truthy newVal = true →
  isMissing (getValue sheet row (start + 3)) = true →
  getSavedUserEmail_ w = Some email →
  ∃ m, firstMissingIndex w name row start = Some m
       ∧ m ≤ 3
       ∧ ((∀ i, i < 3 → isMissing (getValue sheet row (start + i)) = false) → m = 3)
       ∧ cellValue (onEdit h e w) name row (start + m) = newVal
       ∧ cellValue (onEdit h e w) name row (ev_col e) = default (VStr "") (ev_oldValue e)
       ∧ cellNote (onEdit h e w) name row (start + m)
         = stampNote h email (getNote sheet row (start + m)).
Proof.
  intros name row newVal Hs Hex Hrow Hact Hin Hblock Hcol Hrank Hnew H4 Hmail.
  pose proof (not_excluded_not_debug _ Hex) as Hdbg.
  rewrite (onEdit_passes_week_guard e w sheet _ Hs Hex Hrow Hact)
    by (intros a b [= <- <-]; done).
  unfold guardRankEdit. rewrite Hrank. fold newVal. rewrite Hnew, Hblock. simpl.
  fold name row. rewrite Hcol.
  destruct (firstMissingIndex w name row start) as [m|] eqn:Hm.
  2: { apply firstMissingIndex_None with (i := 3) in Hm; [|lia].
       unfold cellValue in Hm. rewrite Hs in Hm. congruence. }
  pose proof (firstMissingIndex_Some _ _ _ _ _ Hm) as (Hm5 & Hmiss & Hbelow).
  assert (Hm3 : m ≤ 3).
  { destruct (decide (m ≤ 3)); [done|]. specialize (Hbelow 3 ltac:(lia)).
    unfold cellValue in Hbelow. rewrite Hs in Hbelow. congruence. }
  exists m. split; [done|]. split; [done|]. split.
  { intros Hfilled. destruct (decide (m = 3)); [done|].
    specialize (Hfilled m ltac:(lia)). unfold cellValue in Hmiss. rewrite Hs in Hmiss.
    congruence. }
  pose proof (relocateAndCheck_moved h e name newVal row 4 start m w sheet
                Hdbg Hs Hm ltac:(lia)) as Hsheet.
  simpl in Hsheet. rewrite Hmail in Hsheet.
  unfold cellValue, cellNote. rewrite Hsheet. repeat split.
  - rewrite getValue_setNote, getValue_setValue. by rewrite decide_True.
  - rewrite getValue_setNote, getValue_setValue, decide_False by (intros [=]; lia).
    rewrite getValue_restored. by rewrite decide_True.
  - rewrite getNote_setNote. by rewrite decide_True.
Qed.

(** C6 (amended).  On a tab where no active block can be resolved the
    week guard does not apply and edits are not rejected for it: a
    non-empty entry in a rank column with no empty rank below it in
    its block, made by a user with a confirmed e-mail, is kept as
    typed (no cell of the tab changes) and the attribution line is
    stamped on the edited cell. *)
Theorem onEdit_without_active_block_not_rejected (e : EditEvent) (w : World) (sheet : Sheet)
    (k : nat) (email : string) :
  let name := ev_sheet e in
  let row := ev_row e in
  getSheetByName name w = Some sheet →
  includes name EXCLUDE_SHEETS = false →
  FIRST_STUDENT_ROW < row →
  getActiveWeekBlockCols h sheet = Ok None →
  rankIndexOf h sheet (ev_col e) = Some k →
  truthy (newValOf e sheet) = true →
  (∀ start m, weekBlockStart h sheet None (ev_col e) = Some start →
              firstMissingIndex w name row start = Some m → k ≤ m) →
  getSavedUserEmail_ w = Some email →
  (∀ r c, cellValue (onEdit h e w) name r c = cellValue w name r c)
  ∧ cellNote (onEdit h e w) name row (ev_col e)
    = stampNote h email (cellNote w name row (ev_col e)).
Proof.
  intros name row Hs Hex Hrow Hact Hrank Hnew Hfilled Hmail.
  rewrite (onEdit_passes_week_guard e w sheet _ Hs Hex Hrow Hact) by done.
  unfold guardRankEdit. rewrite Hrank, Hnew. simpl. fold name row.
  pose proof (rankIndexOf_bound h _ _ _ Hrank) as Hk.
  assert (Hres : getSheetByName name
                   (match weekBlockStart h sheet None (ev_col e) with
                    | Some start =>
                        relocateAndCheck h e name (newValOf e sheet) row (ev_col e) k start w
                    | None => attribute h e name false row (ev_col e) w
                    end)
                 = Some (setNote row (ev_col e)
                           (stampNote h email (getNote sheet row (ev_col e))) sheet)).
  { destruct (weekBlockStart h sheet None (ev_col e)) as [start|] eqn:Hb.
    - rewrite relocateAndCheck_in_place by (eauto with lia).
      by rewrite (attribute_in_place h _ _ _ _ _ _ Hs), Hmail.
    - by rewrite (attribute_in_place h _ _ _ _ _ _ Hs), Hmail. }
  unfold cellValue, cellNote. rewrite Hres, Hs. split.
  - intros r c. apply getValue_setNote.
  - rewrite getNote_setNote. by rewrite decide_True.
Qed.
End EditGuardTheorems.

(** ** The sequence rule as an invariant *)

Section SequenceInvariant.
Context (h : Host).

Lemma sequenceOk_spec w name row start :
  sequenceOk w name row start = true ↔
  ∀ i j, i < j → j < 5 →
         isMissing (cellValue w name row (start + j)) = false →
         isMissing (cellValue w name row (start + i)) = false.
Proof.
  unfold sequenceOk. rewrite forallb_forall. split.
  - intros H i j Hij Hj Hfilled.
    specialize (H j). rewrite Hfilled in H. simpl in H.
    assert (Hin : In j (seq 0 (length INFRACTION_SEQUENCE))) by (apply in_seq; simpl; lia).
    specialize (H Hin). rewrite forallb_forall in H.
    specialize (H i). rewrite negb_true_iff in H. apply H. apply in_seq. lia.
  - intros H j [_ Hj]%in_seq. simpl in Hj.
    destruct (isMissing (cellValue w name row (start + j))) eqn:Hm; [done|]. simpl.
    apply forallb_forall. intros i [_ Hi]%in_seq. rewrite negb_true_iff.
    apply (H i j); [lia|lia|done].
Qed.

Lemma truthy_not_missing v : truthy v = true → isMissing v = false.
Proof.
  unfold isMissing. intros H. apply bool_decide_eq_false. intros ->. done.
Qed.

Lemma isMissing_true v : isMissing v = true → v = VStr "".
Proof. unfold isMissing. apply bool_decide_eq_true. Qed.

(** Restoring the old value of the edited cell gives back the tab as
    it was before the user typed. *)
Lemma restored_is_original (e : EditEvent) sheet0 row col newVal r c :
  ev_oldValue e = (if isMissing (getValue sheet0 row col) then None
                   else Some (getValue sheet0 row col)) →
  getValue (match ev_oldValue e with
            | Some old => setValue row col old (setValue row col newVal sheet0)
            | None => clearContent row col (setValue row col newVal sheet0)
            end) r c = getValue sheet0 r c.
Proof.
  intros Hold. rewrite getValue_restored, getValue_setValue.
  case_decide as Hk; [|done]. injection Hk as <- <-. rewrite Hold.
  destruct (isMissing (getValue sheet0 row col)) eqn:Hm; [|done].
  simpl. symmetry. by apply isMissing_true.
Qed.

(** What the guard leaves of an entry: with respect to the tab before
    the user typed ([w0]) and after ([w]), the entry is undone, kept
    where it was typed (every lower rank being filled), or moved to
    the first empty rank below it. *)
Lemma onEdit_entry_cells (e : EditEvent) (w0 : World) (sheet0 : Sheet) (newVal : value)
    (cols : option (nat * nat)) (start k : nat) :
  let name := ev_sheet e in
  let row := ev_row e in
  let sheet := setValue row (ev_col e) newVal sheet0 in
  let w := onSheet name (setValue row (ev_col e) newVal) w0 in
  getSheetByName name w0 = Some sheet0 →
  includes name EXCLUDE_SHEETS = false →
  FIRST_STUDENT_ROW < row →
  newValOf e sheet = newVal →
  truthy newVal = true →
  ev_oldValue e = (if isMissing (getValue sheet0 row (ev_col e)) then None
                   else Some (getValue sheet0 row (ev_col e))) →
  getActiveWeekBlockCols h sheet = Ok cols →
  ev_col e = start + k →
  rankIndexOf h sheet (ev_col e) = Some k →
  weekBlockStart h sheet cols (ev_col e) = Some start →
  let w' := onEdit h e w in
  (∀ r c, cellValue w' name r c = cellValue w0 name r c)
  ∨ ((∀ r c, cellValue w' name r c = cellValue w name r c)
     ∧ ∀ i, i < k → isMissing (cellValue w0 name row (start + i)) = false)
  ∨ (∃ m, m < k
          ∧ isMissing (cellValue w0 name row (start + m)) = true
          ∧ (∀ i, i < m → isMissing (cellValue w0 name row (start + i)) = false)
          ∧ ∀ r c, cellValue w' name r c
                   = if decide ((row, start + m) = (r, c)) then newVal
                     else cellValue w0 name r c).
Proof.
  intros name row sheet w Hs0 Hex Hrow Hnew Htruthy Hold Hact Hcol Hrank Hblock w'.
  pose proof (not_excluded_not_debug _ Hex) as Hdbg.
  pose proof (rankIndexOf_bound h _ _ _ Hrank) as Hk.
  assert (Hs : getSheetByName name w = Some sheet)
    by (by apply getSheetByName_onSheet_same).
  assert (Hcell : ∀ i, i ≠ k →
            cellValue w name row (start + i) = cellValue w0 name row (start + i)).
  { intros i Hi. unfold cellValue. rewrite Hs, Hs0. subst sheet.
    rewrite getValue_setValue, decide_False; [done|]. intros [=]. lia. }
  assert (Hcases : (∀ a b, cols = Some (a, b) → a ≤ ev_col e ≤ b)
                   ∨ ∃ a b, cols = Some (a, b) ∧ ¬ a ≤ ev_col e ≤ b).
  { destruct cols as [[a b]|]; [|by left].
    destruct (decide (a ≤ ev_col e ≤ b)); [left|right; eauto].
    by intros ? ? [= <- <-]. }
  destruct Hcases as [Hin|(a & b & -> & Hab)].
  2: { (* outside the active block: the old value is put back *)
    left. subst w'. rewrite (onEdit_outside_block h e w sheet a b Hs Hex Hrow Hact) by lia.
    intros r c. rewrite cellValue_debugLog, cellValue_toast by done.
    unfold cellValue. rewrite (getSheetByName_restoreOld _ _ _ _ _ _ Hs), Hs0.
    by apply restored_is_original. }
  subst w'. rewrite (onEdit_passes_week_guard h e w sheet _ Hs Hex Hrow Hact Hin).
  unfold guardRankEdit. rewrite Hrank, Hnew, Htruthy, Hblock. simpl. fold name row.
  destruct (firstMissingIndex w name row start) as [m|] eqn:Hm.
  - pose proof (firstMissingIndex_Some _ _ _ _ _ Hm) as (Hm5 & Hmiss & Hbelow).
    destruct (decide (m < k)) as [Hlt|Hge].
    + (* moved to rank m *)
      pose proof (relocateAndCheck_moved h e name newVal row k start m w sheet
                    Hdbg Hs Hm Hlt) as Hsheet.
      simpl in Hsheet. rewrite <- Hcol in Hsheet.
      assert (Hm0 : isMissing (cellValue w0 name row (start + m)) = true)
        by (rewrite <- Hcell by lia; done).
      destruct (getSavedUserEmail_ w) as [email|].
      * right. right. exists m. split; [done|]. split; [done|]. split.
        { intros i Hi. rewrite <- Hcell by lia. by apply Hbelow. }
        intros r c. unfold cellValue. rewrite Hsheet, Hs0.
        rewrite getValue_setNote, getValue_setValue. case_decide; [done|].
        by apply restored_is_original.
      * left. intros r c. unfold cellValue. rewrite Hsheet, Hs0.
        rewrite getValue_setNote, getValue_clearContent, getValue_setValue.
        case_decide as Hrc; [|by apply restored_is_original].
        injection Hrc as <- <-. unfold cellValue in Hm0. rewrite Hs0 in Hm0.
        symmetry. by apply isMissing_true.
    + rewrite relocateAndCheck_in_place
        by first [lia | intros ? Hx; rewrite Hm in Hx; injection Hx as <-; lia].
      pose proof (attribute_in_place h e name row (ev_col e) w sheet Hs) as Hatt.
      destruct (getSavedUserEmail_ w) as [email|].
      * right. left. split.
        { intros r c. unfold cellValue. rewrite Hatt, Hs. apply getValue_setNote. }
        intros i Hi. rewrite <- Hcell by lia. apply Hbelow. lia.
      * left. intros r c. unfold cellValue. rewrite Hatt, Hs0, getValue_setNote.
        by apply restored_is_original.
  - rewrite relocateAndCheck_in_place
      by first [lia | intros ? Hx; rewrite Hm in Hx; done].
    pose proof (attribute_in_place h e name row (ev_col e) w sheet Hs) as Hatt.
    destruct (getSavedUserEmail_ w) as [email|].
    + right. left. split.
      { intros r c. unfold cellValue. rewrite Hatt, Hs. apply getValue_setNote. }
      intros i Hi. rewrite <- Hcell by lia.
      apply (firstMissingIndex_None _ _ _ _ Hm). lia.
    + left. intros r c. unfold cellValue. rewrite Hatt, Hs0, getValue_setNote.
      by apply restored_is_original.
Qed.

(** C8 (amended).  The guard keeps the sequence rule on entries.  Let
    the rule hold in row [row] of a week block before the user types a
    non-empty (truthy) value into one of its rank columns, whose label
    is the rank of its position in the block.  After the guard has
    processed the edit the rule holds again in that row of the block,
    and every cell outside it (other rows, other columns) is as it was
    before the user typed.  Edits that blank a cell are outside this
    statement. *)
Theorem onEdit_entry_keeps_sequence (e : EditEvent) (w0 : World) (sheet0 : Sheet)
    (newVal : value) (cols : option (nat * nat)) (start k : nat) :
  let name := ev_sheet e in
  let row := ev_row e in
  let sheet := setValue row (ev_col e) newVal sheet0 in
  let w := onSheet name (setValue row (ev_col e) newVal) w0 in
  getSheetByName name w0 = Some sheet0 →
  includes name EXCLUDE_SHEETS = false →
  FIRST_STUDENT_ROW < row →
  newValOf e sheet = newVal →
  truthy newVal = true →
  ev_oldValue e = (if isMissing (getValue sheet0 row (ev_col e)) then None
                   else Some (getValue sheet0 row (ev_col e))) →
  getActiveWeekBlockCols h sheet = Ok cols →
  ev_col e = start + k →
  rankIndexOf h sheet (ev_col e) = Some k →
  weekBlockStart h sheet cols (ev_col e) = Some start →
  sequenceOk w0 name row start = true →
  sequenceOk (onEdit h e w) name row start = true
  ∧ ∀ r c, r ≠ row ∨ c < start ∨ start + 4 < c →
           cellValue (onEdit h e w) name r c = cellValue w0 name r c.
Proof.
  intros name row sheet w Hs0 Hex Hrow Hnew Htruthy Hold Hact Hcol Hrank Hblock Hinv.
  pose proof (rankIndexOf_bound h _ _ _ Hrank) as Hk.
  pose proof (truthy_not_missing _ Htruthy) as Hfilled.
  rewrite sequenceOk_spec in Hinv.
  assert (Hw : ∀ r c, cellValue w name r c
                      = if decide ((row, ev_col e) = (r, c)) then newVal
                        else cellValue w0 name r c).
  { intros r c. unfold cellValue, w.
    rewrite (getSheetByName_onSheet_same _ _ _ _ Hs0), Hs0. apply getValue_setValue. }
  destruct (onEdit_entry_cells e w0 sheet0 newVal cols start k Hs0 Hex Hrow Hnew Htruthy
              Hold Hact Hcol Hrank Hblock) as [Hsame|[[Hkept Hbelow]|(m & Hm & Hmiss & Hbelow & Hmoved)]].
  - split; [|by intros r c _].
    apply sequenceOk_spec. intros i j Hij Hj. rewrite !Hsame. by apply Hinv.
  - split.
    + apply sequenceOk_spec. intros i j Hij Hj. rewrite !Hkept, !Hw.
      destruct (decide (i < k)) as [Hik|Hik].
      { intros _. rewrite decide_False by (intros [=]; lia). by apply Hbelow. }
      destruct (decide (i = k)) as [->|Hne].
      { intros _. rewrite decide_True by (by rewrite Hcol). done. }
      rewrite !decide_False by (intros [=]; lia). by apply Hinv.
    + intros r c Hrc. rewrite Hkept, Hw. rewrite decide_False; [done|].
      intros [=]. lia.
  - split.
    + apply sequenceOk_spec. intros i j Hij Hj. rewrite !Hmoved.
      destruct (decide (j = m)) as [->|Hjm].
      { intros _. rewrite decide_False by (intros [=]; lia). apply Hbelow. lia. }
      rewrite (decide_False (P := (row, start + m) = (row, start + j))) by (intros [=]; lia).
      intros Hj'. destruct (decide (j < m)) as [Hlt|Hgt].
      * rewrite decide_False by (intros [=]; lia). apply Hbelow. lia.
      * specialize (Hinv m j ltac:(lia) Hj Hj'). unfold name, row in Hinv.
        by rewrite Hmiss in Hinv.
    + intros r c Hrc. rewrite Hmoved. rewrite decide_False; [done|].
      intros [=]. lia.
Qed.

End SequenceInvariant.

(** ** The two lookups of the active week *)

Section TrimFacts.

Lemma trimEnd_idemp s : trimEnd (trimEnd s) = trimEnd s.
Proof.
  induction s as [|c r IH]; simpl; [done|].
  destruct (isWhite c && bool_decide (trimEnd r = "")) eqn:Hc; [done|].
  simpl. by rewrite IH, Hc.
Qed.

(** A trimmed text does not begin with white space. *)
Lemma trimStart_head s c r : trimStart s = String c r → isWhite c = false.
Proof.
  induction s as [|d s IH]; simpl; [done|].
  destruct (isWhite d) eqn:Hd; [done|]. by intros [= <- _].
Qed.

Lemma trim_head s c r : trim s = String c r → isWhite c = false.
Proof.
  unfold trim. destruct (trimStart s) as [|d t] eqn:Hs; simpl; [done|].
  pose proof (trimStart_head _ _ _ Hs) as Hd. rewrite Hd. simpl. by intros [= <- _].
Qed.

Lemma trimStart_fixed s : (∀ c r, s = String c r → isWhite c = false) → trimStart s = s.
Proof.
  destruct s as [|c r]; simpl; [done|]. intros H. by rewrite (H c r eq_refl).
Qed.

Lemma trim_idemp s : trim (trim s) = trim s.
Proof.
  rewrite <- (trimStart_fixed (trim s)) at 2 by (intros c r; apply trim_head).
  unfold trim at 1. rewrite (trimStart_fixed (trim s)) by (intros c r; apply trim_head).
  unfold trim. apply trimEnd_idemp.
Qed.

Lemma substring_all s : String.substring 0 (String.length s) s = s.
Proof. induction s as [|c r IH]; simpl; [done|]. by rewrite IH. Qed.

Lemma find_exists {A} (p : A → bool) (l : list A) x :
  In x l → p x = true → ∃ y, List.find p l = Some y.
Proof.
  induction l as [|a l IH]; simpl; [done|].
  intros [->|Hin] Hx.
  - rewrite Hx. eauto.
  - destruct (p a); eauto.
Qed.

End TrimFacts.

Section LookupPaths.
Context (h : Host).

(** The prefix that [getActiveWeekForSheet] puts before the week date
    is the one that [getActiveWeekBlockCols] strips. *)
Lemma stripWeekOf_label wd :
  (∀ c r, wd = String c r → isWhite c = false) →
  stripWeekOf ("Week of " +:+ wd) = wd.
Proof.
  intros Hwd. unfold stripWeekOf.
  change ("Week of " +:+ wd) with
    (String "W" (String "e" (String "e" (String "k" (String " " (String "o" (String "f"
       (String " " wd)))))))).
  cbn [String.length Nat.sub String.substring].
  rewrite substring_all.
  change (toLowerCase "Week of") with "week of". rewrite bool_decide_true by done.
  cbn [trimStart]. change (isWhite " ") with true. cbn iota.
  rewrite (trimStart_fixed wd Hwd).
  rewrite bool_decide_false; [done|].
  intros Heq. apply (f_equal String.length) in Heq. simpl in Heq. lia.
Qed.

Lemma activeScan_label s cs label :
  (∀ c, In c cs → c < dataCols s) →
  activeScan h s cs = Ok (Some label) →
  ∃ cc, cc < dataCols s ∧ headerCell h s 2 cc = "5th"
        ∧ label = "Week of " +:+ headerCell h s 1 cc.
Proof.
  induction cs as [|c cs IH]; simpl; [done|]. intros Hcs.
  assert (Hrest : ∀ c', In c' cs → c' < dataCols s) by (intros; apply Hcs; by right).
  destruct (bool_decide (toLowerCase (headerCell h s 1 c) = "active")); [|by apply IH].
  destruct (dataRows s <? 2); [done|].
  destruct (terminalAfter h s c) as [cc|] eqn:Hcc; [|by apply IH].
  case_bool_decide; [done|]. intros [= <-].
  unfold terminalAfter in Hcc. apply find_some in Hcc as [Hin Hp].
  apply in_seq in Hin. apply bool_decide_eq_true in Hp.
  exists cc. split; [|done]. specialize (Hcs c (or_introl eq_refl)). lia.
Qed.

(** X7.  On a tab at least five columns wide the two lookups of the
    active week agree: when [getActiveWeekForSheet] finds a week label,
    [getActiveWeekBlockCols] finds a block for it. *)
Lemma active_label_resolves_block s label :
  5 ≤ getLastColumn s →
  getActiveWeekForSheet h s = Ok (Some label) →
  ∃ block, getActiveWeekBlockCols h s = Ok (Some block).
Proof.
  intros Hwidth Hlabel. unfold getActiveWeekBlockCols.
  destruct (getLastColumn s <? 5) eqn:Hw; [apply Nat.ltb_lt in Hw; lia|].
  rewrite Hlabel.
  unfold getActiveWeekForSheet in Hlabel.
  apply activeScan_label in Hlabel as (cc & Hcc & H5 & ->);
    [|intros c Hc%in_seq; lia].
  assert (Hdate : trim (stripWeekOf ("Week of " +:+ headerCell h s 1 cc)) = headerCell h s 1 cc).
  { rewrite stripWeekOf_label by (intros c r; apply trim_head). apply trim_idemp. }
  rewrite Hdate.
  destruct (find_exists
              (λ c, bool_decide (headerCell h s 2 c = "5th")
                    && bool_decide (headerCell h s 1 c = headerCell h s 1 cc))
              (seq 0 (getLastColumn s)) cc) as [c Hc].
  - apply in_seq. unfold dataCols in Hcc. lia.
  - by rewrite !bool_decide_true.
  - rewrite Hc. eauto.
Qed.
End LookupPaths.

(** ** Roster sync *)

Section RosterSyncFacts.
Context (h : Host).

(** C3 (amended).  A call of the roster sync for a team whose
    [teamSyncMap] entry already is today's date does nothing but append
    one line to the diagnostic log: the sync state, the user
    properties, the mail calls, the messages shown, every tab other
    than [DebugLog] and every note are as they were. *)
Theorem syncRosterForTeam_again_same_day (teamName : string) (w : World)
    (syncMap : gmap string string) :
  teamSyncMap w = Some (SyncJson syncMap) →
  syncMap !! teamName = Some (formatDate h (now h) "yyyy-MM-dd") →
  let w' := syncRosterForTeam h teamName w in
  w' = debugLog h (stamped h teamName "Already synced today; skipping.") w
  ∧ teamSyncMap w' = teamSyncMap w
  ∧ bssUserEmail w' = bssUserEmail w
  ∧ outbox w' = outbox w
  ∧ shown w' = shown w
  ∧ (∀ name, name ≠ "DebugLog" → getSheetByName name w' = getSheetByName name w)
  ∧ (∀ name r c, cellNote w' name r c = cellNote w name r c).
Proof.
  intros Hprop Htoday w'.
  assert (Hw' : w' = debugLog h (stamped h teamName "Already synced today; skipping.") w).
  { subst w'. unfold syncRosterForTeam, loadSyncMap. rewrite Hprop.
    by rewrite bool_decide_true. }
  rewrite Hw'. repeat split; try done.
  - intros name Hname. by apply getSheetByName_debugLog.
  - intros name r c. apply cellNote_debugLog.
Qed.

(** A sync that finds the template and rebuilds the tab records
    today's date for the team, so the next call on that day is the
    one above. *)
Lemma syncRosterForTeam_records_today (teamName : string) (w : World) (template : Sheet) :
  getSheetByName TEAM_TEMPLATE_NAME w = Some template →
  getLastColumn template ≠ 0 →
  ∃ syncMap, teamSyncMap (syncRosterForTeam h teamName w) = Some (SyncJson syncMap)
             ∧ syncMap !! teamName = Some (formatDate h (now h) "yyyy-MM-dd").
Proof.
  intros Htpl Hcols. unfold syncRosterForTeam.
  destruct (loadSyncMap h teamName w) as [syncMap w0] eqn:Hload.
  case_bool_decide as Hdone.
  - exists syncMap. split; [|done].
    unfold loadSyncMap in Hload.
    destruct (teamSyncMap w) as [[m|raw]|] eqn:Hp.
    + by injection Hload as <- <-.
    + destruct (bool_decide (raw = "")); injection Hload as <- <-; by rewrite lookup_empty in Hdone.
    + injection Hload as <- <-. by rewrite lookup_empty in Hdone.
  - assert (Htpl0 : getSheetByName TEAM_TEMPLATE_NAME w0 = Some template).
    { unfold loadSyncMap in Hload.
      destruct (teamSyncMap w) as [[m|raw]|]; try (by injection Hload as <- <-).
      destruct (bool_decide (raw = "")); injection Hload as <- <-; [done|].
      by rewrite getSheetByName_debugLog. }
    unfold t. rewrite !getSheetByName_debugLog, Htpl0 by done.
    unfold rebuildView. rewrite bool_decide_false by done.
    exists (<[teamName := formatDate h (now h) "yyyy-MM-dd"]> syncMap).
    split; [|apply lookup_insert_eq].
    match goal with |- context [getSheetByName teamName ?x] => destruct (getSheetByName teamName x) end.
    + unfold pruneDebugLogSheet.
      match goal with |- context [getSheetByName "DebugLog" ?x] => destruct (getSheetByName "DebugLog" x) end; [|done].
      by match goal with |- context [if ?b then _ else _] => destruct b end.
    + unfold pruneDebugLogSheet.
      match goal with |- context [getSheetByName "DebugLog" ?x] => destruct (getSheetByName "DebugLog" x) end; [|done].
      by match goal with |- context [if ?b then _ else _] => destruct b end.
Qed.
End RosterSyncFacts.

(** ** The event ledger *)

Section LedgerFacts.
Context (h : Host).

Lemma eventCol_snoc headers v name :
  eventCol h (headers ++ [v]) name
  = if bool_decide (toString h v = name) then Some (length headers)
    else eventCol h headers name.
Proof.
  unfold eventCol. rewrite imap_app, foldl_app. simpl.
  by rewrite Nat.add_0_r.
Qed.

(** A column found by name carries that name. *)
Lemma eventCol_Some headers name c :
  eventCol h headers name = Some c →
  ∃ v, headers !! c = Some v ∧ toString h v = name.
Proof.
  induction headers as [|v headers IH] using rev_ind; [done|].
  rewrite eventCol_snoc. case_bool_decide as Hv.
  - intros [= <-]. exists v. split; [|done].
    by rewrite lookup_app_r, Nat.sub_diag.
  - intros H. destruct (IH H) as (v' & Hl & Hn). exists v'. split; [|done].
    apply lookup_app_l_Some; done.
Qed.

Lemma eventCol_inj headers name1 name2 c :
  eventCol h headers name1 = Some c → eventCol h headers name2 = Some c → name1 = name2.
Proof.
  intros (v1 & H1 & <-)%eventCol_Some (v2 & H2 & <-)%eventCol_Some. congruence.
Qed.

Lemma strictEq_eq a b : strictEq a b = true → a = b.
Proof.
  destruct a, b; simpl; try done; intros H%bool_decide_eq_true; by subst.
Qed.

(** C5.  When the run observes a non-empty rank cell whose key is in
    [eventMap] at row [rowIdx], it appends nothing and changes no
    note, no other row and no other named column of the ledger, the
    identity snapshot [All Student Data] included: the only cell that
    can change is [Source Value] of row [rowIdx], which then holds the
    observed value, and the ledger stays as it is when the stored
    value already equals the observed one. *)
Theorem observeCell_known_key_updates_source_value
    (headers : list value) (name : string) (view : Sheet)
    (studentData : list (string * option value)) (dsid : value) (r infCol : nat)
    (run : Run) (rowIdx : nat) :
  let val := getValue view (S r) (S infCol) in
  let run' := observeCell h headers name view studentData dsid r infCol run in
  thrown run = None →
  truthy val = true →
  eventMap run !! cellKey h view dsid infCol = Some rowIdx →
  newEvents run' = newEvents run
  ∧ eventMap run' = eventMap run
  ∧ notes (eventSheet run') = notes (eventSheet run)
  ∧ (∀ r' c', r' ≠ rowIdx →
              getValue (eventSheet run') r' c' = getValue (eventSheet run) r' c')
  ∧ (∀ field c r', field ≠ "Source Value" → eventCol h headers field = Some c →
                   getValue (eventSheet run') r' (S c) = getValue (eventSheet run) r' (S c))
  ∧ (∀ sv, eventCol h headers "Source Value" = Some sv →
           thrown run' = None
           ∧ getValue (eventSheet run') rowIdx (S sv) = val
           ∧ (∀ c', c' ≠ S sv →
                    getValue (eventSheet run') rowIdx c' = getValue (eventSheet run) rowIdx c')
           ∧ (strictEq (getValue (eventSheet run) rowIdx (S sv)) val = true →
              eventSheet run' = eventSheet run)).
Proof.
  intros val run' Hthrown Htruthy Hkey.
  subst run'. unfold observeCell. rewrite Hthrown. fold val.
  rewrite Htruthy, Hkey. simpl.
  destruct (eventCol h headers "Source Value") as [sv|] eqn:Hsv; [|by repeat split].
  destruct (strictEq (getValue (eventSheet run) rowIdx (S sv)) val) eqn:Heq; simpl;
    refine (conj _ (conj _ (conj _ (conj _ (conj _ _))))); try done.
  - apply strictEq_eq in Heq. intros sv' [= <-]. by repeat split.
  - intros r' c' Hne. rewrite getValue_setValue, decide_False; [done|].
    intros [=]. by apply Hne.
  - intros field c r' Hf Hc. rewrite getValue_setValue, decide_False; [done|].
    intros [= _ <-]. apply Hf. symmetry. by apply (eventCol_inj headers _ _ sv).
  - intros sv' [= <-]. refine (conj _ (conj _ (conj _ _))); try done.
    + rewrite getValue_setValue. by rewrite decide_True.
    + intros c' Hc'. rewrite getValue_setValue, decide_False; [done|].
      intros [=]. by apply Hc'.
    + by rewrite Heq.
Qed.

(** The rows a run is about to append have pairwise distinct keys,
    none of them a key of the map the run started from: [eventMap]
    holds the keys of both at every moment. *)
Lemma observeCell_new_keys headers name view studentData dsid r infCol run (keys0 : gset string) :
  NoDup (insertedKey h <$> newEvents run) →
  (∀ k, is_Some (eventMap run !! k) ↔ k ∈ keys0 ∨ k ∈ insertedKey h <$> newEvents run) →
  (∀ k, k ∈ insertedKey h <$> newEvents run → k ∉ keys0) →
  let run' := observeCell h headers name view studentData dsid r infCol run in
  NoDup (insertedKey h <$> newEvents run')
  ∧ (∀ k, is_Some (eventMap run' !! k) ↔ k ∈ keys0 ∨ k ∈ insertedKey h <$> newEvents run')
  ∧ (∀ k, k ∈ insertedKey h <$> newEvents run' → k ∉ keys0).
Proof.
  intros Hnodup Hdom Hfresh run'. subst run'. unfold observeCell.
  destruct (thrown run); [done|].
  destruct (negb (truthy (getValue view (S r) (S infCol)))); [done|].
  destruct (eventMap run !! cellKey h view dsid infCol) as [rowIdx|] eqn:Hkey.
  - destruct (eventCol h headers "Source Value"); [|done].
    by destruct (strictEq _ _).
  - cbn [newEvents eventMap]. rewrite fmap_app. cbn [fmap list_fmap].
    replace (insertedKey h (newEventRow h name view studentData dsid r infCol))
      with (cellKey h view dsid infCol) by done.
    assert (Hnew : ¬ (cellKey h view dsid infCol ∈ keys0
                      ∨ cellKey h view dsid infCol ∈ insertedKey h <$> newEvents run)).
    { rewrite <- Hdom. rewrite Hkey. by intros [? ?]. }
    split; [|split].
    + apply NoDup_app. split; [done|]. split; [|apply NoDup_singleton].
      intros k Hin ->%list_elem_of_singleton. apply Hnew. by right.
    + intros k. rewrite elem_of_app, list_elem_of_singleton.
      destruct (decide (k = cellKey h view dsid infCol)) as [->|Hne].
      * rewrite lookup_insert_eq. split; [intros _; right; by right|by eauto].
      * rewrite lookup_insert_ne by done. rewrite Hdom. intuition.
    + intros k [Hin|Hin]%elem_of_app.
      * by apply Hfresh.
      * apply list_elem_of_singleton in Hin. subst k. intros Hin. apply Hnew. by left.
Qed.
End LedgerFacts.

(** ** A whole run of the ledger *)

Section LastRowFacts.

(** [getLastRow] is the largest row of a cell with content. *)
Lemma getLastRow_spec (s : Sheet) :
  (∀ r c, isMissing (getValue s r c) = false → r ≤ getLastRow s)
  ∧ (getLastRow s = 0 ∨ ∃ c, isMissing (getValue s (getLastRow s) c) = false).
Proof.
  unfold getLastRow, getValue. destruct s as [cs ns]; simpl.
  apply (map_fold_weak_ind
           (λ (n : nat) (m : gmap (nat * nat) value),
              (∀ r c, isMissing (default (VStr "") (m !! (r, c))) = false → r ≤ n)
              ∧ (n = 0 ∨ ∃ c, isMissing (default (VStr "") (m !! (n, c))) = false))).
  - split; [|by left]. intros r c. by rewrite lookup_empty.
  - intros [r0 c0] v m n Hnone [Hub Hwit]. simpl. split.
    + intros r c. destruct (decide ((r0, c0) = (r, c))) as [[= <- <-]|Hne].
      * rewrite lookup_insert_eq. simpl. intros ->. lia.
      * rewrite lookup_insert_ne by done. intros Hr%Hub.
        destruct (isMissing v); lia.
    + destruct (isMissing v) eqn:Hv.
      * destruct Hwit as [|[c Hc]]; [by left|]. right. exists c.
        destruct (decide ((r0, c0) = (n, c))) as [[= -> ->]|Hne].
        -- by rewrite Hnone in Hc.
        -- by rewrite lookup_insert_ne.
      * right. destruct (decide (r0 ≤ n)) as [Hle|Hgt].
        -- rewrite Nat.max_r by done.
           destruct (decide (r0 = n)) as [->|Hne].
           ++ exists c0. by rewrite lookup_insert_eq.
           ++ destruct Hwit as [->|[c Hc]]; [lia|]. exists c.
              rewrite lookup_insert_ne; [done|]. intros [=]. lia.
        -- rewrite Nat.max_l by lia. exists c0. by rewrite lookup_insert_eq.
Qed.

Lemma getLastRow_ge s r c : isMissing (getValue s r c) = false → r ≤ getLastRow s.
Proof. apply getLastRow_spec. Qed.

(** Writing content never lowers the last row. *)
Lemma getLastRow_setValue_mono r c v s :
  isMissing v = false → getLastRow s ≤ getLastRow (setValue r c v s).
Proof.
  intros Hv. destruct (getLastRow_spec s) as [_ [->|[c0 Hc0]]]; [lia|].
  apply (getLastRow_ge _ _ c0). rewrite getValue_setValue. by case_decide.
Qed.

Lemma getValue_writeRow_other r vals s r' c' :
  r ≠ r' → getValue (writeRow r vals s) r' c' = getValue s r' c'.
Proof.
  intros Hne. unfold writeRow. generalize (imap pair vals). intros l. revert s.
  induction l as [|x l IH]; intros s; simpl; [done|].
  rewrite IH, getValue_setValue, decide_False; [done|]. intros [=]. done.
Qed.

Lemma getValue_writeRows_above r rows s r' c' :
  r' < r → getValue (writeRows r rows s) r' c' = getValue s r' c'.
Proof.
  intros Hlt. unfold writeRows. generalize (imap pair rows). intros l. revert s.
  induction l as [|x l IH]; intros s; simpl; [done|].
  rewrite IH, getValue_writeRow_other; [done|lia].
Qed.

Lemma notes_writeRows r rows s : notes (writeRows r rows s) = notes s.
Proof.
  unfold writeRows. generalize (imap pair rows). intros l. revert s.
  induction l as [|x l IH]; intros s; simpl; [done|].
  by rewrite IH, notes_writeRow.
Qed.

End LastRowFacts.

Section LedgerRun.
Context (h : Host).

Lemma observeCell_keepsLogged sheet0 headers name view studentData dsid r infCol run :
  keepsLogged sheet0 (eventCol h headers "Source Value") run →
  keepsLogged sheet0 (eventCol h headers "Source Value")
              (observeCell h headers name view studentData dsid r infCol run).
Proof.
  intros (Hlast & Hnotes & Hcells). unfold observeCell.
  destruct (thrown run); [done|].
  destruct (truthy (getValue view (S r) (S infCol))) eqn:Htruthy; [|done]. simpl.
  destruct (eventMap run !! cellKey h view dsid infCol) as [rowIdx|]; [|done].
  destruct (eventCol h headers "Source Value") as [sv|] eqn:Hsv; [|done].
  destruct (strictEq _ _); [done|].
  split; [|split]; simpl.
  - etrans; [apply Hlast|]. apply getLastRow_setValue_mono.
    apply bool_decide_eq_false. intros Heq. by rewrite Heq in Htruthy.
  - done.
  - intros r' c' Hr' Hc'. rewrite getValue_setValue, decide_False; [by apply Hcells|].
    intros [= <- <-]. by apply Hc'.
Qed.

Lemma foldl_keeps {A} (P : Run → Prop) (f : Run → A → Run) (l : list A) run :
  (∀ run x, P run → P (f run x)) → P run → P (foldl f run l).
Proof.
  intros Hstep. revert run. induction l as [|x l IH]; intros run Hrun; simpl; [done|].
  apply IH. by apply Hstep.
Qed.

Lemma scanViews_keepsLogged w sheet0 :
  getSheetByName "EventLog" w = Some sheet0 →
  keepsLogged sheet0 (eventCol h (rowValues sheet0 1 (dataCols sheet0)) "Source Value")
              (scanViews h w).
Proof.
  intros Hs. unfold scanViews, openEventLog. rewrite Hs.
  apply foldl_keeps.
  - intros run [name view] Hrun. unfold observeSheet.
    destruct (includes name EXCLUDE_SHEETS); [done|].
    destruct (dataRows view <? FIRST_STUDENT_ROW + 1); [done|].
    destruct (findIndex _ _) as [dsidIdx|]; [|done].
    apply foldl_keeps; [|done]. intros run1 r Hrun1. unfold observeRow.
    destruct (negb _); [done|].
    apply foldl_keeps; [|done]. intros run2 infCol Hrun2.
    by apply observeCell_keepsLogged.
  - by repeat split.
Qed.

(** X11.  Snapshot immutability over a whole run: no cell of a row
    logged before the run changes, the source value apart; in particular
    the identity snapshot [All Student Data] of every such row stays. *)
Lemma processNewEvents_keeps_logged_rows (w : World) (sheet0 : Sheet) :
  getSheetByName "EventLog" w = Some sheet0 →
  let headers := rowValues sheet0 1 (dataCols sheet0) in
  ∀ r field c, r ≤ getLastRow sheet0 → field ≠ "Source Value" →
               eventCol h headers field = Some c →
               cellValue (processNewEvents h w).1 "EventLog" r (S c) = getValue sheet0 r (S c).
Proof.
  intros Hs headers r field c Hr Hfield Hc.
  pose proof (scanViews_keepsLogged w sheet0 Hs) as (Hlast & Hnotes & Hcells).
  fold headers in Hcells.
  assert (Hcol : Some (S c) ≠ S <$> eventCol h headers "Source Value").
  { destruct (eventCol h headers "Source Value") as [sv|] eqn:Hsv; [|done].
    simpl. intros [= <-]. apply Hfield. by apply (eventCol_inj h headers _ _ c). }
  assert (Hflush : getValue (eventSheet (flushNewEvents headers (scanViews h w))) r (S c)
                   = getValue sheet0 r (S c)).
  { unfold flushNewEvents. destruct (thrown (scanViews h w)); [by apply Hcells|].
    destruct (bool_decide (newEvents (scanViews h w) = [])); [by apply Hcells|].
    destruct (bool_decide (length headers = length EVENT_HEADER)); [|by apply Hcells].
    simpl. rewrite getValue_writeRows_above by lia. by apply Hcells. }
  unfold processNewEvents, openEventLog. rewrite Hs. fold headers.
  destruct (thrown (flushNewEvents headers (scanViews h w))); simpl.
  - unfold cellValue. by rewrite getSheetByName_putSheet_same.
  - unfold cellValue. destruct (canUseUi h); simpl.
    + change (getSheetByName "EventLog" (show _ _ ?x)) with (getSheetByName "EventLog" x).
      by rewrite getSheetByName_putSheet_same.
    + by rewrite getSheetByName_putSheet_same.
Qed.

(** X12.  De-duplication of events: the rows that a run appends have
    pairwise distinct keys, and none of them has the key of a row that
    was in the ledger when the run began. *)
Lemma scanViews_new_keys_distinct (w : World) :
  let sheet0 := openEventLog w in
  let headers := rowValues sheet0 1 (dataCols sheet0) in
  NoDup (insertedKey h <$> newEvents (scanViews h w))
  ∧ ∀ k, k ∈ insertedKey h <$> newEvents (scanViews h w) →
         buildEventMap h headers sheet0 !! k = None.
Proof.
  intros sheet0 headers.
  set (keys0 := dom (buildEventMap h headers sheet0)).
  assert (Hinv : NoDup (insertedKey h <$> newEvents (scanViews h w))
                 ∧ (∀ k, is_Some (eventMap (scanViews h w) !! k)
                         ↔ k ∈ keys0 ∨ k ∈ insertedKey h <$> newEvents (scanViews h w))
                 ∧ (∀ k, k ∈ insertedKey h <$> newEvents (scanViews h w) → k ∉ keys0)).
  { unfold scanViews. fold sheet0. fold headers.
    apply (foldl_keeps (λ run, NoDup (insertedKey h <$> newEvents run)
                               ∧ (∀ k, is_Some (eventMap run !! k)
                                       ↔ k ∈ keys0 ∨ k ∈ insertedKey h <$> newEvents run)
                               ∧ (∀ k, k ∈ insertedKey h <$> newEvents run → k ∉ keys0))).
    - intros run [name view] Hrun. unfold observeSheet.
      destruct (includes name EXCLUDE_SHEETS); [done|].
      destruct (dataRows view <? FIRST_STUDENT_ROW + 1); [done|].
      destruct (findIndex _ _) as [dsidIdx|]; [|done].
      apply foldl_keeps; [|done]. intros run1 r Hrun1. unfold observeRow.
      destruct (negb _); [done|].
      apply foldl_keeps; [|done]. intros run2 infCol (H1 & H2 & H3).
      by apply observeCell_new_keys.
    - simpl. split; [apply NoDup_nil_2|]. split.
      + intros k. subst keys0. rewrite elem_of_dom. split; [by left|].
        intros [?|Hin]; [done|]. by apply elem_of_nil in Hin.
      + intros k Hin. by apply elem_of_nil in Hin. }
  destruct Hinv as (Hnodup & _ & Hfresh). split; [done|].
  intros k Hk. apply not_elem_of_dom. by apply Hfresh.
Qed.
End LedgerRun.

(** ** The alert scan: one event *)

Section AlertFacts.
Context (h : Host).

Lemma sameTabs_refl w : sameTabs w w.
Proof. by split. Qed.

Lemma sameTabs_debugLog msg w w' : sameTabs w w' → sameTabs w (debugLog h msg w').
Proof.
  intros [Hout Htabs]. split; [done|].
  intros name Hname. rewrite getSheetByName_debugLog by done. by apply Htabs.
Qed.

Lemma parseStudent_spec r raw w :
  (parseStudent h r raw w).1 = default [] (studentOf h raw)
  ∧ sameTabs w (parseStudent h r raw w).2.
Proof.
  unfold parseStudent. destruct (studentOf h raw); simpl.
  - split; [done|apply sameTabs_refl].
  - split; [done|]. apply sameTabs_debugLog, sameTabs_refl.
Qed.

Lemma logRecipients_sameTabs teamName rc w : sameTabs w (logRecipients h teamName rc w).
Proof. unfold logRecipients. do 3 apply sameTabs_debugLog. apply sameTabs_refl. Qed.

(** When the template, the recipients and the message of a
    qualifying event can be made, the loop body reaches the send, the
    marker and the audit line, in a world that differs from the one it
    started in by log lines only. *)
Lemma notify_prepared ev r week w0 st templateSheet template recipientEmails mail :
  getSheetByName "Templates" w0 = Some templateSheet →
  getTemplateByName h templateSheet "5th Infraction Notice" = Ok template →
  eventRecipients h (getSheetByName "Variables" w0) ev r week = Ok recipientEmails →
  composeMail h template (eventFields h ev r week recipientEmails) recipientEmails = Ok mail →
  ∃ w2, sameTabs w0 w2
        ∧ notify h ev r week w0 st
          = markAndLog h ev r week (eventFields h ev r week recipientEmails) recipientEmails
              (trySend h r recipientEmails mail w2 (alertsSent st)).1
              (trySend h r recipientEmails mail w2 (alertsSent st)).2.
Proof.
  intros Htpl Htemplate Hrecips Hmail. unfold notify. rewrite Htpl, Htemplate.
  destruct (parseStudent_spec r (eventField ev r "All Student Data") w0) as [Hstudent [Hout1 Htabs1]].
  destruct (parseStudent h r (eventField ev r "All Student Data") w0) as [student w1].
  simpl in Hstudent, Hout1, Htabs1. subst student.
  rewrite (Htabs1 "Variables") by done.
  unfold eventRecipients in Hrecips. fold (eventFields0 h ev r week).
  destruct (getSheetByName "Variables" w0) as [variablesSheet|].
  - unfold getAlertRecipients.
    destruct (resolveRecipients h variablesSheet _) as [rc|msg]; [|done].
    injection Hrecips as <-.
    fold (eventFields h ev r week (dedupe [] (rc_all rc))). rewrite Hmail.
    exists (logRecipients h (mjoin (getField "Team" (eventFields0 h ev r week))) rc w1).
    split; [|by destruct (trySend _ _ _ _ _ _)].
    destruct (logRecipients_sameTabs (mjoin (getField "Team" (eventFields0 h ev r week))) rc w1)
      as [Hout2 Htabs2].
    split; [congruence|]. intros name Hname. rewrite Htabs2, Htabs1; done.
  - injection Hrecips as <-.
    fold (eventFields h ev r week []). rewrite Hmail.
    exists w1. split; [by split|]. by destruct (trySend _ _ _ _ _ _).
Qed.

Lemma getSheetByName_trySend r recipientEmails mail w sent name :
  name ≠ "DebugLog" →
  getSheetByName name (trySend h r recipientEmails mail w sent).1 = getSheetByName name w.
Proof.
  intros Hname. unfold trySend. destruct recipientEmails; [done|].
  destruct (sendEmailOk h mail); simpl; by rewrite getSheetByName_debugLog.
Qed.

Lemma outbox_onSheet name f w : outbox (onSheet name f w) = outbox w.
Proof. unfold onSheet. by destruct (getSheetByName name w). Qed.

(** The send, the marker and the audit line. *)
Lemma markAndLog_trySend ev r week fields recipientEmails mail w sent ac s :
  headerIndex ev "Alerted" = Some ac →
  getSheetByName "EventLog" w = Some s →
  let st' := markAndLog h ev r week fields recipientEmails
               (trySend h r recipientEmails mail w sent).1
               (trySend h r recipientEmails mail w sent).2 in
  fault st' = None
  ∧ outbox (world st')
    = (outbox w ++ match recipientEmails with
                   | [] => []
                   | _ => [(mail, sendEmailOk h mail)]
                   end)%list
  ∧ getSheetByName "EventLog" (world st') = Some (setValue r (S ac) (VDate (now h)) s)
  ∧ getSheetByName "EmailLog" (world st')
    = (λ logSheet, appendRow (logEntry h logSheet ev r week (summaryOf h fields recipientEmails)
                                (joinWith ", " recipientEmails)) logSheet)
        <$> getSheetByName "EmailLog" w
  ∧ ∀ name, name ≠ "DebugLog" → name ≠ "EventLog" → name ≠ "EmailLog" →
            getSheetByName name (world st') = getSheetByName name w.
Proof.
  intros Hac Hs st'. subst st'. unfold markAndLog. rewrite Hac.
  set (w3 := (trySend h r recipientEmails mail w sent).1).
  assert (Hs3 : getSheetByName "EventLog" w3 = Some s)
    by (subst w3; by rewrite getSheetByName_trySend).
  assert (Hout3 : outbox w3 = (outbox w ++ match recipientEmails with
                                           | [] => []
                                           | _ => [(mail, sendEmailOk h mail)]
                                           end)%list).
  { subst w3. unfold trySend. destruct recipientEmails; simpl; [by rewrite app_nil_r|].
    by destruct (sendEmailOk h mail). }
  rewrite getSheetByName_onSheet_other by done.
  assert (Hlog : getSheetByName "EmailLog" w3 = getSheetByName "EmailLog" w)
    by (subst w3; by rewrite getSheetByName_trySend).
  rewrite Hlog.
  destruct (getSheetByName "EmailLog" w) as [logSheet|]; simpl.
  - split; [done|]. split; [by rewrite outbox_onSheet|]. split.
    { rewrite getSheetByName_debugLog, getSheetByName_putSheet_other by done.
      by apply getSheetByName_onSheet_same. }
    split; [by rewrite getSheetByName_debugLog, getSheetByName_putSheet_same|].
    intros name H1 H2 H3. rewrite getSheetByName_debugLog by done.
    rewrite getSheetByName_putSheet_other by done.
    rewrite getSheetByName_onSheet_other by done.
    subst w3. by rewrite getSheetByName_trySend.
  - split; [done|]. split; [by rewrite outbox_onSheet|]. split.
    { by apply getSheetByName_onSheet_same. }
    split.
    { by rewrite getSheetByName_onSheet_other, Hlog. }
    intros name H1 H2 H3. rewrite getSheetByName_onSheet_other by done.
    subst w3. by rewrite getSheetByName_trySend.
Qed.
End AlertFacts.

(** ** The alert scan: the loop *)

Section AlertScan.
Context (h : Host).

(** An event that does not qualify is skipped: its turn writes log
    lines only. *)
Lemma alertStep_skip weeks ev st r :
  fault st = None →
  qualifies h weeks ev r = false →
  ∃ w', alertStep h weeks ev st r = mkScan w' (alertsSent st) None
        ∧ sameTabs (world st) w'.
Proof.
  intros Hfault Hq. unfold alertStep. rewrite Hfault. unfold qualifies in Hq.
  destruct (optStrictEq (eventField ev r "Infraction") (Some (VStr "5th"))); simpl in *.
  2: { eexists. split; [done|]. apply sameTabs_debugLog, sameTabs_refl. }
  destruct (from_option truthy false (eventField ev r "Alerted")); simpl in *.
  { eexists. split; [done|]. apply sameTabs_debugLog, sameTabs_refl. }
  destruct (weeks !! templ h (eventField ev r "Sheet Name")) as [activeWeek|].
  - rewrite Hq. eexists. split; [done|]. do 2 apply sameTabs_debugLog. apply sameTabs_refl.
  - eexists. split; [done|]. do 2 apply sameTabs_debugLog. apply sameTabs_refl.
Qed.

(** The turn of an event that qualifies is the notification. *)
Lemma alertStep_qualifying weeks ev st r :
  fault st = None →
  qualifies h weeks ev r = true →
  ∃ w0, sameTabs (world st) w0
        ∧ alertStep h weeks ev st r
          = notify h ev r (normalizeWeekStr h (eventField ev r "Week")) w0 st.
Proof.
  intros Hfault Hq. unfold alertStep. rewrite Hfault. unfold qualifies in Hq.
  apply andb_true_iff in Hq as [[Hinf Hal]%andb_true_iff Hweek].
  rewrite Hinf. apply negb_true_iff in Hal. rewrite Hal. simpl.
  destruct (weeks !! templ h (eventField ev r "Sheet Name")) as [activeWeek|]; [|done].
  rewrite Hweek. eexists. split; [|done]. apply sameTabs_debugLog, sameTabs_refl.
Qed.

Lemma foldl_storeSheet_skip {B} (f : B → string * Sheet → B) name s tabs acc :
  (∀ acc s, f acc (name, s) = acc) →
  foldl f acc (storeSheet name s tabs) = foldl f acc tabs.
Proof.
  intros Hskip. revert acc. induction tabs as [|[n s'] tabs IH]; intros acc; simpl.
  - apply Hskip.
  - case_bool_decide as Hn; simpl.
    + subst n. by rewrite !Hskip.
    + apply IH.
Qed.

(** The log tab is no team tab: log lines do not change the active
    weeks. *)
Lemma teamActiveWeeks_debugLog msg w :
  teamActiveWeeks h (sheets (debugLog h msg w)) = teamActiveWeeks h (sheets w).
Proof.
  unfold teamActiveWeeks, debugLog. simpl. apply foldl_storeSheet_skip.
  intros [m|msg'] s; done.
Qed.

Lemma foldl_prefix_ind {A B} (P : list A → B → Prop) (f : B → A → B) (b : B) (l : list A) :
  P [] b →
  (∀ pre x acc, x ∈ l → P pre acc → P (pre ++ [x])%list (f acc x)) →
  P l (foldl f b l).
Proof.
  intros Hnil Hstep. induction l as [|x l IH] using rev_ind; [done|].
  rewrite foldl_app. simpl. apply Hstep; [set_solver|].
  apply IH. intros pre y acc Hy. apply Hstep. set_solver.
Qed.

Lemma alertStep_scanned weeks template templateSheet w ev ac done st r :
  getSheetByName "Templates" w = Some templateSheet →
  getTemplateByName h templateSheet "5th Infraction Notice" = Ok template →
  headerIndex ev "Alerted" = Some ac →
  (qualifies h weeks ev r = true →
   ∃ plan, alertPlan h template (getSheetByName "Variables" w) ev r = Ok plan) →
  scanned h weeks template w ev ac done st →
  scanned h weeks template w ev ac (done ++ [r])%list (alertStep h weeks ev st r).
Proof.
  intros Htpl Htemplate Hac Hplan (Hfault & HT & HV & Hout & s & Hs & Hcells).
  destruct (qualifies h weeks ev r) eqn:Hq.
  - destruct (Hplan eq_refl) as [[recipientEmails mail] Hp].
    destruct (alertStep_qualifying weeks ev st r Hfault Hq) as (w0 & [Hout0 Htabs0] & ->).
    unfold alertPlan in Hp.
    destruct (eventRecipients h _ ev r _) as [recips|] eqn:Hrecips; [|done].
    destruct (composeMail h template _ recips) as [mail'|] eqn:Hmail; [|done].
    injection Hp as -> ->.
    destruct (notify_prepared h ev r (normalizeWeekStr h (eventField ev r "Week")) w0 st
                templateSheet template recipientEmails mail)
      as (w2 & [Hout2 Htabs2] & ->).
    { by rewrite Htabs0, HT. }
    { done. }
    { by rewrite Htabs0, HV. }
    { done. }
    assert (Hs2 : getSheetByName "EventLog" w2 = Some s) by (by rewrite Htabs2, Htabs0).
    destruct (markAndLog_trySend h ev r (normalizeWeekStr h (eventField ev r "Week"))
                (eventFields h ev r (normalizeWeekStr h (eventField ev r "Week")) recipientEmails)
                recipientEmails mail w2 (alertsSent st) ac s Hac Hs2)
      as (Hf' & Hout' & Hs' & _ & Hother).
    split; [done|]. split; [by rewrite Hother, Htabs2, Htabs0|].
    split; [by rewrite Hother, Htabs2, Htabs0|]. split.
    + rewrite Hout', Hout2, Hout0, Hout, flat_map_app, <- app_assoc. f_equal. f_equal.
      simpl. unfold mailCallsFor, alertPlan. rewrite Hq, Hrecips, Hmail.
      by destruct recipientEmails.
    + eexists. split; [done|]. intros r' c'. rewrite getValue_setValue, Hcells.
      case_decide as Hrc.
      * injection Hrc as <- <-. rewrite Hq.
        rewrite !bool_decide_true; [done|done|].
        rewrite elem_of_app, list_elem_of_singleton. by right.
      * destruct (decide (r' = r)) as [->|Hne].
        -- rewrite (bool_decide_false (c' = S ac)) by congruence.
           by rewrite !andb_false_r.
        -- by rewrite (bool_decide_ext (r' ∈ (done ++ [r])%list) (r' ∈ done))
          by (rewrite elem_of_app, list_elem_of_singleton; intuition).
  - destruct (alertStep_skip weeks ev st r Hfault Hq) as (w' & -> & [Hout' Htabs']).
    split; [done|]. simpl. split; [by rewrite Htabs'|]. split; [by rewrite Htabs'|].
    split.
    + rewrite Hout', Hout, flat_map_app. simpl.
      replace (mailCallsFor h weeks template (getSheetByName "Variables" w) ev r)
        with (@nil (Email * bool)) by (unfold mailCallsFor; by rewrite Hq).
      by rewrite !app_nil_r.
    + exists s. split; [by rewrite Htabs'|]. intros r' c'. rewrite Hcells.
      destruct (decide (r' = r)) as [->|Hne].
      * by rewrite Hq, !andb_false_r.
      * by rewrite (bool_decide_ext (r' ∈ (done ++ [r])%list) (r' ∈ done))
          by (rewrite elem_of_app, list_elem_of_singleton; intuition).
Qed.
End AlertScan.

(** ** The alert scan: results *)

Section AlertTheorems.
Context (h : Host).

Lemma scanAndSendAlerts_scanned w ev weeks templateSheet template ac :
  getSheetByName "EventLog" w = Some ev →
  teamActiveWeeks h (sheets w) = Ok weeks →
  getSheetByName "Templates" w = Some templateSheet →
  getTemplateByName h templateSheet "5th Infraction Notice" = Ok template →
  headerIndex ev "Alerted" = Some ac →
  (∀ r, 2 ≤ r ≤ dataRows ev → qualifies h weeks ev r = true →
        ∃ plan, alertPlan h template (getSheetByName "Variables" w) ev r = Ok plan) →
  ∃ st, scanned h weeks template w ev ac (seq 2 (dataRows ev - 1)) st
        ∧ sameTabs (world st) (scanAndSendAlerts h w).1
        ∧ (scanAndSendAlerts h w).2 = None.
Proof.
  intros Hev Hweeks Htpl Htemplate Hac Hplans.
  unfold scanAndSendAlerts. rewrite Hev, teamActiveWeeks_debugLog, Hweeks.
  set (w0 := debugLog h _ w).
  set (st := foldl (alertStep h weeks ev) (mkScan w0 0 None) (seq 2 (dataRows ev - 1))).
  assert (Hst : scanned h weeks template w ev ac (seq 2 (dataRows ev - 1)) st).
  { subst st. apply (foldl_prefix_ind (scanned h weeks template w ev ac)).
    - split; [done|]. simpl. subst w0.
      rewrite !getSheetByName_debugLog by done.
      split; [done|]. split; [done|]. split; [by rewrite app_nil_r|].
      exists ev. split; [done|]. intros r c. done.
    - intros pre r acc Hr Hacc.
      apply (alertStep_scanned h weeks template templateSheet); try done.
      apply Hplans. apply elem_of_seq in Hr. unfold dataRows in *. lia. }
  exists st. split; [done|].
  destruct Hst as (Hfault & _). rewrite Hfault. simpl. split; [|done].
  destruct (canUseUi h).
  - split; [done|]. intros name Hname.
    change (getSheetByName name (show _ _ ?x)) with (getSheetByName name x).
    by rewrite getSheetByName_debugLog.
  - apply sameTabs_debugLog, sameTabs_refl.
Qed.

(** Without the tab [Templates] every turn of the loop is a skip: the
    scan ends without fault and writes log lines only. *)
Lemma scanAndSendAlerts_without_templates w ev weeks :
  getSheetByName "EventLog" w = Some ev →
  teamActiveWeeks h (sheets w) = Ok weeks →
  getSheetByName "Templates" w = None →
  (scanAndSendAlerts h w).2 = None ∧ sameTabs w (scanAndSendAlerts h w).1.
Proof.
  intros Hev Hweeks Htpl.
  unfold scanAndSendAlerts. rewrite Hev, teamActiveWeeks_debugLog, Hweeks.
  set (w0 := debugLog h _ w).
  set (st := foldl (alertStep h weeks ev) (mkScan w0 0 None) (seq 2 (dataRows ev - 1))).
  assert (Hst : fault st = None ∧ sameTabs w (world st)).
  { subst st.
    apply (foldl_prefix_ind (λ _ st, fault st = None ∧ sameTabs w (world st))).
    - split; [done|]. apply sameTabs_debugLog, sameTabs_refl.
    - intros pre r acc _ [Hfault [Hout Htabs]].
      destruct (qualifies h weeks ev r) eqn:Hq.
      + destruct (alertStep_qualifying h weeks ev acc r Hfault Hq)
          as (w1 & [Hout1 Htabs1] & ->).
        unfold notify. rewrite Htabs1, Htabs, Htpl by done. simpl.
        split; [done|]. apply sameTabs_debugLog. split; [congruence|].
        intros name Hname. by rewrite Htabs1, Htabs.
      + destruct (alertStep_skip h weeks ev acc r Hfault Hq) as (w1 & -> & [Hout1 Htabs1]).
        split; [done|]. split; [simpl; congruence|].
        intros name Hname. simpl. by rewrite Htabs1, Htabs. }
  destruct Hst as [Hfault [Hout Htabs]]. rewrite Hfault. simpl. split; [done|].
  destruct (canUseUi h).
  - split; [done|]. intros name Hname.
    change (getSheetByName name (show _ _ ?x)) with (getSheetByName name x).
    by rewrite getSheetByName_debugLog, Htabs.
  - by apply sameTabs_debugLog.
Qed.

(** C4 (amended).  Let the ledger [EventLog] have its [Alerted] column
    and let the active week of every team tab be readable, so that the
    scan has its table [weeks] of active weeks (it keeps none for a tab
    named [__proto__]).  When the tab [Templates] holds the notice and
    the recipients and the message of every qualifying event can be
    computed, one alert scan ends without fault; it sets the marker of
    every qualifying event (rank ['5th'], empty marker, normalized
    week equal to the active week of its tab) to the current time;
    every other ledger cell is as before, so events that do not
    qualify are unchanged; and the mail service is called exactly once
    for each qualifying event that has recipients and not at all for
    one whose recipient list is empty ([mailCallsFor]).  When the tab
    [Templates] is missing, the scan ends without fault as well, but
    every qualifying event is skipped: no ledger cell changes, so the
    markers stay empty, and the mail service is not called. *)
Theorem scanAndSendAlerts_marks_qualifying_events (w : World) (ev : Sheet)
    (weeks : gmap string string) (ac : nat) :
  getSheetByName "EventLog" w = Some ev →
  headerIndex ev "Alerted" = Some ac →
  teamActiveWeeks h (sheets w) = Ok weeks →
  let w' := (scanAndSendAlerts h w).1 in
  (∀ templateSheet template,
     getSheetByName "Templates" w = Some templateSheet →
     getTemplateByName h templateSheet "5th Infraction Notice" = Ok template →
     (∀ r, 2 ≤ r ≤ dataRows ev → qualifies h weeks ev r = true →
           ∃ plan, alertPlan h template (getSheetByName "Variables" w) ev r = Ok plan) →
     (scanAndSendAlerts h w).2 = None
     ∧ (∀ r, 2 ≤ r ≤ dataRows ev → qualifies h weeks ev r = true →
             cellValue w' "EventLog" r (S ac) = VDate (now h))
     ∧ (∀ r c, ¬ 2 ≤ r ≤ dataRows ev ∨ qualifies h weeks ev r = false ∨ c ≠ S ac →
               cellValue w' "EventLog" r c = getValue ev r c)
     ∧ outbox w'
       = (outbox w ++ flat_map (mailCallsFor h weeks template (getSheetByName "Variables" w) ev)
                               (seq 2 (dataRows ev - 1)))%list)
  ∧ (getSheetByName "Templates" w = None →
     (scanAndSendAlerts h w).2 = None
     ∧ (∀ r c, cellValue w' "EventLog" r c = getValue ev r c)
     ∧ outbox w' = outbox w).
Proof.
  intros Hev Hac Hweeks w'. split.
  - intros templateSheet template Htpl Htemplate Hplans.
    destruct (scanAndSendAlerts_scanned w ev weeks templateSheet template ac
                Hev Hweeks Htpl Htemplate Hac Hplans)
      as (st & (Hfault & _ & _ & Hout & s & Hs & Hcells) & [Hout' Htabs'] & Hnone).
    fold w' in Hout', Htabs'.
    assert (Hcell : ∀ r c, cellValue w' "EventLog" r c = getValue s r c).
    { intros r c. unfold cellValue. by rewrite Htabs', Hs. }
    split; [done|]. split; [|split].
    + intros r Hr Hq. rewrite Hcell, Hcells, Hq.
      rewrite !bool_decide_true; [done|done|].
      apply elem_of_seq. unfold dataRows in *. lia.
    + intros r c Hcase. rewrite Hcell, Hcells.
      destruct Hcase as [Hr|[Hq|Hc]].
      * rewrite bool_decide_false; [done|].
        intros Hin%elem_of_seq. unfold dataRows in *. lia.
      * by rewrite Hq, andb_false_r.
      * by rewrite (bool_decide_false (c = S ac)), andb_false_r.
    + by rewrite Hout', Hout.
  - intros Htpl.
    destruct (scanAndSendAlerts_without_templates w ev weeks Hev Hweeks Htpl)
      as (Hnone & Hout & Htabs).
    fold w' in Hout, Htabs. split; [done|]. split; [|done].
    intros r c. unfold cellValue. by rewrite Htabs, Hev.
Qed.

(** C10 (amended).  When the mail service throws on the message of a
    qualifying event, the fault is caught: the turn of the scan for
    that event ends without fault, so the loop goes on with the
    remaining events; the failed call is the only mail call of the
    turn; the alert marker of the event is set to the current time, so
    that a later scan, which reads that marker, does not qualify the
    event again; and when the tab [EmailLog] exists the audit line of
    the event is appended to it. *)
Theorem alertStep_failed_delivery_is_marked (weeks : gmap string string) (ev : Sheet)
    (st : Scan) (r : nat) (templateSheet s : Sheet) (template : Template)
    (recipientEmails : list string) (mail : Email) (ac : nat) :
  let week := normalizeWeekStr h (eventField ev r "Week") in
  let st' := alertStep h weeks ev st r in
  fault st = None →
  qualifies h weeks ev r = true →
  getSheetByName "Templates" (world st) = Some templateSheet →
  getTemplateByName h templateSheet "5th Infraction Notice" = Ok template →
  alertPlan h template (getSheetByName "Variables" (world st)) ev r
  = Ok (recipientEmails, mail) →
  recipientEmails ≠ [] →
  sendEmailOk h mail = false →
  headerIndex ev "Alerted" = Some ac →
  getSheetByName "EventLog" (world st) = Some s →
  fault st' = None
  ∧ outbox (world st') = (outbox (world st) ++ [(mail, false)])%list
  ∧ cellValue (world st') "EventLog" r (S ac) = VDate (now h)
  ∧ getSheetByName "EmailLog" (world st')
    = (λ logSheet,
         appendRow (logEntry h logSheet ev r week
                      (summaryOf h (eventFields h ev r week recipientEmails) recipientEmails)
                      (joinWith ", " recipientEmails)) logSheet)
        <$> getSheetByName "EmailLog" (world st)
  ∧ (∀ weeks' ev', eventField ev' r "Alerted" = Some (VDate (now h)) →
                   qualifies h weeks' ev' r = false).
Proof.
  intros week st' Hfault Hq Htpl Htemplate Hplan Hrecips Hsend Hac Hs.
  destruct (alertStep_qualifying h weeks ev st r Hfault Hq) as (w0 & [Hout0 Htabs0] & Hstep).
  unfold alertPlan in Hplan. fold week in Hplan, Hstep.
  destruct (eventRecipients h _ ev r week) as [recips|] eqn:Hr; [|done].
  destruct (composeMail h template _ recips) as [mail'|] eqn:Hm; [|done].
  injection Hplan as -> ->.
  destruct (notify_prepared h ev r week w0 st templateSheet template recipientEmails mail)
    as (w2 & [Hout2 Htabs2] & Hnotify).
  { by rewrite Htabs0. }
  { done. }
  { by rewrite Htabs0. }
  { done. }
  assert (Hs2 : getSheetByName "EventLog" w2 = Some s) by (by rewrite Htabs2, Htabs0).
  destruct (markAndLog_trySend h ev r week (eventFields h ev r week recipientEmails)
              recipientEmails mail w2 (alertsSent st) ac s Hac Hs2)
    as (Hf' & Hout' & Hs' & Hlog' & _).
  subst st'. rewrite Hstep, Hnotify.
  split; [done|]. split; [|split; [|split]].
  - rewrite Hout', Hout2, Hout0, Hsend. by destruct recipientEmails.
  - unfold cellValue. rewrite Hs', getValue_setValue. by rewrite decide_True.
  - by rewrite Hlog', Htabs2, Htabs0.
  - intros weeks' ev' Hal. unfold qualifies. rewrite Hal. simpl.
    by rewrite andb_false_r.
Qed.
End AlertTheorems.

(** ** The claims at sample data *)

Import Sample.

(** Closed facts about the sample data are settled by evaluation. *)
Ltac by_computation :=
  lazymatch goal with
  | |- _ ≠ _ => first [ discriminate | vm_compute; discriminate ]
  | |- ∀ _, _ => fail
  | |- _ => first [ vm_compute; reflexivity | vm_compute; lia ]
  end.

(** C9 at a sample: rank 1 of the active week is blanked while rank 2
    is filled. *)
Lemma onEdit_blank_entry_accepted_witness :
  onEdit (host true true) blanked1 (worldOf [("Falcons", falconsBlanked1)] None)
  = worldOf [("Falcons", falconsBlanked1)] None.
Proof.
  apply (onEdit_blank_entry_accepted (host true true) blanked1
           (worldOf [("Falcons", falconsBlanked1)] None) falconsBlanked1 3 7 0);
    by_computation.
Defined.

(** C7 at a sample: a value typed into a past week of an empty row. *)
Lemma onEdit_outside_active_week_reverted_witness :
  cellValue (onEdit (host true true) typedPast (worldOf [("Falcons", falconsPast)] None))
            "Falcons" 4 9 = VStr "".
Proof.
  apply (onEdit_outside_active_week_reverted (host true true) typedPast
           (worldOf [("Falcons", falconsPast)] None) falconsPast 3 7);
    first [ by_computation | right; by_computation ].
Defined.

(** C1 (amended) at a sample: ranks 1 to 3 filled, a value typed into
    rank 5. *)
Lemma onEdit_rank5_entry_relocated_witness :
  ∃ m, firstMissingIndex (worldOf [("Falcons", falconsTyped5)] (Some "t@x.org")) "Falcons" 4 3
       = Some m
       ∧ m = 3
       ∧ cellValue (onEdit (host true true) typed5
                      (worldOf [("Falcons", falconsTyped5)] (Some "t@x.org")))
                   "Falcons" 4 (3 + m) = VStr "X"
       ∧ cellValue (onEdit (host true true) typed5
                      (worldOf [("Falcons", falconsTyped5)] (Some "t@x.org")))
                   "Falcons" 4 7 = VStr "".
Proof.
  destruct (onEdit_rank5_entry_relocated (host true true) typed5
              (worldOf [("Falcons", falconsTyped5)] (Some "t@x.org")) falconsTyped5
              3 7 3 "t@x.org")
    as (m & Hm & _ & H3 & Hnew & Hold & _); try by_computation.
  exists m. split; [done|]. split; [|by split].
  apply H3. intros i Hi.
  destruct i as [|[|[|i]]]; by_computation.
Defined.

(** C1 as stated fails on the code. *)
Lemma onEdit_rank5_claim_fails :
  let h := host true true in
  (* the tab: an active block in columns 3 to 7, ranks 1 to 3 of row 4
     filled, rank 4 empty, a value typed into rank 5 *)
  getActiveWeekBlockCols h falconsTyped5 = Ok (Some (3, 7))
  ∧ rowValues falconsTyped5 4 7
    = [VStr "S1"; VStr "Doe"; VStr "X"; VStr "X"; VStr "X"; VStr ""; VStr "X"]
  (* without a confirmed e-mail the value does not end in rank 4 *)
  ∧ cellValue (onEdit h typed5 (worldOf [("Falcons", falconsTyped5)] None)) "Falcons" 4 6
    = VStr ""
  (* with one, the edit is not rejected: the value is kept, in rank 4 *)
  ∧ cellValue (onEdit h typed5 (worldOf [("Falcons", falconsTyped5)] (Some "t@x.org")))
              "Falcons" 4 6 = VStr "X"
  ∧ cellNote (onEdit h typed5 (worldOf [("Falcons", falconsTyped5)] (Some "t@x.org")))
             "Falcons" 4 6 = "Entered by: t@x.org | 9/1/2025, 8:00:00 AM".
Proof. vm_compute. repeat split. Qed.

(** C6 (amended) at a sample: a first entry on a tab without a week
    date. *)
Lemma onEdit_without_active_block_not_rejected_witness :
  cellNote (onEdit (host true true) typed1 (worldOf [("Hawks", hawksTyped1)] (Some "t@x.org")))
           "Hawks" 4 3
  = stampNote (host true true) "t@x.org"
      (cellNote (worldOf [("Hawks", hawksTyped1)] (Some "t@x.org")) "Hawks" 4 3).
Proof.
  apply (onEdit_without_active_block_not_rejected (host true true) typed1
           (worldOf [("Hawks", hawksTyped1)] (Some "t@x.org")) hawksTyped1 0 "t@x.org");
    first [ by_computation | intros; lia ].
Defined.

(** C6 as stated fails on the code. *)
Lemma onEdit_without_active_block_accepts :
  let h := host true true in
  (* a tab whose marker is followed by a terminal column without a week
     date, and a tab whose week label is found but whose block is not *)
  getActiveWeekBlockCols h hawksTyped1 = Ok None
  ∧ getActiveWeekForSheet h narrowTyped = Ok (Some "Week of Sep 1, 2025")
  ∧ getActiveWeekBlockCols h narrowTyped = Ok None
  (* the entries typed into their rank columns are kept and stamped *)
  ∧ cellValue (onEdit h typed1 (worldOf [("Hawks", hawksTyped1)] (Some "t@x.org")))
              "Hawks" 4 3 = VStr "X"
  ∧ cellNote (onEdit h typed1 (worldOf [("Hawks", hawksTyped1)] (Some "t@x.org")))
             "Hawks" 4 3 = "Entered by: t@x.org | 9/1/2025, 8:00:00 AM"
  ∧ cellValue (onEdit h typedNarrow (worldOf [("Owls", narrowTyped)] (Some "t@x.org")))
              "Owls" 4 1 = VStr "X"
  ∧ cellNote (onEdit h typedNarrow (worldOf [("Owls", narrowTyped)] (Some "t@x.org")))
             "Owls" 4 1 = "Entered by: t@x.org | 9/1/2025, 8:00:00 AM".
Proof. vm_compute. repeat split. Qed.

(** C8 (amended) at a sample: ranks 1 to 3 filled, a value typed into
    rank 5. *)
Lemma onEdit_entry_keeps_sequence_witness :
  sequenceOk (onEdit (host true true) typed5
                (onSheet "Falcons" (setValue 4 7 (VStr "X"))
                   (worldOf [("Falcons", falconsThree)] (Some "t@x.org"))))
             "Falcons" 4 3 = true.
Proof.
  apply (onEdit_entry_keeps_sequence (host true true) typed5
           (worldOf [("Falcons", falconsThree)] (Some "t@x.org")) falconsThree (VStr "X")
           (Some (3, 7)) 3 4); by_computation.
Defined.

(** C8 as stated fails on the code. *)
Lemma onEdit_blanking_breaks_sequence :
  let h := host true true in
  (* ranks 1 and 2 are filled; the user blanks rank 1 *)
  sequenceOk (worldOf [("Falcons", falconsTwo)] None) "Falcons" 4 3 = true
  ∧ setValue 4 3 (VStr "") falconsTwo = falconsBlanked1
  ∧ sequenceOk (onEdit h blanked1 (worldOf [("Falcons", falconsBlanked1)] None))
               "Falcons" 4 3 = false
  ∧ cellValue (onEdit h blanked1 (worldOf [("Falcons", falconsBlanked1)] None))
              "Falcons" 4 3 = VStr ""
  ∧ cellValue (onEdit h blanked1 (worldOf [("Falcons", falconsBlanked1)] None))
              "Falcons" 4 4 = VStr "X".
Proof. vm_compute. repeat split. Qed.

(** C3 (amended) at a sample: the team was synced today. *)
Lemma syncRosterForTeam_again_same_day_witness :
  teamSyncMap (syncRosterForTeam (host true true) "Falcons" syncedToday)
  = teamSyncMap syncedToday
  ∧ getSheetByName "Falcons" (syncRosterForTeam (host true true) "Falcons" syncedToday)
    = getSheetByName "Falcons" syncedToday.
Proof.
  destruct (syncRosterForTeam_again_same_day (host true true) "Falcons" syncedToday
              {["Falcons" := "2025-09-01"]})
    as (_ & Hprop & _ & _ & _ & Htabs & _); try by_computation.
  split; [done|]. by apply Htabs.
Defined.

(** C3 as stated fails on the code: the second call writes a row of
    the tab [DebugLog], which it creates here. *)
Lemma syncRosterForTeam_again_writes_log :
  let h := host true true in
  teamSyncMap syncedToday = Some (SyncJson {["Falcons" := formatDate h (now h) "yyyy-MM-dd"]})
  ∧ getSheetByName "DebugLog" syncedToday = None
  ∧ rowValues (default emptySheet
                 (getSheetByName "DebugLog" (syncRosterForTeam h "Falcons" syncedToday))) 1 2
    = [VDate (now h); VStr "[2025-09-01T12:00:00.000Z][Falcons] Already synced today; skipping."].
Proof. vm_compute. repeat split. Qed.

(** C5 at a sample: the first mark of S1, already in the ledger, was
    changed from X to Y. *)
Lemma observeCell_known_key_updates_source_value_witness :
  let run' := observeCell (host true true) (VStr <$> EVENT_HEADER) "Falcons" falconsChanged []
                (VStr "S1") 3 2 (loggedRun (host true true)) in
  newEvents run' = [] ∧ getValue (eventSheet run') 2 11 = VStr "Y"
  ∧ getValue (eventSheet run') 2 12 = VStr "{}".
Proof.
  destruct (observeCell_known_key_updates_source_value (host true true)
              (VStr <$> EVENT_HEADER) "Falcons" falconsChanged [] (VStr "S1") 3 2
              (loggedRun (host true true)) 2)
    as (Hnew & _ & _ & _ & Hfields & Hsv); try by_computation.
  destruct (Hsv 10) as (_ & Hval & _); [by_computation|].
  split; [done|]. split; [done|].
  rewrite (Hfields "All Student Data" 11 2); by_computation.
Defined.

(** C2, the code at a failing input.  Two tabs list student S1 with
    new marks at ranks 1 and 2 of the same week and the ledger is
    empty.  The second sighting of each key finds the key in [eventMap]
    at the row where its event is going to be written and writes its
    value there; the batch append then starts below these two cells.
    The ledger ends with two rows that hold a source value only and
    have the same, empty, key, above the two events. *)
Theorem processNewEvents_repeated_key_leaves_blank_rows :
  let h := host true true in
  let w' := (processNewEvents h twiceListed).1 in
  let s := default emptySheet (getSheetByName "EventLog" w') in
  let headers := rowValues s 1 (dataCols s) in
  (processNewEvents h twiceListed).2 = None
  ∧ ledgerRows w' = [2; 3; 4; 5]
  ∧ rowValues s 2 13 = [VStr ""; VStr ""; VStr ""; VStr ""; VStr ""; VStr ""; VStr ""; VStr "";
                        VStr ""; VStr ""; VStr "X"; VStr ""; VStr ""]
  ∧ rowValues s 3 13 = rowValues s 2 13
  ∧ rowKey h headers s 2 = "||"
  ∧ rowKey h headers s 3 = "||"
  ∧ rowKey h headers s 4 = "S1|1st|Sep 1, 2025"
  ∧ rowKey h headers s 5 = "S1|2nd|Sep 1, 2025".
Proof. vm_compute. repeat split. Qed.

(** C4 (amended) at a sample: one qualifying event with two
    recipients, with the tab [Templates] and without it. *)
Lemma scanAndSendAlerts_marks_qualifying_events_witness :
  ((scanAndSendAlerts (host true true) alertWorld).2 = None
   ∧ cellValue (scanAndSendAlerts (host true true) alertWorld).1 "EventLog" 2 13
     = VDate (now (host true true)))
  ∧ ((scanAndSendAlerts (host true true) noTemplates).2 = None
     ∧ cellValue (scanAndSendAlerts (host true true) noTemplates).1 "EventLog" 2 13
       = getValue eventLog 2 13
     ∧ outbox (scanAndSendAlerts (host true true) noTemplates).1 = outbox noTemplates).
Proof.
  split.
  - destruct (scanAndSendAlerts_marks_qualifying_events (host true true) alertWorld
                eventLog activeWeeks 12) as [Hwith _]; try by_computation.
    destruct (Hwith templates notice) as (Hnone & Hmark & _); try by_computation.
    + intros r Hr _. assert (r = 2) as -> by (vm_compute in Hr; lia).
      exists (planned (host true true)). by_computation.
    + split; [done|]. apply Hmark; by_computation.
  - destruct (scanAndSendAlerts_marks_qualifying_events (host true true) noTemplates
                eventLog activeWeeks 12) as [_ Hwithout]; try by_computation.
    destruct Hwithout as (Hnone & Hcells & Hout); [by_computation|].
    split; [done|]. split; [apply Hcells|done].
Defined.

(** C4 as stated fails on the code. *)
Lemma scanAndSendAlerts_claim_fails :
  let h := host true true in
  (* the event of row 2 qualifies in both worlds *)
  teamActiveWeeks h (sheets noTemplates) = Ok activeWeeks
  ∧ teamActiveWeeks h (sheets nobody) = Ok activeWeeks
  ∧ qualifies h activeWeeks eventLog 2 = true
  (* without the tab Templates the marker stays empty and nothing is sent *)
  ∧ (scanAndSendAlerts h noTemplates).2 = None
  ∧ cellValue (scanAndSendAlerts h noTemplates).1 "EventLog" 2 13 = VStr ""
  ∧ outbox (scanAndSendAlerts h noTemplates).1 = []
  (* without recipients the marker is set and the mail service is not called *)
  ∧ eventRecipients h (getSheetByName "Variables" nobody) eventLog 2 "Sep 1, 2025" = Ok []
  ∧ cellValue (scanAndSendAlerts h nobody).1 "EventLog" 2 13 = VDate (now h)
  ∧ outbox (scanAndSendAlerts h nobody).1 = [].
Proof. vm_compute. repeat split. Qed.

(** C10 (amended) at a sample: the mail service throws. *)
Lemma alertStep_failed_delivery_is_marked_witness :
  let h := host true false in
  let st' := alertStep h activeWeeks eventLog (mkScan alertWorld 0 None) 2 in
  fault st' = None
  ∧ outbox (world st') = [((planned h).2, false)]
  ∧ cellValue (world st') "EventLog" 2 13 = VDate (now h).
Proof.
  intros h st'.
  destruct (alertStep_failed_delivery_is_marked h activeWeeks eventLog (mkScan alertWorld 0 None)
              2 templates eventLog notice (planned h).1 (planned h).2 12)
    as (Hfault & Hout & Hmark & _); try by_computation.
  exact (conj Hfault (conj Hout Hmark)).
Defined.

(** C10 as stated fails on the code. *)
Lemma scanAndSendAlerts_failed_delivery_without_audit_log :
  let h := host true false in
  let w' := (scanAndSendAlerts h noEmailLog).1 in
  (* the event of row 2 qualifies and the mail service throws *)
  teamActiveWeeks h (sheets noEmailLog) = Ok activeWeeks
  ∧ qualifies h activeWeeks eventLog 2 = true
  ∧ outbox w' = [((planned h).2, false)]
  (* the marker is set, and no audit line is written: there is no tab
     to write it to *)
  ∧ cellValue w' "EventLog" 2 13 = VDate (now h)
  ∧ getSheetByName "EmailLog" w' = None
  ∧ fst <$> sheets w' = ["Falcons"; "EventLog"; "Templates"; "Variables"; "DebugLog"].
Proof. vm_compute. repeat split. Qed.

(** * Further properties of the script *)

(** ** Texts *)

Section TextFacts.

Lemma append_cons (x : ascii) (a b : string) : String x a +:+ b = String x (a +:+ b).
Proof. done. Qed.

Lemma append_nil_l (b : string) : "" +:+ b = b.
Proof. done. Qed.

Lemma length_append (a b : string) :
  String.length (a +:+ b) = String.length a + String.length b.
Proof.
  induction a as [|c a IH]; [done|]. rewrite append_cons. simpl. by rewrite IH.
Qed.

Lemma append_assoc (a b c : string) : (a +:+ b) +:+ c = a +:+ b +:+ c.
Proof. induction a as [|x a IH]; [done|]. rewrite !append_cons. by rewrite IH. Qed.

Lemma append_nil_r (a : string) : a +:+ "" = a.
Proof. induction a as [|x a IH]; [done|]. rewrite append_cons. by rewrite IH. Qed.

Lemma prefix_append (a b : string) : String.prefix a (a +:+ b) = true.
Proof.
  induction a as [|x a IH]; [by destruct b|]. rewrite append_cons. simpl.
  destruct (Ascii.ascii_dec x x); [done|congruence].
Qed.

(** What is left of [a +:+ z] after its first [length a] characters. *)
Lemma substring_after (a z : string) :
  String.substring (String.length a) (String.length (a +:+ z) - String.length a) (a +:+ z) = z.
Proof.
  induction a as [|x a IH].
  - rewrite append_nil_l. simpl. rewrite Nat.sub_0_r. apply substring_all.
  - rewrite append_cons. simpl. apply IH.
Qed.

Lemma toLowerCase_append (a b : string) :
  toLowerCase (a +:+ b) = toLowerCase a +:+ toLowerCase b.
Proof.
  induction a as [|x a IH]; [done|]. rewrite append_cons. simpl. by rewrite IH.
Qed.

Lemma includesChar_append (c : ascii) (a b : string) :
  includesChar c (a +:+ b) = includesChar c a || includesChar c b.
Proof.
  induction a as [|x a IH]; [done|]. rewrite append_cons. simpl.
  rewrite IH. by rewrite orb_assoc.
Qed.

Lemma firstLine_append (a b : string) :
  includesChar (ascii_of_nat 10) a = false →
  firstLine (a +:+ b) = a +:+ firstLine b.
Proof.
  induction a as [|x a IH]; [done|]. rewrite !append_cons. simpl.
  intros [Hx Ha]%orb_false_elim. apply bool_decide_eq_false in Hx.
  rewrite bool_decide_false by congruence. by rewrite IH.
Qed.

Lemma beforeBar_append (a b : string) :
  includesChar "|"%char a = false →
  beforeBar (a +:+ String "|" b) = Some a.
Proof.
  induction a as [|x a IH].
  - intros _. by rewrite append_nil_l.
  - rewrite append_cons. simpl.
    intros [Hx Ha]%orb_false_elim. apply bool_decide_eq_false in Hx.
    rewrite bool_decide_false by congruence. by rewrite IH.
Qed.

Lemma trimEnd_append_space (s : string) : trimEnd (s +:+ " ") = trimEnd s.
Proof.
  induction s as [|c s IH]; [done|]. rewrite append_cons. simpl. by rewrite IH.
Qed.

Lemma trimStart_append_space (s : string) :
  trimStart (s +:+ " ") = trimStart s +:+ " "
  ∨ (trimStart s = "" ∧ trimStart (s +:+ " ") = "").
Proof.
  induction s as [|c s IH].
  - by right.
  - rewrite append_cons. simpl. destruct (isWhite c); [done|]. by left.
Qed.

(** White space around a text does not count. *)
Lemma trim_spaced (s : string) : trim (" " +:+ s +:+ " ") = trim s.
Proof.
  unfold trim. change (trimStart (" " +:+ s +:+ " ")) with (trimStart (s +:+ " ")).
  destruct (trimStart_append_space s) as [->|[-> ->]]; [|done].
  apply trimEnd_append_space.
Qed.

Lemma includesChar_trimStart (c : ascii) (s : string) :
  isWhite c = false → includesChar c (trimStart s) = includesChar c s.
Proof.
  intros Hc. induction s as [|d s IH]; simpl; [done|].
  destruct (isWhite d) eqn:Hd; [|done].
  rewrite IH. rewrite bool_decide_false; [done|]. intros ->. congruence.
Qed.

Lemma includesChar_trimEnd (c : ascii) (s : string) :
  isWhite c = false → includesChar c (trimEnd s) = includesChar c s.
Proof.
  intros Hc. induction s as [|d s IH]; simpl; [done|].
  destruct (isWhite d && bool_decide (trimEnd s = "")) eqn:Hd; simpl.
  - apply andb_true_iff in Hd as [Hd Hs%bool_decide_eq_true].
    rewrite Hs in IH. simpl in IH. rewrite <- IH.
    rewrite bool_decide_false; [done|]. intros ->. congruence.
  - by rewrite IH.
Qed.

Lemma includesChar_trim (c : ascii) (s : string) :
  isWhite c = false → includesChar c (trim s) = includesChar c s.
Proof.
  intros Hc. unfold trim.
  by rewrite includesChar_trimEnd, includesChar_trimStart.
Qed.

Lemma includesChar_nonempty (c : ascii) (s : string) : includesChar c s = true → s ≠ "".
Proof. by destruct s. Qed.

End TextFacts.

(** ** From the note of the edit guard to the author of the ledger *)

Section Attribution.
Context (h : Host).

Lemma enteredByMatch_step (c : ascii) (r : string) :
  enteredByMatch (String c r)
  = if String.prefix "entered by:" (toLowerCase (String c r))
    then match beforeBar (String.substring 11 (String.length (String c r) - 11) (String c r)) with
         | Some x => if bool_decide (x = "") then enteredByMatch r else Some x
         | None => enteredByMatch r
         end
    else enteredByMatch r.
Proof. done. Qed.

Lemma enteredByMatch_head (x y : string) :
  includesChar "|"%char x = false → x ≠ "" →
  enteredByMatch ("Entered by:" +:+ x +:+ String "|" y) = Some x.
Proof.
  intros Hbar Hx.
  change ("Entered by:" +:+ ?z) with (String "E" ("ntered by:" +:+ z)).
  rewrite enteredByMatch_step.
  change (String "E" ("ntered by:" +:+ ?z)) with ("Entered by:" +:+ z).
  rewrite toLowerCase_append.
  change (toLowerCase "Entered by:") with "entered by:". rewrite prefix_append.
  change 11 with (String.length "Entered by:").
  rewrite substring_after, beforeBar_append by done.
  by rewrite bool_decide_false.
Qed.

(** X1.  The note that [onEdit] stamps on an accepted entry names its
    author in the way [processNewEvents] reads an author: for an e-mail
    address that has an ['@'] and neither a bar nor a line break, the
    author read from the stamped note is the address, trimmed, whatever
    note the cell had before. *)
Theorem stamped_note_names_its_author (email prevNote : string) :
  includesChar "@"%char email = true →
  includesChar "|"%char email = false →
  includesChar (ascii_of_nat 10) email = false →
  enteredByOfNote (stampNote h email prevNote) = trim email.
Proof.
  intros Hat Hbar Hnl. unfold enteredByOfNote, stampNote.
  set (tail := toLocaleString h (now h) +:+ _).
  assert (Hline : firstLine ("Entered by: " +:+ email +:+ " | " +:+ tail)
                  = "Entered by:" +:+ (" " +:+ email +:+ " ") +:+ String "|" (firstLine (" " +:+ tail))).
  { change ("Entered by: " +:+ email +:+ " | " +:+ tail)
      with ("Entered by: " +:+ (email +:+ (" |" +:+ (" " +:+ tail)))).
    rewrite (firstLine_append "Entered by: ") by done.
    rewrite (firstLine_append email) by done.
    rewrite (firstLine_append " |") by done.
    change ("Entered by: " +:+ ?a) with ("Entered by:" +:+ (" " +:+ a)).
    rewrite <- !append_assoc. by rewrite !append_assoc. }
  rewrite Hline, enteredByMatch_head.
  - rewrite trim_spaced. rewrite includesChar_trim by done. by rewrite Hat.
  - change (" " +:+ email +:+ " ") with (String " " (email +:+ " ")).
    cbn [includesChar]. by rewrite includesChar_append, Hbar.
  - done.
Qed.

End Attribution.

(** ** Week labels of the alert scan *)

Section WeekLabels.
Context (h : Host).

Lemma matchWeek_step (s : string) :
  matchWeek s = match matchWeekAt s with
                | Some m => Some m
                | None => match s with
                          | String _ r => matchWeek r
                          | EmptyString => None
                          end
                end.
Proof. by destruct s. Qed.

Lemma matchYear_shape (c1 : ascii) (r0 m : string) :
  matchYear (String c1 r0) = Some m →
  c1 = ","%char ∧ matchYear m = Some m ∧ ∃ r, m = String "," r.
Proof.
  destruct r0 as [|c2 [|y1 [|y2 [|y3 [|y4 r]]]]]; try done.
  unfold matchYear at 1.
  destruct (bool_decide (c1 = ","%char)) eqn:Hc1; [|done].
  apply bool_decide_eq_true in Hc1 as ->. cbn [andb].
  destruct (bool_decide (c2 = " "%char)
            && isDigit y1 && isDigit y2 && isDigit y3 && isDigit y4) eqn:Hc; [|done].
  intros [= <-]. split; [done|]. split; [|eauto].
  unfold matchYear. rewrite bool_decide_true by done. cbn [andb]. by rewrite Hc.
Qed.

Lemma matchYear_fixed (s m : string) : matchYear s = Some m → matchYear m = Some m.
Proof.
  destruct s as [|c1 r0]; [done|]. intros H. by apply matchYear_shape in H as (_ & ? & _).
Qed.

(** The part of the week pattern after the first digit of the day: a
    second digit and the year, or the year. *)
Lemma matchWeekAt_step (a b c sp d1 : ascii) (rest : string) :
  matchWeekAt (String a (String b (String c (String sp (String d1 rest)))))
  = if isLetter a && isLetter b && isLetter c && bool_decide (sp = " "%char) && isDigit d1
    then (λ t, String a (String b (String c (String sp (String d1 t)))))
           <$> match match rest with
                     | String d2 rest' =>
                         if isDigit d2 then String d2 <$> matchYear rest' else None
                     | EmptyString => None
                     end with
               | Some t => Some t
               | None => matchYear rest
               end
    else None.
Proof. done. Qed.

Lemma weekTail_fixed (rest t : string) :
  match match rest with
        | String d2 rest' => if isDigit d2 then String d2 <$> matchYear rest' else None
        | EmptyString => None
        end with
  | Some t => Some t
  | None => matchYear rest
  end = Some t →
  match match t with
        | String d2 rest' => if isDigit d2 then String d2 <$> matchYear rest' else None
        | EmptyString => None
        end with
  | Some t => Some t
  | None => matchYear t
  end = Some t.
Proof.
  destruct rest as [|d2 rest']; [done|].
  destruct (isDigit d2) eqn:Hd2.
  - destruct (matchYear rest') as [y|] eqn:Hy.
    + intros [= <-]. by rewrite Hd2, (matchYear_fixed _ _ Hy).
    + intros (-> & _ & _)%matchYear_shape. done.
  - intros (_ & Hfix & r & ->)%matchYear_shape.
    change (isDigit ",") with false. cbv iota. done.
Qed.

(** A text that the week pattern matches at its start matches itself
    as a whole. *)
Lemma matchWeekAt_fixed (s m : string) : matchWeekAt s = Some m → matchWeekAt m = Some m.
Proof.
  destruct s as [|a [|b [|c [|sp [|d1 rest]]]]]; try done.
  rewrite matchWeekAt_step.
  destruct (isLetter a && isLetter b && isLetter c && bool_decide (sp = " "%char) && isDigit d1)
    eqn:Hc; [|done].
  destruct (match match rest with
                  | String d2 rest' => if isDigit d2 then String d2 <$> matchYear rest' else None
                  | EmptyString => None
                  end with
            | Some t => Some t
            | None => matchYear rest
            end) as [t|] eqn:Ht; [|done].
  intros [= <-]. rewrite matchWeekAt_step, Hc. by rewrite (weekTail_fixed _ _ Ht).
Qed.

Lemma matchWeek_here (d : string) : matchWeekAt d = Some d → matchWeek d = Some d.
Proof. intros Hd. by rewrite matchWeek_step, Hd. Qed.

Lemma matchWeek_week_of (d : string) :
  matchWeekAt d = Some d → matchWeek ("Week of " +:+ d) = Some d.
Proof.
  intros Hd.
  destruct d as [|a [|b [|c [|sp [|d1 rest]]]]]; try done.
  change ("Week of " +:+ ?x)
    with (String "W" (String "e" (String "e" (String "k" (String " " (String "o" (String "f"
            (String " " x)))))))).
  do 8 (rewrite matchWeek_step;
        match goal with
        | |- context [matchWeekAt ?s] =>
            replace (matchWeekAt s) with (@None string) by reflexivity
        end; cbv iota beta).
  by apply matchWeek_here.
Qed.

(** X2.  [normalizeWeekStr] drops the prefix of a week label and does
    not reformat a date that it finds: for a text [d] that the regular
    expression matches as a whole, such as ['Sep 1, 2025'] or, with a
    padded day, ['Sep 01, 2025'], the label ['Week of ' + d] and the
    text [d] itself are both normalized to [d], as written. *)
Theorem normalizeWeekStr_week_of (d : string) :
  matchWeekAt d = Some d →
  normalizeWeekStr h (Some (VStr ("Week of " +:+ d))) = d
  ∧ normalizeWeekStr h (Some (VStr d)) = d.
Proof.
  intros Hd.
  assert (Hne : d ≠ "") by (intros ->; done).
  unfold normalizeWeekStr. cbn [truthy toString].
  rewrite (matchWeek_week_of d Hd), (matchWeek_here d Hd).
  rewrite !bool_decide_false; [done|done|done].
Qed.

(** What [normalizeWeekStr] extracts from a text by the week pattern
    is left as it is by a second normalization. *)
Lemma normalizeWeekStr_idempotent_on_match (str m : string) :
  matchWeek str = Some m →
  normalizeWeekStr h (Some (VStr str)) = m
  ∧ normalizeWeekStr h (Some (VStr m)) = m.
Proof.
  intros Hm.
  assert (Hfix : matchWeekAt m = Some m).
  { induction str as [|c str IH].
    - by rewrite matchWeek_step in Hm.
    - rewrite matchWeek_step in Hm.
      destruct (matchWeekAt (String c str)) as [m'|] eqn:Hat.
      + injection Hm as ->. by eapply matchWeekAt_fixed.
      + by apply IH. }
  assert (Hne : m ≠ "") by (intros ->; done).
  assert (Hstr : str ≠ "") by (intros ->; done).
  unfold normalizeWeekStr. cbn [truthy toString].
  rewrite Hm, (matchWeek_here m Hfix).
  by rewrite !bool_decide_false.
Qed.

End WeekLabels.

(** ** Recipients of an alert *)

Section RecipientFacts.
Context (h : Host).

Lemma dedupe_spec (seen xs : list string) :
  NoDup (dedupe seen xs)
  ∧ ∀ x, x ∈ dedupe seen xs ↔ x ∈ xs ∧ x ≠ "" ∧ x ∉ seen.
Proof.
  revert seen. induction xs as [|x0 xs IH]; intros seen; simpl.
  - split; [constructor|]. intros x. rewrite elem_of_nil. tauto.
  - unfold includes.
    destruct (bool_decide (x0 = "") || bool_decide (x0 ∈ seen)) eqn:Hskip.
    + destruct (IH seen) as [Hnd Hin]. split; [done|].
      intros x. rewrite Hin, elem_of_cons.
      apply orb_true_iff in Hskip as [Hx%bool_decide_eq_true|Hx%bool_decide_eq_true].
      * split; [tauto|]. intros ([->|?] & ? & ?); [done|tauto].
      * split; [tauto|]. intros ([->|?] & ? & ?); [done|tauto].
    + apply orb_false_iff in Hskip as [Hne%bool_decide_eq_false Hns%bool_decide_eq_false].
      destruct (IH (x0 :: seen)) as [Hnd Hin]. split.
      * constructor; [|done]. rewrite Hin, elem_of_cons. tauto.
      * intros x. rewrite !elem_of_cons, Hin, elem_of_cons.
        destruct (decide (x = x0)) as [->|Hx]; [tauto|]. tauto.
Qed.

Lemma resolveRecipients_shape (v : Sheet) (teamName : option value) (rc : Recipients) :
  resolveRecipients h v teamName = Ok rc →
  rc_all rc = (if negb (bool_decide (rc_teamLeader rc = ""))
                  && negb (includes (rc_teamLeader rc) (rc_primary rc))
               then (rc_primary rc ++ [rc_teamLeader rc])%list else rc_primary rc)
  ∧ ∀ x, x ∈ rc_primary rc → includesChar "@"%char x = true.
Proof.
  unfold resolveRecipients.
  set (P := match scanStaffRows h v (seq 0 (dataRows v)) (None, None, None) with
            | Some (hr, ec, rc) => _
            | None => []
            end).
  assert (HP : ∀ x, x ∈ P → includesChar "@"%char x = true).
  { subst P. destruct (scanStaffRows h v _ _) as [[[hr ec] rcol]|];
      [|by intros x ?%elem_of_nil].
    intros x (r & _ & Hr)%list_elem_of_omap.
    destruct (_ && includesChar "@" _) eqn:Hc; [|done].
    injection Hr as <-. by apply andb_true_iff in Hc as [_ ?]. }
  destruct teamName as [tn|]; [|destruct (List.find _ (seq 1 (dataRows v - 1))); [done|]];
    intros [= <-]; by split.
Qed.

(** X3.  The addresses that [getAlertRecipients] returns: no address
    twice, no empty address; they are the primary responders, each of
    which has an ['@'], and the team leader of the team, when the table
    names one. *)
Theorem getAlertRecipients_distinct (v : Sheet) (teamName : option value) (w : World)
    (l : list string) :
  (getAlertRecipients h v teamName w).1 = Ok l →
  ∃ rc, resolveRecipients h v teamName = Ok rc
        ∧ NoDup l
        ∧ (∀ x, x ∈ l ↔ x ≠ "" ∧ (x ∈ rc_primary rc ∨ x = rc_teamLeader rc))
        ∧ (∀ x, x ∈ rc_primary rc → includesChar "@"%char x = true).
Proof.
  unfold getAlertRecipients.
  destruct (resolveRecipients h v teamName) as [rc|msg] eqn:Hrc; [|done].
  simpl. intros [= <-]. exists rc. split; [done|].
  destruct (dedupe_spec [] (rc_all rc)) as [Hnd Hin]. split; [done|].
  destruct (resolveRecipients_shape _ _ _ Hrc) as [Hall Hat]. split; [|done].
  intros x. rewrite Hin, Hall. unfold includes.
  pose proof (not_elem_of_nil x) as Hnil.
  destruct (negb (bool_decide (rc_teamLeader rc = ""))
            && negb (bool_decide (rc_teamLeader rc ∈ rc_primary rc))) eqn:Hl.
  - rewrite elem_of_app, list_elem_of_singleton. tauto.
  - apply andb_false_iff in Hl as [Hl%negb_false_iff%bool_decide_eq_true
                                  |Hl%negb_false_iff%bool_decide_eq_true].
    + split; [tauto|]. intros (? & [?|Hx]); [tauto|]. congruence.
    + split; [tauto|]. intros (? & [?|Hx]); [tauto|]. subst. tauto.
Qed.

End RecipientFacts.

(** ** Week blocks *)

Section BlockFacts.
Context (h : Host).

(** X4.  The shape of the blocks that [getWeekColumnBlocks] returns: a
    block ends at a column whose row-2 label is ['5th'] in any letter
    case, lies within the sheet, spans five columns, fewer only when it
    ends before column 5, and carries the trimmed row-1 text of its last
    column as its label. *)
Theorem getWeekColumnBlocks_shape (s : Sheet) (blk : WeekColumnBlock) :
  blk ∈ getWeekColumnBlocks h s →
  5 ≤ getLastColumn s
  ∧ 1 ≤ startCol blk ≤ endCol blk
  ∧ endCol blk ≤ getLastColumn s
  ∧ startCol blk = Nat.max 1 (endCol blk - 4)
  ∧ toLowerCase (headerCell h s 2 (endCol blk - 1)) = "5th"
  ∧ label blk = headerCell h s 1 (endCol blk - 1).
Proof.
  unfold getWeekColumnBlocks.
  destruct (getLastColumn s <? 5) eqn:Hw; [by intros ?%elem_of_nil|].
  apply Nat.ltb_ge in Hw.
  intros (c & Hc%elem_of_seq & Hblk)%list_elem_of_omap.
  case_bool_decide as H5; [|done]. injection Hblk as <-. simpl.
  replace (c + 1 - 1) with c by lia. repeat split; try done; lia.
Qed.

Lemma find_seq_first (p : nat → bool) (lo n c0 : nat) :
  lo ≤ c0 < lo + n →
  (∀ c, lo ≤ c < c0 → p c = false) →
  p c0 = true →
  List.find p (seq lo n) = Some c0.
Proof.
  revert lo. induction n as [|n IH]; intros lo Hr Hbefore Hc0; [lia|]. simpl.
  destruct (decide (lo = c0)) as [->|Hne]; [by rewrite Hc0|].
  rewrite Hbefore by lia. apply IH; [lia| |done]. intros c Hc. apply Hbefore. lia.
Qed.

(** What [getActiveWeekForSheet] returns is ['Week of '] before the
    row-1 text, not empty, of a column labelled ['5th']. *)
Lemma activeScan_found (s : Sheet) (cs : list nat) (lbl : string) :
  (∀ c, In c cs → c < dataCols s) →
  activeScan h s cs = Ok (Some lbl) →
  ∃ cc, cc < dataCols s ∧ headerCell h s 2 cc = "5th"
        ∧ headerCell h s 1 cc ≠ ""
        ∧ lbl = "Week of " +:+ headerCell h s 1 cc.
Proof.
  induction cs as [|c cs IH]; simpl; [done|]. intros Hcs.
  assert (Hrest : ∀ c', In c' cs → c' < dataCols s) by (intros; apply Hcs; by right).
  destruct (bool_decide (toLowerCase (headerCell h s 1 c) = "active")); [|by apply IH].
  destruct (dataRows s <? 2); [done|].
  destruct (terminalAfter h s c) as [cc|] eqn:Hcc; [|by apply IH].
  case_bool_decide as Hdate; [done|]. intros [= <-].
  unfold terminalAfter in Hcc. apply find_some in Hcc as [Hin Hp].
  apply in_seq in Hin. apply bool_decide_eq_true in Hp.
  exists cc. repeat split; try done. specialize (Hcs c (or_introl eq_refl)). lia.
Qed.

(** The terminal column of the active block. *)
Lemma getActiveWeekBlockCols_found (s : Sheet) (a b : nat) :
  getActiveWeekBlockCols h s = Ok (Some (a, b)) →
  ∃ c wd, 5 ≤ getLastColumn s ∧ c < getLastColumn s
          ∧ a = Nat.max 1 (c + 1 - 4) ∧ b = c + 1
          ∧ headerCell h s 2 c = "5th" ∧ headerCell h s 1 c = wd ∧ wd ≠ ""
          ∧ getActiveWeekForSheet h s = Ok (Some ("Week of " +:+ wd)).
Proof.
  unfold getActiveWeekBlockCols.
  destruct (getLastColumn s <? 5) eqn:Hw; [done|]. apply Nat.ltb_ge in Hw.
  destruct (getActiveWeekForSheet h s) as [[lbl|]|] eqn:Hlabel; [|done|done].
  unfold getActiveWeekForSheet in Hlabel.
  apply activeScan_found in Hlabel as (cc & Hcc & H5 & Hne & ->);
    [|intros c Hc%in_seq; lia].
  rewrite stripWeekOf_label by (intros c r; apply trim_head).
  assert (Ht : trim (headerCell h s 1 cc) = headerCell h s 1 cc) by apply trim_idemp.
  rewrite Ht.
  destruct (List.find _ (seq 0 (getLastColumn s))) as [c|] eqn:Hfind; [|done].
  intros [= <- <-]. apply find_some in Hfind as [Hin%in_seq Hp].
  apply andb_true_iff in Hp as [Hp1%bool_decide_eq_true Hp2%bool_decide_eq_true].
  exists c, (headerCell h s 1 cc). repeat split; try done; lia.
Qed.

(** X5.  The active block is one of the week blocks of the tab, and the
    active week is ['Week of '] before the label of that block: the
    block that [onEdit] opens for edits is a block that
    [lockPastWeeksForSheet] and [hidePastWeeksForSheet] see. *)
Theorem active_block_is_week_block (s : Sheet) (a b : nat) :
  getActiveWeekBlockCols h s = Ok (Some (a, b)) →
  ∃ blk, blk ∈ getWeekColumnBlocks h s
         ∧ startCol blk = a ∧ endCol blk = b
         ∧ getActiveWeekForSheet h s = Ok (Some ("Week of " +:+ label blk)).
Proof.
  intros (c & wd & Hw & Hc & -> & -> & H5 & Hwd & Hne & Hact)%getActiveWeekBlockCols_found.
  exists (mkBlock (Nat.max 1 (c + 1 - 4)) (c + 1) (headerCell h s 1 c)).
  split; [|by rewrite Hwd].
  unfold getWeekColumnBlocks.
  destruct (getLastColumn s <? 5) eqn:Hlt; [apply Nat.ltb_lt in Hlt; lia|].
  apply list_elem_of_omap. exists c. split; [apply elem_of_seq; lia|].
  by rewrite H5, bool_decide_true.
Qed.

(** X6.  A mark in the active block is logged under the active week: for
    a column of the active block with no label ['5th'] between it and
    the end of the block, the week that [processNewEvents] derives with
    [getWeekForInfractionCol] is the week that [getActiveWeekForSheet]
    returns. *)
Theorem active_block_column_has_active_week (s : Sheet) (a b col : nat) :
  getActiveWeekBlockCols h s = Ok (Some (a, b)) →
  a ≤ S col ≤ b →
  (∀ c, col ≤ c → S c < b → headerCell h s 2 c ≠ "5th") →
  getActiveWeekForSheet h s
  = Ok (Some (getWeekForInfractionCol h s (dataCols s) col)).
Proof.
  intros (c & wd & Hw & Hc & -> & -> & H5 & Hwd & Hne & Hact)%getActiveWeekBlockCols_found
         Hcol Hnone.
  rewrite Hact. do 2 f_equal.
  assert (Hterm : weekOfTerminal h s c = "Week of " +:+ wd).
  { unfold weekOfTerminal. rewrite Hwd. by rewrite bool_decide_false. }
  unfold getWeekForInfractionCol.
  destruct (decide (col = c)) as [->|Hlt].
  - by rewrite H5, bool_decide_true.
  - rewrite bool_decide_false by (apply Hnone; lia).
    rewrite (find_seq_first _ _ _ c); [done| | |by rewrite H5, bool_decide_true].
    + unfold dataCols. lia.
    + intros c' Hc'. apply bool_decide_eq_false, Hnone; lia.
Qed.

End BlockFacts.

(** ** What the entry points leave alone *)

Section Frames.
Context (h : Host).

Lemma changesOnly_refl names sync mail w : changesOnly names sync mail w w.
Proof.
  repeat split; try done. destruct mail; [|done]. exists []. by rewrite app_nil_r.
Qed.

Lemma changesOnly_trans names sync mail w1 w2 w3 :
  changesOnly names sync mail w1 w2 → changesOnly names sync mail w2 w3 →
  changesOnly names sync mail w1 w3.
Proof.
  intros (Ht1 & He1 & Hs1 & Hm1) (Ht2 & He2 & Hs2 & Hm2). repeat split.
  - intros name Hn. by rewrite Ht2, Ht1.
  - by rewrite He2.
  - intros Hs. by rewrite Hs2, Hs1.
  - destruct mail.
    + destruct Hm1 as [s1 Hm1], Hm2 as [s2 Hm2]. exists (s1 ++ s2)%list.
      by rewrite Hm2, Hm1, app_assoc.
    + by rewrite Hm2.
Qed.

Lemma changesOnly_putSheet names sync mail name s w :
  name ∈ names → changesOnly names sync mail w (putSheet name s w).
Proof.
  intros Hin. repeat split; try done.
  - intros name' Hn. apply getSheetByName_putSheet_other. intros ->. done.
  - destruct mail; [|done]. exists []. by rewrite app_nil_r.
Qed.

Lemma changesOnly_onSheet names sync mail name f w :
  name ∈ names → changesOnly names sync mail w (onSheet name f w).
Proof.
  intros Hin. unfold onSheet. destruct (getSheetByName name w).
  - by apply changesOnly_putSheet.
  - apply changesOnly_refl.
Qed.

Lemma changesOnly_debugLog names sync mail msg w :
  "DebugLog" ∈ names → changesOnly names sync mail w (debugLog h msg w).
Proof. intros Hin. by apply changesOnly_putSheet. Qed.

Lemma changesOnly_show names sync mail title text w :
  changesOnly names sync mail w (show title text w).
Proof.
  repeat split; try done. destruct mail; [|done]. exists []. by rewrite app_nil_r.
Qed.

Lemma changesOnly_toast names sync mail text title w :
  changesOnly names sync mail w (toast h text title w).
Proof.
  unfold toast. destruct (canUseUi h); [apply changesOnly_show|apply changesOnly_refl].
Qed.

Lemma changesOnly_mailCall names sync m delivered w :
  changesOnly names sync true w (mailCall m delivered w).
Proof. repeat split; try done. by eexists. Qed.

Lemma changesOnly_setTeamSyncMap names mail p w :
  changesOnly names true mail w (setTeamSyncMap p w).
Proof.
  repeat split; try done. destruct mail; [|done]. exists []. by rewrite app_nil_r.
Qed.

End Frames.

(** Splits a goal [changesOnly names sync mail w (f (g w))] along the
    calls that lead from [w] to the world on the right. *)
Ltac frame_membership :=
  repeat first [ apply list_elem_of_here | apply list_elem_of_further ].

Ltac frame_step :=
  lazymatch goal with
  | |- changesOnly _ _ _ ?w ?w => apply changesOnly_refl
  | |- changesOnly _ _ _ _ (debugLog _ _ ?x) =>
      apply changesOnly_trans with x; [|apply changesOnly_debugLog; frame_membership]
  | |- changesOnly _ _ _ _ (toast _ _ _ ?x) =>
      apply changesOnly_trans with x; [|apply changesOnly_toast]
  | |- changesOnly _ _ _ _ (show _ _ ?x) =>
      apply changesOnly_trans with x; [|apply changesOnly_show]
  | |- changesOnly _ _ _ _ (onSheet _ _ ?x) =>
      apply changesOnly_trans with x; [|apply changesOnly_onSheet; frame_membership]
  | |- changesOnly _ _ _ _ (putSheet _ _ ?x) =>
      apply changesOnly_trans with x; [|apply changesOnly_putSheet; frame_membership]
  | |- changesOnly _ _ _ _ (mailCall _ _ ?x) =>
      apply changesOnly_trans with x; [|apply changesOnly_mailCall]
  | |- changesOnly _ _ _ _ (setTeamSyncMap _ ?x) =>
      apply changesOnly_trans with x; [|apply changesOnly_setTeamSyncMap]
  end.

Ltac frame := repeat frame_step.

Section EntryPointFrames.
Context (h : Host).

Lemma changesOnly_restoreOld names sync mail e name r c w :
  name ∈ names → changesOnly names sync mail w (restoreOld e name r c w).
Proof.
  intros Hin. unfold restoreOld. destruct (ev_oldValue e); by apply changesOnly_onSheet.
Qed.

Lemma changesOnly_undoWorking names sync mail e name relocated r c w :
  name ∈ names → changesOnly names sync mail w (undoWorking e name relocated r c w).
Proof.
  intros Hin. unfold undoWorking. destruct relocated.
  - by apply changesOnly_onSheet.
  - by apply changesOnly_restoreOld.
Qed.

Lemma changesOnly_attribute e name relocated row c w :
  changesOnly [name; "DebugLog"] false false w (attribute h e name relocated row c w).
Proof.
  unfold attribute. destruct (getSavedUserEmail_ w); frame.
  apply changesOnly_undoWorking. frame_membership.
Qed.

Lemma changesOnly_sequenceCheck e name relocated row start c k w :
  changesOnly [name; "DebugLog"] false false w
    (sequenceCheck h e name relocated row start c k w).
Proof.
  unfold sequenceCheck. destruct (firstGapBelow w name row start k).
  - frame. apply changesOnly_undoWorking. frame_membership.
  - apply changesOnly_attribute.
Qed.

Lemma changesOnly_relocateAndCheck e name newVal row col k start w :
  changesOnly [name; "DebugLog"] false false w
    (relocateAndCheck h e name newVal row col k start w).
Proof.
  unfold relocateAndCheck.
  destruct (firstMissingIndex w name row start) as [m|]; [|apply changesOnly_sequenceCheck].
  destruct (m <? k); [|apply changesOnly_sequenceCheck].
  eapply changesOnly_trans; [|apply changesOnly_sequenceCheck].
  frame. apply changesOnly_restoreOld. frame_membership.
Qed.

(** X8.  The edit guard stays on the edited tab: whatever the edit,
    [onEdit] changes no tab other than the edited one and the diagnostic
    log, sends no mail and changes neither the saved e-mail nor the sync
    state. *)
Theorem onEdit_changes_edited_tab_only (e : EditEvent) (w : World) :
  let w' := onEdit h e w in
  (∀ name, name ≠ ev_sheet e → name ≠ "DebugLog" →
           getSheetByName name w' = getSheetByName name w)
  ∧ outbox w' = outbox w
  ∧ bssUserEmail w' = bssUserEmail w
  ∧ teamSyncMap w' = teamSyncMap w.
Proof.
  intros w'.
  assert (Hf : changesOnly [ev_sheet e; "DebugLog"] false false w w').
  { subst w'. unfold onEdit.
    destruct (getSheetByName (ev_sheet e) w) as [sheet|]; [|apply changesOnly_refl].
    destruct (includes _ _); [apply changesOnly_refl|].
    destruct (ev_row e <=? FIRST_STUDENT_ROW); [apply changesOnly_refl|].
    assert (Hg : ∀ cols, changesOnly [ev_sheet e; "DebugLog"] false false w
                           (guardRankEdit h e sheet cols w)).
    { intros cols. unfold guardRankEdit.
      destruct (rankIndexOf h sheet (ev_col e)); [|apply changesOnly_refl].
      destruct (negb _); [apply changesOnly_refl|].
      destruct (weekBlockStart h sheet cols (ev_col e)).
      - apply changesOnly_relocateAndCheck.
      - apply changesOnly_attribute. }
    destruct (getActiveWeekBlockCols h sheet) as [[[a b]|]|]; [| |apply changesOnly_refl].
    - destruct (_ && _); [apply Hg|]. frame. apply changesOnly_restoreOld. frame_membership.
    - apply Hg. }
  destruct Hf as (Ht & He & Hs & Hm). repeat split; auto.
  intros name H1 H2. apply Ht. rewrite !elem_of_cons, elem_of_nil. tauto.
Qed.

(** X10.  A run of the event ledger writes to the tab [EventLog] only:
    no team tab, no other tab, no property changes, and no mail is sent. *)
Theorem processNewEvents_changes_ledger_only (w : World) :
  let w' := (processNewEvents h w).1 in
  (∀ name, name ≠ "EventLog" → getSheetByName name w' = getSheetByName name w)
  ∧ outbox w' = outbox w
  ∧ bssUserEmail w' = bssUserEmail w
  ∧ teamSyncMap w' = teamSyncMap w.
Proof.
  intros w'.
  assert (Hf : changesOnly ["EventLog"] false false w w').
  { subst w'. unfold processNewEvents.
    destruct (thrown _); simpl; [frame|]. destruct (canUseUi h); frame. }
  destruct Hf as (Ht & He & Hs & Hm). repeat split; auto.
  intros name H1. apply Ht. rewrite !elem_of_cons, elem_of_nil. tauto.
Qed.

End EntryPointFrames.

(** ** What the alert scan leaves alone *)

Section ScanFrame.
Context (h : Host).

Lemma foldl_invariant {A B} (P : B → Prop) (f : B → A → B) (l : list A) (b : B) :
  (∀ b x, P b → P (f b x)) → P b → P (foldl f b l).
Proof. intros Hf. revert b. induction l as [|x l IH]; simpl; auto. Qed.

Lemma changesOnly_parseStudent names sync mail r raw w :
  "DebugLog" ∈ names → changesOnly names sync mail w (parseStudent h r raw w).2.
Proof.
  intros Hin. unfold parseStudent. destruct (studentOf h raw); simpl.
  - apply changesOnly_refl.
  - by apply changesOnly_debugLog.
Qed.

Lemma changesOnly_getAlertRecipients names sync mail v teamName w :
  "DebugLog" ∈ names → changesOnly names sync mail w (getAlertRecipients h v teamName w).2.
Proof.
  intros Hin. unfold getAlertRecipients. destruct (resolveRecipients h v teamName); simpl.
  - unfold logRecipients.
    repeat (eapply changesOnly_trans; [|by apply changesOnly_debugLog]).
    apply changesOnly_refl.
  - apply changesOnly_refl.
Qed.

Lemma changesOnly_trySend names sync r recipientEmails mail w sent :
  "DebugLog" ∈ names →
  changesOnly names sync true w (trySend h r recipientEmails mail w sent).1.
Proof.
  intros Hin. unfold trySend. destruct recipientEmails; [apply changesOnly_refl|].
  destruct (sendEmailOk h mail); simpl;
    (eapply changesOnly_trans; [|by apply changesOnly_debugLog]);
    apply changesOnly_mailCall.
Qed.

(** The tab [EventLog] after the end of a turn: as before, or with the
    alert marker of the row set. *)
Lemma markAndLog_ledger ev r week fields recipientEmails w sent :
  let st := markAndLog h ev r week fields recipientEmails w sent in
  changesOnly ["EventLog"; "EmailLog"; "DebugLog"] false true w (world st)
  ∧ (getSheetByName "EventLog" (world st) = getSheetByName "EventLog" w
     ∨ ∃ ac s, headerIndex ev "Alerted" = Some ac
               ∧ getSheetByName "EventLog" w = Some s
               ∧ getSheetByName "EventLog" (world st)
                 = Some (setValue r (S ac) (VDate (now h)) s)).
Proof.
  unfold markAndLog. destruct (headerIndex ev "Alerted") as [ac|]; simpl.
  2: { split; [apply changesOnly_refl|by left]. }
  set (w4 := onSheet "EventLog" (setValue r (S ac) (VDate (now h))) w).
  assert (H4 : getSheetByName "EventLog" w4 = getSheetByName "EventLog" w
               ∨ ∃ ac' s, Some ac = Some ac' ∧ getSheetByName "EventLog" w = Some s
                          ∧ getSheetByName "EventLog" w4
                            = Some (setValue r (S ac') (VDate (now h)) s)).
  { subst w4. unfold onSheet. destruct (getSheetByName "EventLog" w) as [s|] eqn:Hs.
    - right. exists ac, s. by rewrite getSheetByName_putSheet_same.
    - left. by rewrite Hs. }
  destruct (getSheetByName "EmailLog" w4) as [logSheet|]; simpl.
  - split; [subst w4; frame|].
    rewrite getSheetByName_debugLog, getSheetByName_putSheet_other by done. done.
  - split; [subst w4; frame|]. done.
Qed.

Lemma notify_ledger ev r week w0 st :
  let st' := notify h ev r week w0 st in
  changesOnly ["EventLog"; "EmailLog"; "DebugLog"] false true w0 (world st')
  ∧ (getSheetByName "EventLog" (world st') = getSheetByName "EventLog" w0
     ∨ ∃ ac s, headerIndex ev "Alerted" = Some ac
               ∧ getSheetByName "EventLog" w0 = Some s
               ∧ getSheetByName "EventLog" (world st')
                 = Some (setValue r (S ac) (VDate (now h)) s)).
Proof.
  unfold notify.
  destruct (getSheetByName "Templates" w0) as [templateSheet|]; simpl.
  2: { split; [frame|]. left. by rewrite getSheetByName_debugLog. }
  destruct (getTemplateByName h templateSheet _) as [template|msg]; simpl.
  2: { split; [apply changesOnly_refl|by left]. }
  pose proof (changesOnly_parseStudent ["EmailLog"; "DebugLog"] false true r
                (eventField ev r "All Student Data") w0 ltac:(frame_membership)) as H1.
  destruct (parseStudent h r _ w0) as [student w1]. simpl in H1.
  set (fields0 := mergeFieldsOf ev r week student).
  assert (H2 : ∃ recips w2,
             match getSheetByName "Variables" w1 with
             | Some variablesSheet =>
                 getAlertRecipients h variablesSheet (mjoin (getField "Team" fields0)) w1
             | None => (Ok [], w1)
             end = (recips, w2)
             ∧ changesOnly ["EmailLog"; "DebugLog"] false true w1 w2).
  { destruct (getSheetByName "Variables" w1) as [v|].
    - pose proof (changesOnly_getAlertRecipients ["EmailLog"; "DebugLog"] false true v
                    (mjoin (getField "Team" fields0)) w1 ltac:(frame_membership)) as Hr.
      destruct (getAlertRecipients h v _ w1) as [recips w2]. by exists recips, w2.
    - exists (Ok []), w1. split; [done|apply changesOnly_refl]. }
  destruct H2 as (recips & w2 & -> & H2).
  pose proof (changesOnly_trans _ _ _ _ _ _ H1 H2) as H02.
  assert (Hkeep : ∀ w', changesOnly ["EmailLog"; "DebugLog"] false true w0 w' →
                        changesOnly ["EventLog"; "EmailLog"; "DebugLog"] false true w0 w'
                        ∧ getSheetByName "EventLog" w' = getSheetByName "EventLog" w0).
  { intros w' (Ht & He & Hs & Hm). split.
    - repeat split; try done. intros name Hn. apply Ht.
      intros Hin. apply Hn. by apply list_elem_of_further.
    - apply Ht. rewrite !elem_of_cons, elem_of_nil. intros [?|[?|?]]; done. }
  destruct recips as [recipientEmails|msg]; simpl.
  2: { destruct (Hkeep _ H02). split; [done|by left]. }
  destruct (composeMail h template _ recipientEmails) as [mail|msg]; simpl.
  2: { destruct (Hkeep _ H02). split; [done|by left]. }
  pose proof (changesOnly_trySend ["EmailLog"; "DebugLog"] false r recipientEmails mail w2
                (alertsSent st) ltac:(frame_membership)) as H3.
  destruct (trySend h r recipientEmails mail w2 (alertsSent st)) as [w3 sent]. simpl in H3.
  destruct (Hkeep _ (changesOnly_trans _ _ _ _ _ _ H02 H3)) as [H03 Hev3].
  destruct (markAndLog_ledger ev r week
              (setField "Recipients" (Some (VStr (joinWith ", " recipientEmails))) fields0)
              recipientEmails w3 sent) as [Hm Hl].
  split; [by eapply changesOnly_trans|].
  rewrite <- Hev3. done.
Qed.

Lemma alertStep_ledger weeks ev st r :
  let st' := alertStep h weeks ev st r in
  changesOnly ["EventLog"; "EmailLog"; "DebugLog"] false true (world st) (world st')
  ∧ (getSheetByName "EventLog" (world st') = getSheetByName "EventLog" (world st)
     ∨ ∃ ac s, headerIndex ev "Alerted" = Some ac
               ∧ getSheetByName "EventLog" (world st) = Some s
               ∧ getSheetByName "EventLog" (world st')
                 = Some (setValue r (S ac) (VDate (now h)) s)).
Proof.
  unfold alertStep. destruct (fault st); [split; [apply changesOnly_refl|by left]|].
  set (w0 := debugLog h _ (world st)).
  assert (H0 : changesOnly ["EventLog"; "EmailLog"; "DebugLog"] false true (world st) w0)
    by (subst w0; frame).
  assert (He0 : getSheetByName "EventLog" w0 = getSheetByName "EventLog" (world st))
    by (subst w0; by rewrite getSheetByName_debugLog).
  assert (Hskip : ∀ msg,
             changesOnly ["EventLog"; "EmailLog"; "DebugLog"] false true (world st)
               (debugLog h msg w0)
             ∧ getSheetByName "EventLog" (debugLog h msg w0)
               = getSheetByName "EventLog" (world st)).
  { intros msg. split; [frame; done|]. by rewrite getSheetByName_debugLog. }
  destruct (negb _); simpl; [split; [done|by left]|].
  destruct (from_option truthy false _); simpl; [split; [done|by left]|].
  destruct (weeks !! _) as [activeWeek|]; simpl.
  - case_bool_decide.
    + destruct (notify_ledger ev r (normalizeWeekStr h (eventField ev r "Week")) w0 st)
        as [Hn Hl].
      split; [by eapply changesOnly_trans|]. by rewrite <- He0.
    + destruct (Hskip ("Row " +:+ pretty r +:+ ": SKIP, activeWeek='" +:+ activeWeek
                       +:+ "', eventWeek='" +:+ normalizeWeekStr h (eventField ev r "Week")
                       +:+ "'")).
      split; [done|by left].
  - destruct (Hskip ("Row " +:+ pretty r +:+ ": SKIP, activeWeek='"
                     +:+ default "undefined"
                           (inheritedText (templ h (eventField ev r "Sheet Name")))
                     +:+ "', eventWeek='" +:+ normalizeWeekStr h (eventField ev r "Week")
                     +:+ "'")).
    split; [done|by left].
Qed.

(** X13.  The alert scan writes to the ledger, the mail log and the
    diagnostic log only, and in the ledger to the column [Alerted] only:
    team tabs, templates and variables, the properties and the notes of
    the ledger are as before, also when the scan ends with a fault; mail
    calls are added to those made before, none is taken back. *)
Theorem scanAndSendAlerts_changes_markers_only (w : World) :
  let w' := (scanAndSendAlerts h w).1 in
  (∀ name, name ≠ "EventLog" → name ≠ "EmailLog" → name ≠ "DebugLog" →
           getSheetByName name w' = getSheetByName name w)
  ∧ (∀ ev, getSheetByName "EventLog" w = Some ev →
           ∃ ev', getSheetByName "EventLog" w' = Some ev'
                  ∧ notes ev' = notes ev
                  ∧ ∀ r c, Some c ≠ S <$> headerIndex ev "Alerted" →
                           getValue ev' r c = getValue ev r c)
  ∧ (∃ sent, outbox w' = (outbox w ++ sent)%list)
  ∧ bssUserEmail w' = bssUserEmail w
  ∧ teamSyncMap w' = teamSyncMap w.
Proof.
  intros w'.
  set (N := ["EventLog"; "EmailLog"; "DebugLog"]).
  assert (Hf : changesOnly N false true w w'
               ∧ ∀ ev, getSheetByName "EventLog" w = Some ev →
                       ∃ ev', getSheetByName "EventLog" w' = Some ev'
                              ∧ notes ev' = notes ev
                              ∧ ∀ r c, Some c ≠ S <$> headerIndex ev "Alerted" →
                                       getValue ev' r c = getValue ev r c).
  { subst w'. unfold scanAndSendAlerts.
    destruct (getSheetByName "EventLog" w) as [ev|] eqn:Hev.
    2: { simpl. split; [subst N; frame|]. done. }
    set (w0 := debugLog h _ w).
    assert (H0 : changesOnly N false true w w0) by (subst w0 N; frame).
    assert (He0 : getSheetByName "EventLog" w0 = Some ev)
      by (subst w0; by rewrite getSheetByName_debugLog).
    assert (Hsame : ∀ ev0, Some ev = Some ev0 →
                           ∃ ev', Some ev = Some ev' ∧ notes ev' = notes ev0
                                  ∧ ∀ r c, Some c ≠ S <$> headerIndex ev0 "Alerted" →
                                           getValue ev' r c = getValue ev0 r c).
    { intros ev0 [= <-]. by exists ev. }
    destruct (teamActiveWeeks h (sheets w0)) as [weeks|msg]; simpl.
    2: { split; [done|]. by rewrite He0. }
    set (P := λ st : Scan,
           changesOnly N false true w (world st)
           ∧ ∃ ev', getSheetByName "EventLog" (world st) = Some ev'
                    ∧ notes ev' = notes ev
                    ∧ ∀ r c, Some c ≠ S <$> headerIndex ev "Alerted" →
                             getValue ev' r c = getValue ev r c).
    assert (HP : P (foldl (alertStep h weeks ev) (mkScan w0 0 None) (seq 2 (dataRows ev - 1)))).
    { apply foldl_invariant.
      - intros st r (Hc & ev' & Hev' & Hnotes & Hcells).
        destruct (alertStep_ledger weeks ev st r) as [Hstep Hl]. split.
        + by eapply changesOnly_trans.
        + destruct Hl as [Hl|(ac & s & Hac & Hs & Hl)].
          * exists ev'. by rewrite Hl.
          * rewrite Hev' in Hs. injection Hs as <-.
            exists (setValue r (S ac) (VDate (now h)) ev'). split; [done|]. split; [done|].
            intros r' c' Hc'. rewrite getValue_setValue, decide_False; [by apply Hcells|].
            intros [= <- <-]. apply Hc'. by rewrite Hac.
      - split; [done|]. by exists ev. }
    destruct HP as (Hc & ev' & Hev' & Hrest).
    destruct (fault _); simpl.
    - split; [done|]. intros ev0 [= <-]. by exists ev'.
    - split.
      + destruct (canUseUi h); subst N; frame; done.
      + intros ev0 [= <-]. exists ev'. split; [|done].
        destruct (canUseUi h);
          [change (getSheetByName "EventLog" (show _ _ ?x)) with (getSheetByName "EventLog" x)|];
          by rewrite getSheetByName_debugLog. }
  destruct Hf as [(Ht & He & Hs & Hm) Hledger]. repeat split; auto.
  intros name H1 H2 H3. apply Ht. subst N. rewrite !elem_of_cons, elem_of_nil. tauto.
Qed.

End ScanFrame.

(** ** Roster sync: what it changes and which team comes next *)

Section SyncFrame.
Context (h : Host).

Lemma loadSyncMap_parsed teamName w : (loadSyncMap h teamName w).1 = parsedSyncMap w.
Proof.
  unfold loadSyncMap, parsedSyncMap.
  destruct (teamSyncMap w) as [[m|raw]|]; try done. by destruct (bool_decide (raw = "")).
Qed.

Lemma changesOnly_loadSyncMap names sync mail teamName w :
  "DebugLog" ∈ names → changesOnly names sync mail w (loadSyncMap h teamName w).2.
Proof.
  intros Hin. unfold loadSyncMap.
  destruct (teamSyncMap w) as [[m|raw]|]; try apply changesOnly_refl.
  destruct (bool_decide (raw = "")); simpl; [apply changesOnly_refl|].
  by apply changesOnly_debugLog.
Qed.

Lemma changesOnly_pruneDebugLogSheet names sync mail maxRows w :
  "DebugLog" ∈ names → changesOnly names sync mail w (pruneDebugLogSheet maxRows w).
Proof.
  intros Hin. unfold pruneDebugLogSheet.
  destruct (getSheetByName "DebugLog" w); [|apply changesOnly_refl].
  destruct (_ <? _); [by apply changesOnly_putSheet|apply changesOnly_refl].
Qed.

Lemma teamSyncMap_pruneDebugLogSheet maxRows w :
  teamSyncMap (pruneDebugLogSheet maxRows w) = teamSyncMap w.
Proof.
  unfold pruneDebugLogSheet. destruct (getSheetByName "DebugLog" w); [|done].
  by destruct (_ <? _).
Qed.

Lemma changesOnly_rebuildView teamName template w :
  changesOnly [teamName; "DebugLog"] false false w (rebuildView h teamName template w).1.
Proof.
  unfold rebuildView, tElapsedSince, tElapsed. cbv zeta.
  case_bool_decide; cbn [fst]; [frame|].
  match goal with
  | |- context [getSheetByName teamName ?x] => destruct (getSheetByName teamName x)
  end; cbn [fst];
    (destruct (_ <$> teamStudents h _ teamName); destruct (negb _); frame).
Qed.

Lemma rebuildView_ok teamName template w :
  getLastColumn template ≠ 0 → (rebuildView h teamName template w).2 = None.
Proof.
  intros Hcols. unfold rebuildView. cbv zeta. rewrite bool_decide_false by done.
  by match goal with
     | |- context [getSheetByName teamName ?x] => destruct (getSheetByName teamName x)
     end.
Qed.

(** What a call of the roster sync does to the world and to the sync
    state. *)
Lemma syncRosterForTeam_cases teamName w :
  let w' := syncRosterForTeam h teamName w in
  let todayStr := formatDate h (now h) "yyyy-MM-dd" in
  changesOnly [teamName; "DebugLog"] true false w w'
  ∧ (teamSyncMap w' = teamSyncMap w
     ∨ teamSyncMap w' = Some (SyncJson (<[teamName := todayStr]> (parsedSyncMap w))))
  ∧ ∀ template, getSheetByName TEAM_TEMPLATE_NAME w = Some template →
                getLastColumn template ≠ 0 →
                parsedSyncMap w !! teamName ≠ Some todayStr →
                teamSyncMap w' = Some (SyncJson (<[teamName := todayStr]> (parsedSyncMap w))).
Proof.
  intros w' todayStr. subst w'. unfold syncRosterForTeam.
  pose proof (loadSyncMap_parsed teamName w) as Hmap.
  pose proof (changesOnly_loadSyncMap [teamName; "DebugLog"] true false teamName w
                ltac:(frame_membership)) as H0.
  assert (Hs0 : teamSyncMap (loadSyncMap h teamName w).2 = teamSyncMap w).
  { unfold loadSyncMap. destruct (teamSyncMap w) as [[m|raw]|] eqn:Hp; [done| |done].
    by destruct (bool_decide (raw = "")). }
  assert (Ht0 : getSheetByName TEAM_TEMPLATE_NAME (loadSyncMap h teamName w).2
                = getSheetByName TEAM_TEMPLATE_NAME w).
  { unfold loadSyncMap. destruct (teamSyncMap w) as [[m|raw]|]; try done.
    destruct (bool_decide (raw = "")); simpl; [done|]. by rewrite getSheetByName_debugLog. }
  destruct (loadSyncMap h teamName w) as [syncMap w0]. simpl in Hmap, H0, Hs0, Ht0.
  subst syncMap. fold todayStr.
  case_bool_decide as Hdone.
  { split; [eapply changesOnly_trans; [exact H0|frame]|]. split; [by left|]. done. }
  unfold t. rewrite !getSheetByName_debugLog, Ht0 by done.
  destruct (getSheetByName TEAM_TEMPLATE_NAME w) as [template|].
  2: { destruct (canUseUi h);
         (split; [eapply changesOnly_trans; [exact H0|frame]|split; [by left|done]]). }
  unfold tElapsed.
  set (w1 := debugLog h _ (debugLog h _ w0)).
  assert (H1 : changesOnly [teamName; "DebugLog"] true false w w1).
  { eapply changesOnly_trans; [exact H0|]. subst w1. frame. }
  pose proof (changesOnly_rebuildView teamName template w1) as (Ht & He & Hs & Hm).
  pose proof (rebuildView_ok teamName template w1) as Hok.
  destruct (rebuildView h teamName template w1) as [w2 [msg|]]; simpl in *.
  - split; [|split].
    + eapply changesOnly_trans; [exact H1|].
      eapply changesOnly_trans; [|apply changesOnly_pruneDebugLogSheet; frame_membership].
      frame. by repeat split.
    + left. rewrite teamSyncMap_pruneDebugLogSheet. simpl. by rewrite Hs.
    + intros template' [= <-] Hcols _. by specialize (Hok Hcols).
  - split; [|split].
    + eapply changesOnly_trans; [exact H1|].
      eapply changesOnly_trans; [|apply changesOnly_pruneDebugLogSheet; frame_membership].
      frame. by repeat split.
    + right. by rewrite teamSyncMap_pruneDebugLogSheet.
    + intros _ _ _ _. by rewrite teamSyncMap_pruneDebugLogSheet.
Qed.

(** X14.  A roster sync rebuilds one tab: it changes no tab other than
    the tab of the team and the diagnostic log, sends no mail, leaves
    the saved e-mail alone, and in the sync state changes the entry of
    that team at most. *)
Theorem syncRosterForTeam_changes_team_tab_only (teamName : string) (w : World) :
  let w' := syncRosterForTeam h teamName w in
  (∀ name, name ≠ teamName → name ≠ "DebugLog" →
           getSheetByName name w' = getSheetByName name w)
  ∧ outbox w' = outbox w
  ∧ bssUserEmail w' = bssUserEmail w
  ∧ ∀ other, other ≠ teamName → parsedSyncMap w' !! other = parsedSyncMap w !! other.
Proof.
  intros w'. destruct (syncRosterForTeam_cases teamName w) as ((Ht & He & _ & Hm) & Hs & _).
  fold w' in Ht, He, Hm, Hs. repeat split; auto.
  - intros name H1 H2. apply Ht. rewrite !elem_of_cons, elem_of_nil. tauto.
  - intros other Hother. unfold parsedSyncMap at 1.
    destruct Hs as [->| ->]; [done|]. by rewrite lookup_insert_ne.
Qed.

(** X15.  When the sync state is absent or an object and the template
    exists with a column, a sync records today's date for the team, so
    that [syncNextTeamForToday] does not select the team again on that
    day.  The sync state is a script object, and [__proto__] is the one
    name under which an assignment stores no text in it: a team of that
    name is left aside. *)
Theorem syncRosterForTeam_records_sync_date (teamName : string) (w : World)
    (template : Sheet) :
  teamName ≠ "__proto__" →
  syncStateIsObject w = true →
  getSheetByName TEAM_TEMPLATE_NAME w = Some template →
  getLastColumn template ≠ 0 →
  let w' := syncRosterForTeam h teamName w in
  syncStateIsObject w' = true
  ∧ parsedSyncMap w' !! teamName = Some (formatDate h (now h) "yyyy-MM-dd")
  ∧ ∀ teams, nextTeam (parsedSyncMap w') (formatDate h (now h) "yyyy-MM-dd") teams
             ≠ Some teamName.
Proof.
  intros _ _ Htpl Hcols w'.
  destruct (syncRosterForTeam_records_today h teamName w template Htpl Hcols)
    as (syncMap & Hmap & Hday).
  assert (Hlook : parsedSyncMap w' !! teamName = Some (formatDate h (now h) "yyyy-MM-dd")).
  { unfold parsedSyncMap. subst w'. by rewrite Hmap. }
  split; [unfold syncStateIsObject; subst w'; by rewrite Hmap|].
  split; [done|]. intros teams Hnext. unfold nextTeam in Hnext.
  apply find_some in Hnext as [_ Hsel]. by rewrite bool_decide_true in Hsel.
Qed.

End SyncFrame.

(** ** The team names of [Variables] *)

Section TeamNames.
Context (h : Host).

Lemma teamNamesFrom_spec (v : Sheet) (row left : nat) :
  let teams := teamNamesFrom h v row left in
  length teams ≤ left
  ∧ (∀ i, i < length teams →
          truthy (getValue v (row + i) 2) = true
          ∧ teams !! i = Some (trim (toString h (getValue v (row + i) 2))))
  ∧ (length teams < left → truthy (getValue v (row + length teams) 2) = false).
Proof.
  revert row. induction left as [|left IH]; intros row; simpl.
  - split; [done|]. split; [intros i Hi; lia|lia].
  - destruct (truthy (getValue v row 2)) eqn:Hv; simpl.
    + destruct (IH (S row)) as (Hlen & Hcells & Hstop). split; [lia|]. split.
      * intros [|i] Hi.
        -- by rewrite Nat.add_0_r, Hv.
        -- replace (row + S i) with (S row + i) by lia. apply Hcells. lia.
      * intros Hlt. replace (row + S _) with (S row + length (teamNamesFrom h v (S row) left))
          by lia. apply Hstop. lia.
    + split; [lia|]. split; [intros i Hi; lia|]. intros _. by rewrite Nat.add_0_r.
Qed.

(** X18.  The team names are read from the cells B3, B4, ... of
    [Variables]: each name is the trimmed text of its cell, the list
    ends before the first cell that is empty (falsy) and never holds
    more than the 98 cells down to B100; without the tab there is no
    team. *)
Theorem getTeamNamesFromVariables_reads_column_B (w : World) :
  let teams := getTeamNamesFromVariables h w in
  length teams ≤ 98
  ∧ (getSheetByName "Variables" w = None → teams = [])
  ∧ ∀ v, getSheetByName "Variables" w = Some v →
         (∀ i, i < length teams →
               truthy (getValue v (3 + i) 2) = true
               ∧ teams !! i = Some (trim (toString h (getValue v (3 + i) 2))))
         ∧ (length teams < 98 → truthy (getValue v (3 + length teams) 2) = false).
Proof.
  unfold getTeamNamesFromVariables.
  destruct (getSheetByName "Variables" w) as [v|]; simpl.
  - destruct (teamNamesFrom_spec v 3 98) as (Hlen & Hcells & Hstop).
    split; [done|]. split; [done|]. intros v' [= <-]. by split.
  - split; [lia|]. by split.
Qed.

End TeamNames.

(** ** The next team to sync *)

Section NextTeam.
Context (h : Host).

Lemma nextTeam_Some syncMap todayStr teams team :
  nextTeam syncMap todayStr teams = Some team →
  ∃ before after, teams = (before ++ team :: after)%list
                  ∧ (∀ t', t' ∈ before → syncMap !! t' = Some todayStr)
                  ∧ syncMap !! team ≠ Some todayStr.
Proof.
  unfold nextTeam. induction teams as [|x teams IH]; simpl; [done|].
  case_bool_decide as Hx; simpl.
  - intros (before & after & -> & Hb & Ht)%IH. exists (x :: before), after.
    split; [done|]. split; [|done]. intros t' [->|?]%elem_of_cons; auto.
  - intros [= <-]. exists [], teams. split; [done|]. split; [|done].
    by intros t' ?%elem_of_nil.
Qed.

Lemma nextTeam_None syncMap todayStr teams :
  nextTeam syncMap todayStr teams = None →
  ∀ team, team ∈ teams → syncMap !! team = Some todayStr.
Proof.
  unfold nextTeam. induction teams as [|x teams IH]; simpl.
  - by intros _ team ?%elem_of_nil.
  - case_bool_decide as Hx; simpl; [|done].
    intros Hnone team [->|?]%elem_of_cons; auto.
Qed.

(** X19.  A call of [syncNextTeamForToday] syncs one team at most, the
    first team of the list in [Variables] that the sync state does not
    record as synced today: it changes the tab of that team and the
    diagnostic log only and leaves the sync entries of all other teams
    as they are. When every listed team is recorded as synced today the
    call writes one line to the diagnostic log and nothing else. *)
Theorem syncNextTeamForToday_syncs_one_team (w : World) :
  let teams := getTeamNamesFromVariables h w in
  let todayStr := formatDate h (now h) "yyyy-MM-dd" in
  let w' := syncNextTeamForToday h w in
  match nextTeam (parsedSyncMap w) todayStr teams with
  | Some team =>
      (∃ before after, teams = (before ++ team :: after)%list
                       ∧ (∀ t', t' ∈ before → parsedSyncMap w !! t' = Some todayStr)
                       ∧ parsedSyncMap w !! team ≠ Some todayStr)
      ∧ (∀ name, name ≠ team → name ≠ "DebugLog" →
                 getSheetByName name w' = getSheetByName name w)
      ∧ (∀ other, other ≠ team → parsedSyncMap w' !! other = parsedSyncMap w !! other)
      ∧ outbox w' = outbox w
  | None =>
      (∀ team, team ∈ teams → parsedSyncMap w !! team = Some todayStr)
      ∧ w' = debugLog h "All teams have been synced for today." w
  end.
Proof.
  intros teams todayStr w'. subst w'. unfold syncNextTeamForToday. fold teams todayStr.
  destruct (nextTeam (parsedSyncMap w) todayStr teams) as [team|] eqn:Hnext.
  - split; [by apply nextTeam_Some|].
    set (w0 := debugLog h _ w).
    destruct (syncRosterForTeam_cases h team w0) as ((Ht & _ & _ & Hm) & Hs & _).
    split; [|split; [|done]].
    + intros name H1 H2. rewrite Ht by (rewrite !elem_of_cons, elem_of_nil; tauto).
      subst w0. by rewrite getSheetByName_debugLog.
    + intros other Hother. unfold parsedSyncMap at 1.
      destruct Hs as [->| ->]; [done|]. by rewrite lookup_insert_ne.
  - split; [by apply nextTeam_None|done].
Qed.

Lemma getTeamNamesFromVariables_ext w w' :
  getSheetByName "Variables" w' = getSheetByName "Variables" w →
  getTeamNamesFromVariables h w' = getTeamNamesFromVariables h w.
Proof. unfold getTeamNamesFromVariables. by intros ->. Qed.

(** X20.  After [resetTeamSyncStatus] the sync starts over: with a team
    template that has a column, the next call of [syncNextTeamForToday]
    syncs the first team listed in [Variables], and the sync state then
    records that team alone.  A first team named [__proto__], the one
    name that the script object of the sync state does not store, is
    left aside. *)
Theorem resetTeamSyncStatus_restarts_sync (w : World) (template : Sheet)
    (first : string) (rest : list string) :
  first ≠ "__proto__" →
  getSheetByName TEAM_TEMPLATE_NAME w = Some template →
  getLastColumn template ≠ 0 →
  getTeamNamesFromVariables h w = first :: rest →
  teamSyncMap (syncNextTeamForToday h (resetTeamSyncStatus h w))
  = Some (SyncJson {[first := formatDate h (now h) "yyyy-MM-dd"]}).
Proof.
  intros _ Htpl Hcols Hteams.
  set (w1 := resetTeamSyncStatus h w).
  assert (Hsheets : ∀ name, name ≠ "DebugLog" → getSheetByName name w1 = getSheetByName name w).
  { intros name Hn. subst w1. unfold resetTeamSyncStatus.
    destruct (canUseUi h);
      [change (getSheetByName name (show _ _ ?x)) with (getSheetByName name x)|];
      by rewrite getSheetByName_debugLog. }
  assert (Hmap : parsedSyncMap w1 = ∅).
  { subst w1. unfold resetTeamSyncStatus, parsedSyncMap. by destruct (canUseUi h). }
  unfold syncNextTeamForToday.
  rewrite (getTeamNamesFromVariables_ext w w1) by (by apply Hsheets).
  rewrite Hteams, Hmap. unfold nextTeam. simpl.
  rewrite bool_decide_false by (by rewrite lookup_empty). simpl.
  set (w2 := debugLog h _ w1).
  destruct (syncRosterForTeam_cases h first w2) as (_ & _ & Hsucc).
  rewrite (Hsucc template).
  - by replace (parsedSyncMap w2) with (∅ : gmap string string).
  - subst w2. rewrite getSheetByName_debugLog by done. by rewrite Hsheets.
  - done.
  - replace (parsedSyncMap w2) with (∅ : gmap string string) by done.
    by rewrite lookup_empty.
Qed.

End NextTeam.

(** ** The saved e-mail address *)

Section SavedEmail.
Context (h : Host).

Lemma saveUserEmail_cases (email : string) (w : World) :
  match saveUserEmail_ email w with
  | Ok w' =>
      includesChar "@"%char email = true
      ∧ getSavedUserEmail_ w' = Some (trim email)
      ∧ includesChar "@"%char (trim email) = true
      ∧ sheets w' = sheets w ∧ teamSyncMap w' = teamSyncMap w ∧ outbox w' = outbox w
  | Throw msg => includesChar "@"%char email = false ∧ msg = "Invalid email"
  end.
Proof.
  unfold saveUserEmail_.
  destruct (includesChar "@" email) eqn:Hat; simpl.
  - rewrite bool_decide_false by (intros ->; done). simpl.
    assert (Htrim : includesChar "@"%char (trim email) = true)
      by (by rewrite includesChar_trim).
    repeat split; try done.
    unfold getSavedUserEmail_. simpl.
    rewrite bool_decide_false; [done|]. intros Hempty. by rewrite Hempty in Htrim.
  - by rewrite orb_true_r.
Qed.

(** X21.  [saveUserEmail_] accepts exactly the texts that hold an ['@'].
    What it stores is the text trimmed, which [getSavedUserEmail_] then
    returns; nothing else of the world changes. On any other text it
    throws and stores nothing. *)
Theorem saveUserEmail_then_getSavedUserEmail (email : string) (w : World) :
  match saveUserEmail_ email w with
  | Ok w' =>
      includesChar "@"%char email = true
      ∧ getSavedUserEmail_ w' = Some (trim email)
      ∧ includesChar "@"%char (trim email) = true
      ∧ sheets w' = sheets w ∧ teamSyncMap w' = teamSyncMap w ∧ outbox w' = outbox w
  | Throw msg => includesChar "@"%char email = false ∧ msg = "Invalid email"
  end.
Proof. apply saveUserEmail_cases. Qed.

(** X22.  The dialog that confirms the e-mail stores nothing but an
    address with an ['@']: when it returns an address, that address has
    an ['@'] and is the one saved, trimmed; when it returns without one
    (no UI, or the user cancels) the saved address is the one from
    before; and it never throws. The tabs, the sync state and the mail
    calls are not touched. *)
Theorem promptForEmailSetup_saves_valid_address (answers : list Answer) (w w' : World)
    (r : result (option string)) :
  promptForEmailSetup_ h answers w = Some (r, w') →
  sheets w' = sheets w ∧ teamSyncMap w' = teamSyncMap w ∧ outbox w' = outbox w
  ∧ match r with
    | Ok (Some email) =>
        canUseUi h = true ∧ includesChar "@"%char email = true
        ∧ getSavedUserEmail_ w' = Some (trim email)
    | Ok None => bssUserEmail w' = bssUserEmail w
    | Throw _ => False
    end.
Proof.
  revert w. induction answers as [|a rest IH]; intros w; simpl.
  - destruct (canUseUi h); simpl; [done|]. by intros [= <- <-].
  - destruct (canUseUi h) eqn:Hui; simpl; [|by intros [= <- <-]].
    destruct (ans_ok a); simpl; [|by intros [= <- <-]].
    set (email := if bool_decide (trim (ans_text a) = "") then _ else _).
    destruct (includesChar "@" email) eqn:Hat; simpl.
    + pose proof (saveUserEmail_cases email w) as Hsave.
      destruct (saveUserEmail_ email w) as [w1|msg].
      * intros [= <- <-]. destruct Hsave as (_ & Hget & _ & Hs & Ht & Ho). simpl.
        repeat split; try done.
      * destruct Hsave as [Hno _]. congruence.
    + intros H. apply IH in H as (Hs & Ht & Ho & Hr). simpl in *.
      by repeat split.
Qed.

End SavedEmail.

(** ** The diagnostic log *)

Section DebugLogFacts.

Lemma shiftKeys_lookup {A} (start n : nat) (m : gmap (nat * nat) A) (r c : nat) :
  shiftKeys start n m !! (r, c) = if r <? start then m !! (r, c) else m !! (r + n, c).
Proof.
  unfold shiftKeys. apply option_eq. intros x. split.
  - intros H%elem_of_list_to_map_2.
    apply list_elem_of_omap in H as ([[r0 c0] x0] & Hin & Hf).
    apply elem_of_map_to_list in Hin. simpl in Hf.
    destruct (r0 <? start) eqn:H0.
    + injection Hf as -> -> ->. by rewrite H0.
    + destruct (r0 <? start + n) eqn:H1; [done|]. injection Hf as <- <- <-.
      apply Nat.ltb_ge in H0, H1.
      destruct (r0 - n <? start) eqn:H2; [apply Nat.ltb_lt in H2; lia|].
      by replace (r0 - n + n) with r0 by lia.
  - intros Hx.
    assert (Huniq : ∀ y r0 c0,
               m !! (r0, c0) = Some y →
               (if r0 <? start then Some (r0, c0, y)
                else if r0 <? start + n then None else Some (r0 - n, c0, y)) = Some (r, c, y) →
               (if r <? start then m !! (r, c) else m !! (r + n, c)) = Some y).
    { intros y r0 c0 Hy Hf. destruct (r0 <? start) eqn:H0.
      - injection Hf as -> ->. by rewrite H0.
      - destruct (r0 <? start + n) eqn:H1; [done|]. injection Hf as <- <-.
        apply Nat.ltb_ge in H0, H1.
        destruct (r0 - n <? start) eqn:H2; [apply Nat.ltb_lt in H2; lia|].
        by replace (r0 - n + n) with r0 by lia. }
    apply elem_of_list_to_map_1'.
    + intros y ([[r0 c0] y0] & Hin%elem_of_map_to_list & Hf)%list_elem_of_omap.
      simpl in Hf.
      assert (y0 = y) as ->.
      { destruct (r0 <? start); [by injection Hf|].
        destruct (r0 <? start + n); [done|]. by injection Hf. }
      specialize (Huniq y r0 c0 Hin Hf). congruence.
    + apply list_elem_of_omap.
      destruct (r <? start) eqn:H0.
      * exists (r, c, x). split; [by apply elem_of_map_to_list|]. simpl. by rewrite H0.
      * exists (r + n, c, x). split; [by apply elem_of_map_to_list|]. simpl.
        apply Nat.ltb_ge in H0.
        destruct (r + n <? start) eqn:H1; [apply Nat.ltb_lt in H1; lia|].
        destruct (r + n <? start + n) eqn:H2; [apply Nat.ltb_lt in H2; lia|].
        by replace (r + n - n) with r by lia.
Qed.

Lemma getValue_deleteRows (start n : nat) (s : Sheet) (r c : nat) :
  getValue (deleteRows start n s) r c
  = if r <? start then getValue s r c else getValue s (r + n) c.
Proof.
  unfold getValue, deleteRows. simpl. rewrite shiftKeys_lookup. by destruct (r <? start).
Qed.

(** X23.  Pruning the diagnostic log keeps its first row and its last
    [maxRows] rows: when the log has more than [maxRows + 1] rows, the
    pruned log has [maxRows + 1], row 1 is the old row 1 and every row
    from 2 on is the old row as many rows further down as rows were cut;
    no other tab changes. *)
Theorem pruneDebugLogSheet_keeps_last_rows (maxRows : nat) (w : World) (log : Sheet) :
  getSheetByName "DebugLog" w = Some log →
  1 ≤ maxRows →
  maxRows + 1 < getLastRow log →
  let cut := getLastRow log - maxRows - 1 in
  let w' := pruneDebugLogSheet maxRows w in
  ∃ log', getSheetByName "DebugLog" w' = Some log'
          ∧ getLastRow log' = maxRows + 1
          ∧ (∀ c, getValue log' 1 c = getValue log 1 c)
          ∧ (∀ r c, 2 ≤ r → getValue log' r c = getValue log (r + cut) c)
          ∧ ∀ name, name ≠ "DebugLog" → getSheetByName name w' = getSheetByName name w.
Proof.
  intros Hlog Hmax Hlong cut w'. subst w'. unfold pruneDebugLogSheet. rewrite Hlog.
  destruct (maxRows + 1 <? getLastRow log) eqn:Hlt; [|apply Nat.ltb_ge in Hlt; lia].
  fold cut. exists (deleteRows 2 cut log).
  split; [apply getSheetByName_putSheet_same|].
  assert (Hrows : ∀ r c, 2 ≤ r → getValue (deleteRows 2 cut log) r c = getValue log (r + cut) c).
  { intros r c Hr. rewrite getValue_deleteRows.
    destruct (r <? 2) eqn:H2; [apply Nat.ltb_lt in H2; lia|done]. }
  split; [|split; [|split]].
  - destruct (getLastRow_spec log) as [Hub Hwit].
    destruct Hwit as [H0|[c0 Hc0]]; [lia|].
    destruct (getLastRow_spec (deleteRows 2 cut log)) as [Hub' Hwit'].
    apply Nat.le_antisymm.
    + destruct Hwit' as [->|[c Hc]]; [lia|].
      rewrite getValue_deleteRows in Hc.
      destruct (getLastRow (deleteRows 2 cut log) <? 2) eqn:H2.
      * apply Nat.ltb_lt in H2. lia.
      * apply Hub in Hc. subst cut. lia.
    + apply (Hub' _ c0). rewrite Hrows by lia.
      by replace (maxRows + 1 + cut) with (getLastRow log) by (subst cut; lia).
  - intros c. by rewrite getValue_deleteRows.
  - done.
  - intros name Hname. rewrite getSheetByName_putSheet_other; done.
Qed.

End DebugLogFacts.

(** ** Names of advisory teachers: [normalizeName] *)

Section NameFacts.

Ltac by_cases_on c := destruct c as [[] [] [] [] [] [] [] []]; vm_compute; reflexivity.

Lemma lowerChar_idemp c : lowerChar (lowerChar c) = lowerChar c.
Proof. by_cases_on c. Qed.

Lemma lowerChar_upperChar c : lowerChar (upperChar c) = lowerChar c.
Proof. by_cases_on c. Qed.

Lemma isWhite_lowerChar c : isWhite (lowerChar c) = isWhite c.
Proof. by_cases_on c. Qed.

Lemma isWhite_upperChar c : isWhite (upperChar c) = isWhite c.
Proof. by_cases_on c. Qed.

Lemma comma_lowerChar c :
  bool_decide (","%char = lowerChar c) = bool_decide (","%char = c).
Proof. by_cases_on c. Qed.

Lemma comma_upperChar c :
  bool_decide (","%char = upperChar c) = bool_decide (","%char = c).
Proof. by_cases_on c. Qed.

Lemma toLowerCase_idemp s : toLowerCase (toLowerCase s) = toLowerCase s.
Proof. induction s as [|c s IH]; simpl; [done|]. by rewrite lowerChar_idemp, IH. Qed.

Lemma toLowerCase_capitalizeWords b s :
  toLowerCase (capitalizeWords b s) = toLowerCase s.
Proof.
  revert b. induction s as [|c s IH]; intros b; simpl; [done|]. rewrite IH.
  by destruct (isWordChar c && negb b); rewrite ?lowerChar_upperChar.
Qed.

Lemma includesChar_comma_toLowerCase s :
  includesChar ","%char (toLowerCase s) = includesChar ","%char s.
Proof. induction s as [|c s IH]; simpl; [done|]. by rewrite comma_lowerChar, IH. Qed.

Lemma includesChar_comma_capitalizeWords b s :
  includesChar ","%char (capitalizeWords b s) = includesChar ","%char s.
Proof.
  revert b. induction s as [|c s IH]; intros b; simpl; [done|]. rewrite IH.
  by destruct (isWordChar c && negb b); rewrite ?comma_upperChar.
Qed.

Lemma splitComma_head s :
  ∃ x rest, splitComma s = x :: rest ∧ includesChar ","%char x = false.
Proof.
  induction s as [|c s (x & rest & IH & Hx)]; simpl; [by exists "", []|].
  case_bool_decide as Hc.
  - by exists "", (splitComma s).
  - rewrite IH. exists (String c x), rest. split; [done|]. simpl.
    rewrite Hx. rewrite bool_decide_false; [done|]. congruence.
Qed.

Lemma splitComma_without_comma s : includesChar ","%char s = false → splitComma s = [s].
Proof.
  induction s as [|c s IH]; simpl; [done|].
  intros [Hc Hs]%orb_false_elim. apply bool_decide_eq_false in Hc.
  rewrite bool_decide_false by congruence. by rewrite IH.
Qed.

(** A text that trimming leaves as it is stays so under a change of
    its characters that keeps white space white and the rest not. *)
Lemma trimEnd_fixed_pointwise (s s' : string) :
  Forall2 (λ c c', isWhite c' = isWhite c) (String.list_ascii_of_string s) (String.list_ascii_of_string s') →
  trimEnd s = s → trimEnd s' = s'.
Proof.
  revert s'. induction s as [|c s IH]; intros s' HF Hfix.
  - destruct s'; [done|]. simpl in HF. inversion HF.
  - destruct s' as [|c' s']; simpl in HF; [inversion HF|].
    apply Forall2_cons in HF as [Hc Hs]. simpl in Hfix |- *. rewrite Hc.
    destruct (isWhite c && bool_decide (trimEnd s = "")) eqn:Hw; [done|].
    injection Hfix as Hfix. rewrite (IH s' Hs Hfix).
    destruct (isWhite c) eqn:Hwc; simpl; [|done]. simpl in Hw.
    apply bool_decide_eq_false in Hw. rewrite Hfix in Hw.
    rewrite bool_decide_false; [done|]. intros ->.
    destruct s; [done|]. simpl in Hs. inversion Hs.
Qed.

Lemma toLowerCase_pointwise s :
  Forall2 (λ c c', isWhite c' = isWhite c)
          (String.list_ascii_of_string s) (String.list_ascii_of_string (toLowerCase s)).
Proof.
  induction s as [|c s IH]; simpl; constructor; [apply isWhite_lowerChar|done].
Qed.

Lemma capitalizeWords_pointwise b s :
  Forall2 (λ c c', isWhite c' = isWhite c)
          (String.list_ascii_of_string s) (String.list_ascii_of_string (capitalizeWords b s)).
Proof.
  revert b. induction s as [|c s IH]; intros b; simpl; constructor; [|done].
  by destruct (isWordChar c && negb b); rewrite ?isWhite_upperChar.
Qed.

Lemma trimStart_length (r : string) : String.length (trimStart r) ≤ String.length r.
Proof. induction r as [|e r IH]; simpl; [done|]. destruct (isWhite e); simpl; lia. Qed.

Lemma trimStart_fixed_head (s : string) :
  trimStart s = s → ∀ c r, s = String c r → isWhite c = false.
Proof.
  intros Hfix c r ->. simpl in Hfix. destruct (isWhite c) eqn:Hc; [|done].
  exfalso. pose proof (trimStart_length r) as Hlen.
  rewrite Hfix in Hlen. simpl in Hlen. lia.
Qed.

Lemma trim_fixed_parts s : trim s = s → trimStart s = s ∧ trimEnd s = s.
Proof.
  intros Hfix.
  assert (Hs : trimStart s = s).
  { apply trimStart_fixed. intros c r Hcr. rewrite <- Hfix in Hcr. by eapply trim_head. }
  split; [done|]. unfold trim in Hfix. by rewrite Hs in Hfix.
Qed.

Lemma trim_capitalized_lower (base : string) :
  trim base = base →
  trim (capitalizeWords false (toLowerCase base)) = capitalizeWords false (toLowerCase base).
Proof.
  intros [Hs He]%trim_fixed_parts. unfold trim.
  assert (Hstart : trimStart (capitalizeWords false (toLowerCase base))
                   = capitalizeWords false (toLowerCase base)).
  { apply trimStart_fixed. intros c r Hcr.
    destruct base as [|d base']; [done|]. simpl in Hcr. injection Hcr as <- _.
    assert (Hd : isWhite d = false) by (by eapply trimStart_fixed_head).
    destruct (_ && _); by rewrite ?isWhite_upperChar, isWhite_lowerChar. }
  rewrite Hstart.
  apply (trimEnd_fixed_pointwise (toLowerCase base)); [apply capitalizeWords_pointwise|].
  by apply (trimEnd_fixed_pointwise base); [apply toLowerCase_pointwise|].
Qed.

Lemma normalizeName_cases (name : string) :
  normalizeName name = ""
  ∨ ∃ base, trim base = base ∧ base ≠ "" ∧ includesChar ","%char base = false
            ∧ normalizeName name = capitalizeWords false (toLowerCase base).
Proof.
  unfold normalizeName. case_bool_decide as Hn; [by left|].
  destruct (splitComma_head name) as (x & rest & Hsplit & Hx). rewrite Hsplit. simpl.
  case_bool_decide as Hb; [by left|]. right. exists (trim x).
  split; [apply trim_idemp|]. split; [done|]. split; [|done].
  by rewrite includesChar_trim.
Qed.

(** X25.  [normalizeName] is idempotent: a name that it returned is
    returned as it is. Its result has no comma and no white space around
    it. *)
Theorem normalizeName_idempotent (name : string) :
  normalizeName (normalizeName name) = normalizeName name
  ∧ includesChar ","%char (normalizeName name) = false
  ∧ trim (normalizeName name) = normalizeName name.
Proof.
  destruct (normalizeName_cases name) as [->|(base & Hfix & Hne & Hnc & ->)]; [done|].
  set (r := capitalizeWords false (toLowerCase base)).
  assert (Hcomma : includesChar ","%char r = false).
  { subst r.
    by rewrite includesChar_comma_capitalizeWords, includesChar_comma_toLowerCase. }
  assert (Htrim : trim r = r) by (by apply trim_capitalized_lower).
  assert (Hr : r ≠ "") by (subst r; by destruct base).
  split; [|done].
  unfold normalizeName. rewrite bool_decide_false by done.
  rewrite (splitComma_without_comma r Hcomma). simpl. rewrite Htrim.
  rewrite bool_decide_false by done.
  subst r. by rewrite toLowerCase_capitalizeWords, toLowerCase_idemp.
Qed.

End NameFacts.

(** ** The row chosen for a student in [buildStudentListFromImport] *)

Section TargetRow.
Context (h : Host).

Lemma find_filter_none {A} (p q : A → bool) (l : list A) :
  List.find (λ x, p x && q x) l = None → List.find q (List.filter p l) = None.
Proof.
  induction l as [|x l IH]; simpl; [done|].
  destruct (p x) eqn:Hp; simpl.
  - destruct (q x); [done|]. apply IH.
  - apply IH.
Qed.

Lemma selectTarget_cases (col : gmap string nat) (rows : list (list value)) :
  selectTarget h col rows
  = match List.find (λ row, periodA col row && hasTeam h col row && realTeacher h col row)
                    rows with
    | Some target => Some (target, Perfect)
    | None =>
        match List.find (hasTeam h col) rows with
        | Some target => Some (target, Fallback)
        | None => (λ target, (target, NoTeam)) <$> head rows
        end
    end.
Proof.
  unfold selectTarget.
  destruct (List.find (λ row, periodA col row && hasTeam h col row && realTeacher h col row)
                      rows) eqn:Hfirst; [done|].
  rewrite (find_filter_none (λ row, periodA col row && hasTeam h col row)
                            (realTeacher h col) rows Hfirst).
  destruct (List.find (hasTeam h col) rows); [done|]. by destruct rows.
Qed.

(** X26.  The second of the four attempts never finds a row: it looks
    for a row of period A with a team and a teacher who is no vacancy,
    which is what the first attempt looked for. The choice is therefore
    one of three: the first row of period A with a team and a real
    teacher, else the first row with a team, else the first row; and it
    fails only when the student has no row at all. *)
Theorem selectTarget_three_cases (col : gmap string nat) (rows : list (list value)) :
  selectTarget h col rows
  = match List.find (λ row, periodA col row && hasTeam h col row && realTeacher h col row)
                    rows with
    | Some target => Some (target, Perfect)
    | None =>
        match List.find (hasTeam h col) rows with
        | Some target => Some (target, Fallback)
        | None => (λ target, (target, NoTeam)) <$> head rows
        end
    end.
Proof. apply selectTarget_cases. Qed.

Lemma byStudentID_groups (col : gmap string nat) (data : list (list value))
    (groups : gmap string (list (list value))) :
  byStudentID h col data = Ok groups →
  ∀ studentID rows,
    groups !! studentID = Some rows →
    (studentID ∉ objectPrototypeKeys)
    ∧ rows ≠ []
    ∧ ∀ row, row ∈ rows →
             row ∈ drop 1 data
             ∧ importCell col row "GP" = Some (VStr "1")
             ∧ templ h (importCell col row "StudentID") = studentID.
Proof.
  unfold byStudentID.
  set (step := λ (acc : result (gmap string (list (list value)))) (row : list value),
         match acc with
         | Ok m => groupRow h col m row
         | Throw msg => Throw msg
         end).
  set (P := λ (seen : list (list value)) (m : gmap string (list (list value))),
         ∀ studentID rows,
           m !! studentID = Some rows →
           (studentID ∉ objectPrototypeKeys)
           ∧ rows ≠ []
           ∧ ∀ row, row ∈ rows →
                    row ∈ seen
                    ∧ importCell col row "GP" = Some (VStr "1")
                    ∧ templ h (importCell col row "StudentID") = studentID).
  assert (Hthrow : ∀ l msg, foldl step (Throw msg) l = Throw msg).
  { induction l as [|row l IH]; intros msg; [done|]. simpl. apply IH. }
  assert (Hgen : ∀ l seen m m',
             P seen m → foldl step (Ok m) l = Ok m' → P (seen ++ l)%list m').
  { induction l as [|row l IH]; intros seen m m' Hm; simpl.
    - intros [= <-]. by rewrite app_nil_r.
    - replace (seen ++ row :: l)%list with ((seen ++ [row]) ++ l)%list
        by (by rewrite <- app_assoc).
      unfold groupRow.
      destruct (optStrictEq (importCell col row "GP") (Some (VStr "1"))) eqn:Hgp.
      + assert (Hcell : importCell col row "GP" = Some (VStr "1")).
        { destruct (importCell col row "GP") as [v|]; [|done]. simpl in Hgp.
          by rewrite (strictEq_eq _ _ Hgp). }
        cbv zeta.
        destruct (bool_decide (templ h (importCell col row "StudentID") ∈ objectPrototypeKeys))
          eqn:Hkey.
        { by rewrite Hthrow. }
        apply bool_decide_eq_false in Hkey.
        apply IH. intros studentID rows.
        destruct (decide (templ h (importCell col row "StudentID") = studentID))
          as [Hid|Hid].
        * rewrite Hid, lookup_insert_eq. intros [= <-].
          split; [by rewrite <- Hid|]. split; [by destruct (default _ _)|].
          intros row' [Hin|Hin%list_elem_of_singleton]%elem_of_app.
          -- destruct (m !! studentID) as [old|] eqn:Hold; [|by apply elem_of_nil in Hin].
             destruct (Hm _ _ Hold) as (_ & _ & Hrows).
             destruct (Hrows _ Hin) as (? & ? & ?).
             repeat split; try done. apply elem_of_app. by left.
          -- subst row'. repeat split; try done. apply elem_of_app. right.
             by apply list_elem_of_singleton.
        * rewrite lookup_insert_ne by done. intros Hrows.
          destruct (Hm _ _ Hrows) as (Hk & Hne & Hall). split; [done|]. split; [done|].
          intros row' Hin. destruct (Hall _ Hin) as (? & ? & ?).
          repeat split; try done. apply elem_of_app. by left.
      + apply IH. intros studentID rows Hrows.
        destruct (Hm _ _ Hrows) as (Hk & Hne & Hall). split; [done|]. split; [done|].
        intros row' Hin. destruct (Hall _ Hin) as (? & ? & ?).
        repeat split; try done. apply elem_of_app. by left. }
  intros Hgroups. apply (Hgen (drop 1 data) [] ∅ groups); [|done].
  intros studentID rows. by rewrite lookup_empty.
Qed.

(** The grouping throws as soon as a row with the text ['1'] in [GP]
    has a student id that is a name of [Object.prototype]. *)
Lemma byStudentID_prototype_key (col : gmap string nat) (title row : list value)
    (below : list (list value)) :
  importCell col row "GP" = Some (VStr "1") →
  templ h (importCell col row "StudentID") ∈ objectPrototypeKeys →
  ∃ msg, byStudentID h col (title :: row :: below) = Throw msg.
Proof.
  intros Hgp Hkey. unfold byStudentID. simpl. unfold groupRow at 2.
  rewrite Hgp. simpl. rewrite bool_decide_true by done.
  exists "TypeError: byStudentID[studentID].push is not a function".
  induction below as [|r l IH]; [done|]. simpl. apply IH.
Qed.

(** X27.  Every student of [byStudentID] gets a row: when the grouping
    ends without a fault, a group holds at least one row, its rows are
    rows of the sheet with the text ['1'] in [GP] and the student's id,
    and [selectTarget] returns one of them.  The branch of the script
    that counts skipped students is never taken. *)
Theorem byStudentID_student_has_target (col : gmap string nat) (data : list (list value))
    (groups : gmap string (list (list value))) (studentID : string)
    (rows : list (list value)) :
  byStudentID h col data = Ok groups →
  groups !! studentID = Some rows →
  ∃ target matchType,
    selectTarget h col rows = Some (target, matchType)
    ∧ target ∈ rows
    ∧ target ∈ drop 1 data
    ∧ importCell col target "GP" = Some (VStr "1")
    ∧ templ h (importCell col target "StudentID") = studentID.
Proof.
  intros Hgroups Hlook.
  destruct (byStudentID_groups _ _ _ Hgroups _ _ Hlook) as (_ & Hne & Hrows).
  assert (Hsel : ∃ target matchType,
             selectTarget h col rows = Some (target, matchType) ∧ target ∈ rows).
  { rewrite selectTarget_cases.
    destruct (List.find _ rows) as [t1|] eqn:H1.
    - exists t1, Perfect. split; [done|]. apply find_some in H1 as [Hin _].
      by apply list_elem_of_In.
    - destruct (List.find (hasTeam h col) rows) as [t2|] eqn:H2.
      + exists t2, Fallback. split; [done|]. apply find_some in H2 as [Hin _].
        by apply list_elem_of_In.
      + destruct rows as [|t3 rows']; [done|]. exists t3, NoTeam. split; [done|].
        apply list_elem_of_here. }
  destruct Hsel as (target & matchType & Hsel & Hin).
  exists target, matchType. destruct (Hrows _ Hin) as (? & ? & ?). by repeat split.
Qed.

End TargetRow.

(** ** The import of the needed student columns *)

Section ImportFacts.
Context (h : Host).

Lemma writeRow_snoc r vals v s :
  writeRow r (vals ++ [v]) s = setValue r (S (length vals)) v (writeRow r vals s).
Proof.
  unfold writeRow. rewrite imap_app, foldl_app. simpl. by rewrite Nat.add_0_r.
Qed.

(** The cells of a sheet after a row of values was written. *)
Lemma getValue_writeRow r vals s r' c' :
  getValue (writeRow r vals s) r' c'
  = if decide (r' = r ∧ 1 ≤ c' ≤ length vals)
    then default (VStr "") (vals !! (c' - 1))
    else getValue s r' c'.
Proof.
  induction vals as [|v vals IH] using rev_ind.
  - unfold writeRow. simpl. case_decide; [lia|done].
  - rewrite writeRow_snoc, getValue_setValue, IH, length_app. simpl.
    destruct (decide ((r, S (length vals)) = (r', c'))) as [[= <- <-]|Hne].
    + rewrite decide_True by lia. simpl. rewrite Nat.sub_0_r.
      by rewrite lookup_app_r, Nat.sub_diag.
    + destruct (decide (r' = r ∧ 1 ≤ c' ≤ length vals)) as [[-> Hc]|Hout].
      * rewrite decide_True by lia. by rewrite lookup_app_l by lia.
      * rewrite decide_False; [done|]. intros [-> Hc]. apply Hout. split; [done|].
        assert (c' ≠ S (length vals)) by congruence. lia.
Qed.

Lemma writeRows_snoc r rows row s :
  writeRows r (rows ++ [row]) s = writeRow (r + length rows) row (writeRows r rows s).
Proof.
  unfold writeRows. rewrite imap_app, foldl_app. simpl. by rewrite Nat.add_0_r.
Qed.

(** The cells of a sheet after a block of rows of one width was
    written from row [r0] on. *)
Lemma getValue_writeRows r0 rows width s r c :
  (∀ row, row ∈ rows → length row = width) →
  getValue (writeRows r0 rows s) r c
  = if decide (r0 ≤ r < r0 + length rows ∧ 1 ≤ c ≤ width)
    then default (VStr "") (rows !! (r - r0) ≫= (.!! (c - 1)))
    else getValue s r c.
Proof.
  induction rows as [|row rows IH] using rev_ind; intros Hwidth.
  - unfold writeRows. simpl. case_decide; [lia|done].
  - rewrite writeRows_snoc, getValue_writeRow, length_app. simpl.
    rewrite (Hwidth row) by (apply elem_of_app; right; apply list_elem_of_here).
    rewrite IH by (intros row' Hin; apply Hwidth, elem_of_app; by left).
    destruct (decide (r = r0 + length rows ∧ 1 ≤ c ≤ width)) as [[-> Hc]|Hout].
    + rewrite decide_True by lia.
      replace (r0 + length rows - r0) with (length rows) by lia.
      by rewrite lookup_app_r, Nat.sub_diag.
    + destruct (decide (r0 ≤ r < r0 + length rows ∧ 1 ≤ c ≤ width)) as [[Hr Hc]|Hout'].
      * rewrite decide_True by lia. by rewrite lookup_app_l by lia.
      * rewrite decide_False; [done|]. intros [Hr Hc]. apply Hout'. split; [|done].
        assert (r ≠ r0 + length rows) by (intros ->; apply Hout; by split). lia.
Qed.

Lemma colIndicesOf_Ok headers needed idxs :
  colIndicesOf h headers needed = Ok idxs →
  Forall2 (λ hd idx, eventCol h headers hd = Some idx) needed idxs.
Proof.
  revert idxs. induction needed as [|hd needed IH]; intros idxs; simpl.
  - intros [= <-]. constructor.
  - destruct (eventCol h headers hd) as [i|] eqn:Hi; [|done].
    destruct (colIndicesOf h headers needed) as [rest|]; [|done].
    intros [= <-]. constructor; [done|]. by apply IH.
Qed.

Lemma colIndicesOf_Throw headers needed hd :
  hd ∈ needed → eventCol h headers hd = None →
  ∃ msg, colIndicesOf h headers needed = Throw msg.
Proof.
  induction needed as [|x needed IH]; [by intros ?%elem_of_nil|]. simpl.
  intros [->|Hin]%elem_of_cons Hnone.
  - rewrite Hnone. eauto.
  - destruct (eventCol h headers x); [|eauto].
    destruct (IH Hin Hnone) as [msg ->]. eauto.
Qed.

Lemma getValue_clearContents s r c : getValue (clearContents s) r c = VStr "".
Proof. unfold getValue, clearContents. simpl. by rewrite lookup_empty. Qed.

(** X28.  An import that misses a needed title in the source throws
    after the tab [ImportList] was cleared: the tab is left without any
    content, and no other tab changes. *)
Theorem importNeededStudentColumns_missing_title (src : Sheet) (w : World) (hd : string) :
  hd ∈ neededHeaders →
  eventCol h (rowValues src 1 (dataCols src)) hd = None →
  let out := importNeededStudentColumns h (Ok (Some src)) w in
  (∃ msg, out.2 = Some msg)
  ∧ (∃ dest, getSheetByName "ImportList" out.1 = Some dest)
  ∧ (∀ r c, cellValue out.1 "ImportList" r c = VStr "")
  ∧ ∀ name, name ≠ "ImportList" → getSheetByName name out.1 = getSheetByName name w.
Proof.
  intros Hin Hnone out. subst out. unfold importNeededStudentColumns.
  destruct (colIndicesOf_Throw _ _ _ Hin Hnone) as [msg ->]. simpl.
  split; [eauto|]. split; [|split].
  - rewrite getSheetByName_putSheet_same. eauto.
  - intros r c. unfold cellValue. rewrite getSheetByName_putSheet_same.
    apply getValue_clearContents.
  - intros name Hname. by apply getSheetByName_putSheet_other.
Qed.

(** X29.  An import that finds every needed title replaces the content
    of [ImportList] by the needed columns of the source: row 1 holds the
    needed titles in their fixed order, every data row of the source is
    copied to the same row, each cell from the last source column that
    has the title, and nothing else is in the tab. No other tab changes. *)
Theorem importNeededStudentColumns_copies_columns (src : Sheet) (w : World)
    (idxs : list nat) :
  colIndicesOf h (rowValues src 1 (dataCols src)) neededHeaders = Ok idxs →
  let out := importNeededStudentColumns h (Ok (Some src)) w in
  out.2 = None
  ∧ Forall2 (λ hd idx, eventCol h (rowValues src 1 (dataCols src)) hd = Some idx)
            neededHeaders idxs
  ∧ (∀ j hd, neededHeaders !! j = Some hd → cellValue out.1 "ImportList" 1 (S j) = VStr hd)
  ∧ (∀ r j idx, 2 ≤ r ≤ dataRows src → idxs !! j = Some idx →
                cellValue out.1 "ImportList" r (S j) = getValue src r (S idx))
  ∧ (∀ r c, dataRows src < r ∨ length neededHeaders < c →
            cellValue out.1 "ImportList" r c = VStr "")
  ∧ ∀ name, name ≠ "ImportList" → getSheetByName name out.1 = getSheetByName name w.
Proof.
  intros Hidx out. subst out. unfold importNeededStudentColumns. rewrite Hidx. simpl.
  pose proof (colIndicesOf_Ok _ _ _ Hidx) as Hall.
  pose proof (Forall2_length _ _ _ Hall) as Hlen.
  split; [done|]. split; [done|].
  set (dest := clearContents _).
  assert (Hwidth : ∀ row, row ∈ importedRows src idxs → length row = length neededHeaders).
  { unfold importedRows. intros row [->|Hin]%elem_of_cons.
    - by rewrite length_fmap.
    - apply list_elem_of_fmap in Hin as (r & -> & _). by rewrite length_fmap. }
  assert (Hrows : length (importedRows src idxs) = dataRows src).
  { unfold importedRows. simpl. rewrite length_fmap, length_seq. unfold dataRows. lia. }
  assert (Hcell : ∀ r c, cellValue
                           (putSheet "ImportList" (writeRows 1 (importedRows src idxs) dest)
                              (putSheet "ImportList" dest w)) "ImportList" r c
                         = if decide (1 ≤ r < 1 + dataRows src ∧ 1 ≤ c ≤ length neededHeaders)
                           then default (VStr "")
                                  (importedRows src idxs !! (r - 1) ≫= (.!! (c - 1)))
                           else VStr "").
  { intros r c. unfold cellValue. rewrite getSheetByName_putSheet_same.
    rewrite (getValue_writeRows 1 _ (length neededHeaders)) by done. rewrite Hrows.
    case_decide; [done|]. apply getValue_clearContents. }
  split; [|split; [|split]].
  - intros j hd Hj. pose proof (lookup_lt_Some _ _ _ Hj) as Hlt.
    rewrite Hcell, decide_True by (unfold dataRows; lia).
    replace (importedRows src idxs !! (1 - 1)) with (Some (VStr <$> neededHeaders)) by done.
    replace (S j - 1) with j by lia. cbn [mbind option_bind].
    by rewrite list_lookup_fmap, Hj.
  - intros r j idx Hr Hj. pose proof (lookup_lt_Some _ _ _ Hj) as Hlt.
    rewrite Hcell, decide_True by lia.
    replace (S j - 1) with j by lia.
    destruct r as [|[|r]]; [lia|lia|].
    replace (importedRows src idxs !! (S (S r) - 1))
      with (((λ r, (λ idx, getValue src r (S idx)) <$> idxs) <$> seq 2 (dataRows src - 1)) !! r)
      by (unfold importedRows; by rewrite Nat.sub_succ, Nat.sub_0_r).
    rewrite list_lookup_fmap, lookup_seq_lt by lia. cbn [fmap option_fmap option_map mbind option_bind].
    by rewrite list_lookup_fmap, Hj.
  - intros r c Hout. rewrite Hcell, decide_False; [done|].
    change (length neededHeaders) with 14 in *. lia.
  - intros name Hname. by rewrite !getSheetByName_putSheet_other.
Qed.

End ImportFacts.

(** ** What a roster sync writes *)

Section Rebuild.
Context (h : Host).

Lemma getSheetByName_pruneDebugLogSheet maxRows name w :
  name ≠ "DebugLog" →
  getSheetByName name (pruneDebugLogSheet maxRows w) = getSheetByName name w.
Proof.
  intros Hname. unfold pruneDebugLogSheet.
  destruct (getSheetByName "DebugLog" w); [|done].
  destruct (_ <? _); [|done]. by rewrite getSheetByName_putSheet_other.
Qed.

(** The tab of the team after a sync that rebuilds it. *)
Lemma syncRosterForTeam_rebuilt (teamName : string) (w : World) (template : Sheet) :
  getSheetByName TEAM_TEMPLATE_NAME w = Some template →
  getLastColumn template ≠ 0 →
  parsedSyncMap w !! teamName ≠ Some (formatDate h (now h) "yyyy-MM-dd") →
  teamName ≠ "DebugLog" →
  let width := getLastColumn template in
  let students := default emptySheet (getSheetByName "StudentList" w) in
  let infractionMap := buildInfractionMap h (getSheetByName "EventLog" w) in
  let old := default template (getSheetByName teamName w) in
  getSheetByName teamName (syncRosterForTeam h teamName w)
  = Some (setValue 1 4 (VStr teamName)
            (writeRows (FIRST_STUDENT_ROW + 1)
               (rosterRow h template students infractionMap width
                  <$> teamStudents h students teamName)
               (writeRows 1 [rowValues template 1 width; rowValues template 2 width;
                             rowValues template 3 width]
                  (mkSheet ∅ (notes old))))).
Proof.
  intros Htpl Hcols Hnot Hname width students infractionMap old.
  unfold syncRosterForTeam.
  pose proof (loadSyncMap_parsed h teamName w) as Hmap.
  assert (Hsame : ∀ name, name ≠ "DebugLog" →
                          getSheetByName name (loadSyncMap h teamName w).2
                          = getSheetByName name w).
  { intros name Hn. unfold loadSyncMap. destruct (teamSyncMap w) as [[m|raw]|]; try done.
    destruct (bool_decide (raw = "")); simpl; [done|]. by rewrite getSheetByName_debugLog. }
  destruct (loadSyncMap h teamName w) as [syncMap w0]. simpl in Hmap, Hsame. subst syncMap.
  rewrite bool_decide_false by done.
  unfold t. rewrite !getSheetByName_debugLog, Hsame, Htpl by done.
  unfold rebuildView, tElapsed. cbv zeta. rewrite bool_decide_false by done.
  rewrite !getSheetByName_debugLog, !Hsame by done.
  fold width students infractionMap.
  destruct (getSheetByName teamName w) as [sheet|] eqn:Hsheet; simpl in old; subst old;
    rewrite getSheetByName_pruneDebugLogSheet, !getSheetByName_debugLog by done;
    change (getSheetByName teamName (setTeamSyncMap ?p ?x)) with (getSheetByName teamName x);
    by rewrite getSheetByName_putSheet_same.
Qed.

Lemma foldl_invariant_elem {A B} (P : B → Prop) (f : B → A → B) (l : list A) (b : B) :
  (∀ b x, x ∈ l → P b → P (f b x)) → P b → P (foldl f b l).
Proof.
  revert b. induction l as [|x l IH]; intros b Hf Hb; simpl; [done|].
  apply IH.
  - intros b' x' Hin. apply Hf. by apply list_elem_of_further.
  - apply Hf; [apply list_elem_of_here|done].
Qed.

Lemma setAdd_nonempty v set : setAdd v set ≠ [].
Proof.
  unfold setAdd. case_bool_decide as Hex.
  - intros ->. by apply Exists_nil in Hex.
  - by destruct set.
Qed.

(** Every key of [infractionMap] is the key of a row of the ledger,
    and holds at least one mark. *)
Lemma buildInfractionMap_lookup (ev : Sheet) (key : string) (marks : list value) :
  buildInfractionMap h (Some ev) !! key = Some marks →
  marks ≠ []
  ∧ ∃ r, 2 ≤ r ≤ dataRows ev
         ∧ key = ledgerKey h (eventField ev r "DSID") (eventField ev r "Infraction")
                   (formatWeekDate h (eventField ev r "Week")).
Proof.
  unfold buildInfractionMap. revert key marks.
  apply (foldl_invariant_elem
           (λ m : gmap string (list value),
              ∀ key marks, m !! key = Some marks →
                marks ≠ []
                ∧ ∃ r, 2 ≤ r ≤ dataRows ev
                       ∧ key = ledgerKey h (eventField ev r "DSID")
                                 (eventField ev r "Infraction")
                                 (formatWeekDate h (eventField ev r "Week")))).
  - intros m r Hr%elem_of_seq Hm key marks.
    destruct (_ && _); [|apply Hm].
    cbv zeta. set (k := ledgerKey h _ _ _).
    destruct (decide (k = key)) as [<-|Hne].
    + rewrite lookup_insert_eq. intros [= <-]. split; [apply setAdd_nonempty|].
      exists r. split; [unfold dataRows in *; lia|done].
    + rewrite lookup_insert_ne by done. apply Hm.
  - intros key marks. by rewrite lookup_empty.
Qed.

(** X16.  A sync rebuilds the tab of the team from the template and the
    student list.  For a team other than [DebugLog] that the sync state,
    absent or an object, does not record as synced today: the three
    header rows are those of the template, with the team name in D1;
    the notes of the tab stay where they were; and nothing is left below
    the rows of the team's students or to the right of the template's
    columns. *)
Theorem syncRosterForTeam_rebuilds_tab (teamName : string) (w : World) (template : Sheet) :
  getSheetByName TEAM_TEMPLATE_NAME w = Some template →
  getLastColumn template ≠ 0 →
  syncStateIsObject w = true →
  parsedSyncMap w !! teamName ≠ Some (formatDate h (now h) "yyyy-MM-dd") →
  teamName ≠ "DebugLog" →
  let width := getLastColumn template in
  let students := default emptySheet (getSheetByName "StudentList" w) in
  let roster := teamStudents h students teamName in
  ∃ tab, getSheetByName teamName (syncRosterForTeam h teamName w) = Some tab
         ∧ notes tab = notes (default template (getSheetByName teamName w))
         ∧ getValue tab 1 4 = VStr teamName
         ∧ (∀ r c, 1 ≤ r ≤ 3 → 1 ≤ c ≤ width → (r, c) ≠ (1, 4) →
                   getValue tab r c = getValue template r c)
         ∧ (∀ r c, FIRST_STUDENT_ROW + length roster < r ∨ width < c → (r, c) ≠ (1, 4) →
                   getValue tab r c = VStr "").
Proof.
  intros Htpl Hcols _ Hnot Hname width students roster.
  rewrite (syncRosterForTeam_rebuilt teamName w template) by done.
  fold width students roster. eexists. split; [done|].
  set (infractionMap := buildInfractionMap h _).
  set (old := default template _).
  assert (Hw1 : ∀ row, row ∈ [rowValues template 1 width; rowValues template 2 width;
                              rowValues template 3 width] → length row = width).
  { intros row Hin. rewrite !elem_of_cons, elem_of_nil in Hin.
    destruct Hin as [->|[->|[->|[]]]]; unfold rowValues; by rewrite length_map, length_seq. }
  assert (Hw2 : ∀ row, row ∈ rosterRow h template students infractionMap width <$> roster →
                       length row = width).
  { intros row (sr & -> & _)%list_elem_of_fmap. unfold rosterRow.
    by rewrite length_fmap, length_seq. }
  assert (Hcell : ∀ r c, (r, c) ≠ (1, 4) →
             getValue (setValue 1 4 (VStr teamName)
                         (writeRows (FIRST_STUDENT_ROW + 1)
                            (rosterRow h template students infractionMap width <$> roster)
                            (writeRows 1 [rowValues template 1 width; rowValues template 2 width;
                                          rowValues template 3 width]
                               (mkSheet ∅ (notes old))))) r c
             = if decide (FIRST_STUDENT_ROW + 1 ≤ r < FIRST_STUDENT_ROW + 1 + length roster
                          ∧ 1 ≤ c ≤ width)
               then default (VStr "")
                      ((rosterRow h template students infractionMap width <$> roster)
                         !! (r - (FIRST_STUDENT_ROW + 1)) ≫= (.!! (c - 1)))
               else if decide (1 ≤ r < 1 + 3 ∧ 1 ≤ c ≤ width)
                    then default (VStr "")
                           ([rowValues template 1 width; rowValues template 2 width;
                             rowValues template 3 width] !! (r - 1) ≫= (.!! (c - 1)))
                    else VStr "").
  { intros r c Hrc. rewrite getValue_setValue, decide_False by congruence.
    rewrite (getValue_writeRows _ _ width) by done. rewrite length_fmap.
    case_decide; [done|].
    rewrite (getValue_writeRows _ _ width) by done. simpl length.
    case_decide; [done|]. unfold getValue. simpl. by rewrite lookup_empty. }
  split; [|split; [|split]].
  - simpl. by rewrite notes_writeRows, notes_writeRows.
  - rewrite getValue_setValue. by rewrite decide_True.
  - intros r c Hr Hc Hrc. rewrite Hcell by done.
    rewrite decide_False by (unfold FIRST_STUDENT_ROW; lia).
    rewrite decide_True by lia.
    assert (Hrow : ∀ k, 1 ≤ k → default (VStr "") (rowValues template k width !! (c - 1))
                                = getValue template k c).
    { intros k Hk. unfold rowValues.
      rewrite list_lookup_fmap, lookup_seq_lt by lia. simpl.
      by replace (S (c - 1)) with c by lia. }
    destruct r as [|[|[|[|r]]]]; try lia; simpl; by rewrite Hrow by lia.
  - intros r c Hout Hrc. rewrite Hcell by done.
    rewrite decide_False by (unfold FIRST_STUDENT_ROW in *; lia).
    rewrite decide_False; [done|]. unfold FIRST_STUDENT_ROW in *. lia.
Qed.

Lemma elem_of_setAdd (x v : value) (set : list value) :
  x ∈ setAdd v set ↔ x ∈ set ∨ x = v.
Proof.
  unfold setAdd. case_bool_decide as Hex.
  - split; [by left|]. intros [Hin| ->]; [done|].
    apply Exists_exists in Hex as (y & Hy & Heq). by rewrite <- (strictEq_eq _ _ Heq).
  - by rewrite elem_of_app, list_elem_of_singleton.
Qed.

(** The values of [infractionMap[key]] are the source values of the
    rows entered under [key]. *)
Lemma elem_of_loggedMarks (ev : Sheet) (key : string) (v : value) :
  v ∈ loggedMarks h (Some ev) key
  ↔ ∃ r, 2 ≤ r ≤ dataRows ev ∧ loggedUnder h ev key r = true ∧ v = sourceValueOf ev r.
Proof.
  unfold loggedMarks.
  assert (Hgen : ∀ l init,
             v ∈ foldl (λ set r, if loggedUnder h ev key r
                                 then setAdd (sourceValueOf ev r) set else set) init l
             ↔ v ∈ init ∨ ∃ r, r ∈ l ∧ loggedUnder h ev key r = true
                               ∧ v = sourceValueOf ev r).
  { induction l as [|r l IH]; intros init; simpl.
    - split; [by left|]. intros [Hin|(r & Hr & _)]; [done|]. by apply elem_of_nil in Hr.
    - rewrite IH. destruct (loggedUnder h ev key r) eqn:Hlog.
      + rewrite elem_of_setAdd. split.
        * intros [[Hin| ->]|(r' & Hr' & Hl & ->)].
          -- by left.
          -- right. exists r. split; [apply list_elem_of_here|done].
          -- right. exists r'. split; [by apply list_elem_of_further|done].
        * intros [Hin|(r' & Hr' & Hl & ->)]; [by left; left|].
          apply elem_of_cons in Hr' as [->|Hr']; [by left; right|].
          right. by exists r'.
      + split.
        * intros [Hin|(r' & Hr' & Hl & ->)]; [by left|].
          right. exists r'. split; [by apply list_elem_of_further|done].
        * intros [Hin|(r' & Hr' & Hl & ->)]; [by left|].
          apply elem_of_cons in Hr' as [->|Hr']; [congruence|].
          right. by exists r'. }
  rewrite Hgen. split.
  - intros [Hin|(r & Hr%elem_of_seq & Hl & ->)]; [by apply elem_of_nil in Hin|].
    exists r. split; [unfold dataRows in *; lia|done].
  - intros (r & Hr & Hl & ->). right. exists r.
    split; [apply elem_of_seq; unfold dataRows in *; lia|done].
Qed.

(** The map that the loop builds, read at one key. *)
Lemma buildInfractionMap_marks (events : option Sheet) (key : string) :
  default [] (buildInfractionMap h events !! key) = loggedMarks h events key.
Proof.
  destruct events as [ev|]; [|unfold buildInfractionMap; by rewrite lookup_empty].
  unfold buildInfractionMap, loggedMarks.
  set (stepKey := λ (set : list value) (r : nat),
         if loggedUnder h ev key r then setAdd (sourceValueOf ev r) set else set).
  assert (Hgen : ∀ l (m : gmap string (list value)),
             default []
               (foldl (λ m r,
                         let dsid := eventField ev r "DSID" in
                         let inf := eventField ev r "Infraction" in
                         let week := eventField ev r "Week" in
                         if from_option truthy false dsid && from_option truthy false inf
                            && from_option truthy false week
                         then
                           let key := ledgerKey h dsid inf (formatWeekDate h week) in
                           let source := match eventField ev r "Source Value" with
                                         | Some v => if truthy v then v else VStr "X"
                                         | None => VStr "X"
                                         end in
                           <[key := setAdd source (default [] (m !! key))]> m
                         else m) m l !! key)
             = foldl stepKey (default [] (m !! key)) l).
  { induction l as [|r l IH]; intros m; simpl; [done|].
    rewrite IH. f_equal. unfold stepKey, loggedUnder, sourceValueOf.
    destruct (_ && _ && _); simpl; [|done].
    case_bool_decide as Hkey.
    - by rewrite Hkey, lookup_insert_eq.
    - by rewrite lookup_insert_ne. }
  by rewrite Hgen, lookup_empty.
Qed.

(** X17.  A sync takes the marks of a rebuilt tab from the ledger and
    renders every logged mark.  For a team other than [DebugLog] that
    the sync state, absent or an object, does not record as synced
    today, in a rank column for which the template names no student
    field (its row-3 cell is empty), the cell of a student holds the set
    that the sync collects under the key of that cell (student, rank
    label, week), joined by ['; ']: the source values, ['X'] for an
    empty one, of the rows of [EventLog] entered under that key, in the
    order in which they are first added.  The cell is empty when the
    ledger has no such row.  So a logged mark is shown, and a mark that
    was typed into the tab and not logged before the sync is gone after
    it. *)
Theorem syncRosterForTeam_marks_come_from_ledger (teamName : string) (w : World)
    (template : Sheet) (i sr c : nat) :
  getSheetByName TEAM_TEMPLATE_NAME w = Some template →
  getLastColumn template ≠ 0 →
  syncStateIsObject w = true →
  parsedSyncMap w !! teamName ≠ Some (formatDate h (now h) "yyyy-MM-dd") →
  teamName ≠ "DebugLog" →
  let width := getLastColumn template in
  let students := default emptySheet (getSheetByName "StudentList" w) in
  let dsid := (λ c, getValue students sr (S c))
                <$> findIndex (λ v, strictEq v (VStr "DSID"))
                              (rowValues students 1 (dataCols students)) in
  let key := ledgerKey h dsid (Some (VStr (headerCell h template 2 c)))
               (formatWeekDate h (Some (VStr (getWeekForInfractionCol h template width c)))) in
  teamStudents h students teamName !! i = Some sr →
  c < width →
  includes (toLowerCase (headerCell h template 2 c)) INFRACTION_SEQUENCE = true →
  truthy (getValue template 3 (S c)) = false →
  let ledger := getSheetByName "EventLog" w in
  let cell := cellValue (syncRosterForTeam h teamName w) teamName (FIRST_STUDENT_ROW + 1 + i) (S c) in
  cell = VStr (joinWith "; " (toString h <$> loggedMarks h ledger key))
  ∧ (∀ v, v ∈ loggedMarks h ledger key
          ↔ ∃ ev r, ledger = Some ev ∧ 2 ≤ r ≤ dataRows ev
                    ∧ loggedUnder h ev key r = true ∧ v = sourceValueOf ev r)
  ∧ (loggedMarks h ledger key = [] → cell = VStr "").
Proof.
  intros Htpl Hcols _ Hnot Hname width students dsid key Hi Hc Hrank Hfield ledger cell.
  assert (Hcell : cell = VStr (joinWith "; " (toString h <$> loggedMarks h ledger key))).
  { subst cell. unfold cellValue.
    rewrite (syncRosterForTeam_rebuilt teamName w template) by done.
    fold width students ledger.
    rewrite getValue_setValue, decide_False by (unfold FIRST_STUDENT_ROW; intros [= ? ?]; lia).
    rewrite (getValue_writeRows _ _ width).
    2: { intros row (sr' & -> & _)%list_elem_of_fmap. unfold rosterRow.
         by rewrite length_fmap, length_seq. }
    pose proof (lookup_lt_Some _ _ _ Hi) as Hlt.
    rewrite length_fmap, decide_True by lia.
    replace (FIRST_STUDENT_ROW + 1 + i - (FIRST_STUDENT_ROW + 1)) with i by lia.
    rewrite list_lookup_fmap, Hi. cbn [fmap option_fmap option_map mbind option_bind].
    replace (S c - 1) with c by lia.
    unfold rosterRow. rewrite list_lookup_fmap, lookup_seq_lt by done.
    cbn [fmap option_fmap option_map default Nat.add]. cbv zeta.
    rewrite Hrank, Hfield. fold dsid. fold key.
    rewrite <- (buildInfractionMap_marks ledger key).
    destruct (buildInfractionMap h ledger !! key) as [marks|];
      cbn [mbind option_bind default]; [|done].
    case_bool_decide as Hempty; [by subst marks|done]. }
  split; [done|]. split.
  - intros v. destruct ledger as [ev|] eqn:Hledger.
    + rewrite elem_of_loggedMarks. split.
      * intros (r & Hr & Hl & ->). by exists ev, r.
      * intros (ev' & r & [= <-] & Hr & Hl & ->). by exists r.
    + simpl. split; [by intros ?%elem_of_nil|]. by intros (ev & r & [=] & _).
  - intros Hnone. by rewrite Hcell, Hnone.
Qed.

End Rebuild.

(** ** Merge tokens *)

Section TokenFacts.
Context (h : Host).

Lemma replaceFrom_absent (fuel : nat) (s search replacement : string) :
  includesStr search s = false → replaceFrom fuel s search replacement = s.
Proof.
  revert s. induction fuel as [|fuel IH]; intros s; simpl; [done|].
  destruct s as [|c r]; [done|]. simpl.
  intros [Hpre Hrest]%orb_false_elim.
  change (String.prefix search (String c r)) with
    (match search with
     | EmptyString => true
     | String a s1' =>
         if Ascii.ascii_dec a c then String.prefix s1' r else false
     end) in Hpre |- *.
  rewrite Hpre. by rewrite IH.
Qed.

Lemma replaceAllTokens_absent (source search replacement : string) :
  includesStr search source = false →
  replaceAllTokens source search replacement = source.
Proof.
  intros Habsent. unfold replaceAllTokens. case_bool_decide; [done|].
  by apply replaceFrom_absent.
Qed.

(** X30.  Merge keys whose tokens do not occur change nothing: when
    neither the subject nor the body of a template holds the token
    [{{key}}] of any of the keys, the expanded subject and body are the
    subject and the body. *)
Theorem expand_without_tokens (keys : list string) (fields : list (string * option value))
    (subject body : string) :
  (∀ k, k ∈ keys →
        includesStr ("{{" +:+ k +:+ "}}") subject = false
        ∧ includesStr ("{{" +:+ k +:+ "}}") body = false) →
  expand h keys fields subject body = (subject, body).
Proof.
  unfold expand. induction keys as [|k keys IH]; intros Hkeys; simpl; [done|].
  destruct (Hkeys k (list_elem_of_here _ _)) as [Hs Hb].
  rewrite !replaceAllTokens_absent by done.
  apply IH. intros k' Hin. apply Hkeys. by apply list_elem_of_further.
Qed.

End TokenFacts.

(** ** Lines of the diagnostic log *)

Section LogLines.
Context (h : Host).

(** X24.  [debugLog] adds one row below the last row of the tab
    [DebugLog], which it creates when it is missing: the row holds the
    time and the message, the rows above and the notes are as they were,
    and no other tab changes. *)
Theorem debugLog_appends_one_row (msg : string) (w : World) :
  let log := default emptySheet (getSheetByName "DebugLog" w) in
  let line := S (getLastRow log) in
  ∃ log', getSheetByName "DebugLog" (debugLog h msg w) = Some log'
          ∧ getLastRow log' = line
          ∧ getValue log' line 1 = VDate (now h)
          ∧ getValue log' line 2 = VStr msg
          ∧ (∀ r c, r ≠ line → getValue log' r c = getValue log r c)
          ∧ notes log' = notes log
          ∧ ∀ name, name ≠ "DebugLog" →
                    getSheetByName name (debugLog h msg w) = getSheetByName name w.
Proof.
  intros log line. unfold debugLog. fold log.
  exists (appendRow [VDate (now h); VStr msg] log).
  split; [apply getSheetByName_putSheet_same|].
  assert (Hcell : ∀ r c, getValue (appendRow [VDate (now h); VStr msg] log) r c
                         = if decide (r = line ∧ 1 ≤ c ≤ 2)
                           then default (VStr "") ([VDate (now h); VStr msg] !! (c - 1))
                           else getValue log r c).
  { intros r c. unfold appendRow. by rewrite getValue_writeRow. }
  split; [|split; [|split; [|split; [|split]]]].
  - destruct (getLastRow_spec log) as [Hub Hwit].
    destruct (getLastRow_spec (appendRow [VDate (now h); VStr msg] log)) as [Hub' Hwit'].
    apply Nat.le_antisymm.
    + destruct Hwit' as [->|[c Hc]]; [lia|]. rewrite Hcell in Hc.
      case_decide as Hd; [lia|]. apply Hub in Hc. lia.
    + apply (Hub' _ 1). rewrite Hcell, decide_True by lia. done.
  - rewrite Hcell, decide_True by lia. done.
  - rewrite Hcell, decide_True by lia. done.
  - intros r c Hr. rewrite Hcell, decide_False; [done|]. tauto.
  - apply notes_appendRow.
  - intros name Hname. by apply getSheetByName_putSheet_other.
Qed.

End LogLines.

(** ** No entry without a confirmed e-mail *)

Section EmailRequired.
Context (h : Host).


End EmailRequired.

(** * The further properties at sample data *)

Import SampleAdmin.

(** X1 at a sample: a cell that carried the note of another author. *)
Lemma stamped_note_names_its_author_witness :
  enteredByOfNote (stampNote (host true true) "t@x.org" "Entered by: a@x.org | 8/29/2025")
  = "t@x.org".
Proof.
  apply (stamped_note_names_its_author (host true true) "t@x.org"); by_computation.
Defined.

(** X2 at a sample: the week of Sep 1, 2025. *)
Lemma normalizeWeekStr_week_of_witness :
  normalizeWeekStr (host true true) (Some (VStr "Week of Sep 1, 2025")) = "Sep 1, 2025"
  ∧ normalizeWeekStr (host true true) (Some (VStr "Sep 1, 2025")) = "Sep 1, 2025".
Proof.
  apply (normalizeWeekStr_week_of (host true true) "Sep 1, 2025"); by_computation.
Defined.

(** X3 at a sample: the recipients of the team Falcons. *)
Lemma getAlertRecipients_distinct_witness :
  NoDup ["pr@x.org"; "lead@x.org"].
Proof.
  destruct (getAlertRecipients_distinct (host true true) variables (Some (VStr "Falcons"))
              alertWorld ["pr@x.org"; "lead@x.org"]) as (rc & _ & Hnd & _); [by_computation|].
  exact Hnd.
Defined.

(** X4 at a sample: the block of the first week of a team tab. *)
Lemma getWeekColumnBlocks_shape_witness :
  5 ≤ getLastColumn falconsThree.
Proof.
  destruct (getWeekColumnBlocks_shape (host true true) falconsThree
              (mkBlock 3 7 "Sep 1, 2025")) as (Hw & _).
  - vm_compute. apply list_elem_of_here.
  - exact Hw.
Defined.

(** X5 at a sample: a team tab whose first week is active. *)
Lemma active_block_is_week_block_witness :
  ∃ blk, blk ∈ getWeekColumnBlocks (host true true) falconsTyped5
         ∧ startCol blk = 3 ∧ endCol blk = 7.
Proof.
  destruct (active_block_is_week_block (host true true) falconsTyped5 3 7)
    as (blk & Hin & Hs & He & _); [by_computation|].
  by exists blk.
Defined.

(** X6 at a sample: the third rank column of the active week. *)
Lemma active_block_column_has_active_week_witness :
  getActiveWeekForSheet (host true true) falconsTyped5
  = Ok (Some (getWeekForInfractionCol (host true true) falconsTyped5
                (dataCols falconsTyped5) 4)).
Proof.
  apply (active_block_column_has_active_week (host true true) falconsTyped5 3 7 4).
  - by_computation.
  - lia.
  - intros c H1 H2. assert (c = 4 ∨ c = 5) as [-> | ->] by lia; by_computation.
Defined.

(** X20 at a sample: a list of one team. *)
Lemma resetTeamSyncStatus_restarts_sync_witness :
  teamSyncMap (syncNextTeamForToday (host true true)
                 (resetTeamSyncStatus (host true true) rosterWorld))
  = Some (SyncJson {["Falcons" := "2025-09-01"]}).
Proof.
  apply (resetTeamSyncStatus_restarts_sync (host true true) rosterWorld (sheetOf teamHeader)
           "Falcons" []); by_computation.
Defined.

(** X22 at a sample: a first answer without an address, then a valid one. *)
Lemma promptForEmailSetup_saves_valid_address_witness :
  getSavedUserEmail_
    (mkWorld [] None (Some "t@x.org") []
       [mkUi "" "Please enter a valid email address.";
        mkUi "" "Thanks! Your email is set to: t@x.org"])
  = Some (trim "t@x.org").
Proof.
  destruct (promptForEmailSetup_saves_valid_address (host true true) twoAnswers
              (worldOf [] None)
              (mkWorld [] None (Some "t@x.org") []
                 [mkUi "" "Please enter a valid email address.";
                  mkUi "" "Thanks! Your email is set to: t@x.org"])
              (Ok (Some "t@x.org"))) as (_ & _ & _ & _ & _ & Hsaved); [by_computation|].
  exact Hsaved.
Defined.

(** X23 at a sample: a log of four rows, pruned to one row below the first. *)
Lemma pruneDebugLogSheet_keeps_last_rows_witness :
  ∃ log', getSheetByName "DebugLog" (pruneDebugLogSheet 1 logged) = Some log'
          ∧ getLastRow log' = 2
          ∧ getValue log' 2 2 = getValue fourLines 4 2.
Proof.
  destruct (pruneDebugLogSheet_keeps_last_rows 1 logged fourLines)
    as (log' & Hlog & Hlast & _ & Hrows & _); try by_computation.
  exists log'. split; [done|]. split; [done|]. apply (Hrows 2 2). lia.
Defined.

(** X27 at a sample: the rows of student 1001. *)
Lemma byStudentID_student_has_target_witness :
  ∃ target matchType,
    selectTarget (host true true) importCols (drop 1 importData) = Some (target, matchType)
    ∧ target ∈ drop 1 importData.
Proof.
  destruct (byStudentID_student_has_target (host true true) importCols importData
              {["1001" := drop 1 importData]} "1001" (drop 1 importData))
    as (target & matchType & Hsel & Hin & _); [by_computation..|].
  by exists target, matchType.
Defined.

(** X28 at a sample: a source without the title SSID. *)
Lemma importNeededStudentColumns_missing_title_witness :
  cellValue (importNeededStudentColumns (host true true) (Ok (Some rawShort)) alertWorld).1
            "ImportList" 1 1
  = VStr "".
Proof.
  destruct (importNeededStudentColumns_missing_title (host true true) rawShort alertWorld
              "SSID") as (_ & _ & Hempty & _).
  - apply list_elem_of_here.
  - by_computation.
  - exact (Hempty 1 1).
Defined.

(** X29 at a sample: a source with the fourteen titles. *)
Lemma importNeededStudentColumns_copies_columns_witness :
  cellValue (importNeededStudentColumns (host true true) (Ok (Some raw)) alertWorld).1
            "ImportList" 2 10
  = getValue raw 2 10.
Proof.
  destruct (importNeededStudentColumns_copies_columns (host true true) raw alertWorld
              (seq 0 14)) as (_ & _ & _ & Hrows & _); [by_computation|].
  apply (Hrows 2 9 9); by_computation.
Defined.

(** X16 at a sample: a team that was synced the day before. *)
Lemma syncRosterForTeam_rebuilds_tab_witness :
  ∃ tab, getSheetByName "Falcons" (syncRosterForTeam (host true true) "Falcons" syncedYesterday)
         = Some tab
         ∧ notes tab = notes falconsThree
         ∧ getValue tab 1 4 = VStr "Falcons".
Proof.
  destruct (syncRosterForTeam_rebuilds_tab (host true true) "Falcons" syncedYesterday
              (sheetOf teamHeader)) as (tab & Htab & Hnotes & Hd1 & _); try by_computation.
  exists tab. split; [exact Htab|]. split; [|exact Hd1].
  rewrite Hnotes. by_computation.
Defined.

(** X17 at a sample: the mark of rank 1 of student S1, typed into the
    tab and logged in the ledger, is shown after the sync; the mark of
    rank 3, which no ledger row holds, is gone. *)
Lemma syncRosterForTeam_marks_come_from_ledger_witness :
  cellValue (syncRosterForTeam (host true true) "Falcons" loggedYesterday) "Falcons" 4 3
  = VStr "X"
  ∧ cellValue (syncRosterForTeam (host true true) "Falcons" loggedYesterday) "Falcons" 4 5
    = VStr "".
Proof.
  split.
  - destruct (syncRosterForTeam_marks_come_from_ledger (host true true) "Falcons"
                loggedYesterday (sheetOf teamHeader) 0 3 2) as (Hcell & _);
      [by_computation..|].
    refine (eq_trans Hcell _). by_computation.
  - destruct (syncRosterForTeam_marks_come_from_ledger (host true true) "Falcons"
                loggedYesterday (sheetOf teamHeader) 0 3 4) as (_ & _ & Hnone);
      [by_computation..|].
    apply Hnone. by_computation.
Defined.


(** X30 at a sample: a body whose only token is not a merge key. *)
Lemma expand_without_tokens_witness :
  expand (host true true) ["Grade"; "Team"] [("Grade", Some (VStr "7"))]
         "Fifth infraction" "Student {{DSID}}"
  = ("Fifth infraction", "Student {{DSID}}").
Proof.
  apply (expand_without_tokens (host true true)).
  intros k Hk. rewrite !elem_of_cons, elem_of_nil in Hk.
  destruct Hk as [->|[->|[]]]; by_computation.
Defined.

(** X11 at a sample: the identity snapshot of a logged row. *)
Lemma processNewEvents_keeps_logged_rows_witness :
  cellValue (processNewEvents (host true true) changedWorld).1 "EventLog" 2 12
  = getValue loggedTwo 2 12.
Proof.
  apply (processNewEvents_keeps_logged_rows (host true true) changedWorld loggedTwo eq_refl
           2 "All Student Data" 11); by_computation.
Defined.

(** X7 at a sample: a team tab whose first week is active. *)
Lemma active_label_resolves_block_witness :
  ∃ block, getActiveWeekBlockCols (host true true) falconsTyped5 = Ok (Some block).
Proof.
  apply (active_label_resolves_block (host true true) falconsTyped5 "Week of Sep 1, 2025");
    by_computation.
Defined.

(** X15 at a sample: a team that was synced the day before. *)
Lemma syncRosterForTeam_records_sync_date_witness :
  parsedSyncMap (syncRosterForTeam (host true true) "Falcons" syncedYesterday) !! "Falcons"
  = Some "2025-09-01".
Proof.
  destruct (syncRosterForTeam_records_sync_date (host true true) "Falcons" syncedYesterday
              (sheetOf teamHeader)) as (_ & Hday & _); [by_computation..|].
  exact Hday.
Defined.
